(** * agent-memex: indexing, similarity search and timeline reconstruction

    A shallow embedding of [tools/memory-search-simple.py] and
    [tools/memory-timeline.py], followed by the properties of the
    specification established (or refuted) on it.

    Conventions of the embedding.
    - A Python [str] is a [string]; one [ascii] stands for one character
      (code points below 256).  [str.encode()] is UTF-8, so characters from
      128 upward take two bytes.
    - A Python [int] is a [Z]; a similarity score (a finite float in the
      source) is a rational [Q].
    - An [Optional[str]] is an [option string]; Python truthiness of such a
      value ([None] and [''] are falsy) is written out where the code uses it.
    - Code that can raise returns an [outcome]. *)

From Stdlib Require Import ZArith QArith List String Ascii Bool Lia.
From Stdlib Require Import Permutation Sorted DecimalString.
Import ListNotations.

Local Open Scope string_scope.
Local Open Scope Z_scope.

(* ================================================================== *)
(** ** Python string operations *)
(* ================================================================== *)

Module PyStr.

Definition code (c : ascii) : Z := Z.of_N (N_of_ascii c).

(** [s[:n]] for [n >= 0]. *)
Fixpoint take (n : nat) (s : string) : string :=
  match n, s with
  | O, _ => EmptyString
  | S _, EmptyString => EmptyString
  | S n', String c s' => String c (take n' s')
  end.

(** [s[n:]] for [n >= 0]. *)
Fixpoint drop (n : nat) (s : string) : string :=
  match n, s with
  | O, _ => s
  | S _, EmptyString => EmptyString
  | S n', String _ s' => drop n' s'
  end.

(** Truthiness of a [str]: only [''] is falsy. *)
Definition truthy (s : string) : bool :=
  match s with EmptyString => false | String _ _ => true end.

(** Truthiness of an [Optional[str]]. *)
Definition truthy_opt (o : option string) : bool :=
  match o with None => false | Some s => truthy s end.

(** [o or '']. *)
Definition or_empty (o : option string) : string :=
  match o with None => "" | Some s => s end.

(** [str.isspace] of one character, for code points below 256. *)
Definition isspace (c : ascii) : bool :=
  let n := code c in
  ((9 <=? n) && (n <=? 13)) || ((28 <=? n) && (n <=? 32))
  || (n =? 133) || (n =? 160).

Definition isdigit (c : ascii) : bool :=
  let n := code c in (48 <=? n) && (n <=? 57).

Fixpoint lstrip_by (p : ascii -> bool) (s : string) : string :=
  match s with
  | EmptyString => EmptyString
  | String c s' => if p c then lstrip_by p s' else s
  end.

Fixpoint rev_onto (s acc : string) : string :=
  match s with
  | EmptyString => acc
  | String c s' => rev_onto s' (String c acc)
  end.

Definition reverse (s : string) : string := rev_onto s EmptyString.

Definition rstrip_by (p : ascii -> bool) (s : string) : string :=
  reverse (lstrip_by p (reverse s)).

Definition strip_by (p : ascii -> bool) (s : string) : string :=
  rstrip_by p (lstrip_by p s).

(** [s.strip()]. *)
Definition strip : string -> string := strip_by isspace.

(** [s.strip('# ')]. *)
Definition strip_hash_space : string -> string :=
  strip_by (fun c => Ascii.eqb c "#" || Ascii.eqb c " ").

(** [s.lstrip('#')]. *)
Definition lstrip_hash : string -> string :=
  lstrip_by (fun c => Ascii.eqb c "#").

(** [s.startswith(p)]. *)
Definition startswith (p s : string) : bool := String.prefix p s.

(** [s.split(sep)] for a one-character separator: never an empty list. *)
Fixpoint split_on (sep : ascii) (s : string) : list string :=
  match s with
  | EmptyString => [EmptyString]
  | String c s' =>
      if Ascii.eqb c sep then EmptyString :: split_on sep s'
      else match split_on sep s' with
           | [] => [String c EmptyString]
           | w :: ws => String c w :: ws
           end
  end.

(** [s.count(c)] for a one-character pattern. *)
Fixpoint count_char (c : ascii) (s : string) : nat :=
  match s with
  | EmptyString => O
  | String d s' => (if Ascii.eqb d c then 1 else 0)%nat + count_char c s'
  end.

(** [s.replace(old, '')] with a non-empty [old]: every occurrence, found
    left to right without overlap, is removed.  [fuel] bounds the scan by
    the length of the text. *)
Fixpoint remove_all_fuel (fuel : nat) (old s : string) : string :=
  match fuel with
  | O => s
  | S fuel' =>
      match s with
      | EmptyString => EmptyString
      | String c s' =>
          if String.prefix old s
          then remove_all_fuel fuel' old (drop (String.length old) s)
          else String c (remove_all_fuel fuel' old s')
      end
  end.

Definition remove_all (old s : string) : string :=
  remove_all_fuel (String.length s) old s.

(** [s.lower()] for code points below 256. *)
Definition lower_char (c : ascii) : ascii :=
  let n := code c in
  if ((65 <=? n) && (n <=? 90))
     || ((192 <=? n) && (n <=? 222) && negb (n =? 215))
  then ascii_of_N (Z.to_N (n + 32)) else c.

Fixpoint lower (s : string) : string :=
  match s with
  | EmptyString => EmptyString
  | String c s' => String (lower_char c) (lower s')
  end.

(** [s.encode()]: UTF-8. *)
Fixpoint encode (s : string) : list Z :=
  match s with
  | EmptyString => []
  | String c s' =>
      let n := code c in
      if n <? 128 then n :: encode s'
      else (192 + n / 64) :: (128 + n mod 64) :: encode s'
  end.

(** [str(z)] for an [int]. *)
Definition str_of_int (z : Z) : string :=
  NilZero.string_of_int (Z.to_int z).

(** A decimal text padded with zeros on the left up to [width] characters. *)
Fixpoint zeros (n : nat) : string :=
  match n with
  | O => EmptyString
  | S k => String "0" (zeros k)
  end.

Definition zero_pad (width : nat) (s : string) : string :=
  zeros (width - String.length s) ++ s.

End PyStr.

(* ================================================================== *)
(** ** [hashlib.md5] (RFC 1321) *)
(* ================================================================== *)

Module MD5.

Definition w32 : Z := 4294967296.

Definition add32 (x y : Z) : Z := (x + y) mod w32.
Definition not32 (x : Z) : Z := Z.lxor x 4294967295.
Definition rotl32 (x c : Z) : Z :=
  Z.lor (Z.shiftl x c mod w32) (Z.shiftr x (32 - c)).

Definition K : list Z :=
  [ 0xd76aa478; 0xe8c7b756; 0x242070db; 0xc1bdceee;
    0xf57c0faf; 0x4787c62a; 0xa8304613; 0xfd469501;
    0x698098d8; 0x8b44f7af; 0xffff5bb1; 0x895cd7be;
    0x6b901122; 0xfd987193; 0xa679438e; 0x49b40821;
    0xf61e2562; 0xc040b340; 0x265e5a51; 0xe9b6c7aa;
    0xd62f105d; 0x02441453; 0xd8a1e681; 0xe7d3fbc8;
    0x21e1cde6; 0xc33707d6; 0xf4d50d87; 0x455a14ed;
    0xa9e3e905; 0xfcefa3f8; 0x676f02d9; 0x8d2a4c8a;
    0xfffa3942; 0x8771f681; 0x6d9d6122; 0xfde5380c;
    0xa4beea44; 0x4bdecfa9; 0xf6bb4b60; 0xbebfbc70;
    0x289b7ec6; 0xeaa127fa; 0xd4ef3085; 0x04881d05;
    0xd9d4d039; 0xe6db99e5; 0x1fa27cf8; 0xc4ac5665;
    0xf4292244; 0x432aff97; 0xab9423a7; 0xfc93a039;
    0x655b59c3; 0x8f0ccc92; 0xffeff47d; 0x85845dd1;
    0x6fa87e4f; 0xfe2ce6e0; 0xa3014314; 0x4e0811a1;
    0xf7537e82; 0xbd3af235; 0x2ad7d2bb; 0xeb86d391 ].

Definition shifts : list Z :=
  [ 7; 12; 17; 22; 7; 12; 17; 22; 7; 12; 17; 22; 7; 12; 17; 22;
    5; 9; 14; 20; 5; 9; 14; 20; 5; 9; 14; 20; 5; 9; 14; 20;
    4; 11; 16; 23; 4; 11; 16; 23; 4; 11; 16; 23; 4; 11; 16; 23;
    6; 10; 15; 21; 6; 10; 15; 21; 6; 10; 15; 21; 6; 10; 15; 21 ].

(** The chaining state: four 32-bit words. *)
Record state := State { sa : Z; sb : Z; sc : Z; sd : Z }.

Definition init : state :=
  State 0x67452301 0xefcdab89 0x98badcfe 0x10325476.

(** Message padding: a [0x80] byte, zeros up to 56 modulo 64, then the bit
    length on 8 little-endian bytes. *)
Definition le_bytes (n : nat) (x : Z) : list Z :=
  map (fun i => Z.shiftr x (8 * Z.of_nat i) mod 256) (seq 0 n).

Definition pad (msg : list Z) : list Z :=
  let len := Z.of_nat (List.length msg) in
  let zeros := Z.to_nat ((55 - len) mod 64) in
  msg ++ [128] ++ repeat 0 zeros ++ le_bytes 8 ((8 * len) mod 2 ^ 64).

Definition word_le (bs : list Z) : Z :=
  fold_right (fun b acc => b + 256 * acc) 0 bs.

(** The sixteen little-endian words of the 64-byte block number [i]. *)
Definition block_words (padded : list Z) (i : nat) : list Z :=
  let blk := firstn 64 (skipn (64 * i) padded) in
  map (fun j => word_le (firstn 4 (skipn (4 * j) blk))) (seq 0 16).

Definition step (M : list Z) (st : state) (i : nat) : state :=
  let '(State A B C D) := st in
  let zi := Z.of_nat i in
  let '(F, g) :=
    if zi <? 16 then (Z.lor (Z.land B C) (Z.land (not32 B) D), zi)
    else if zi <? 32 then
      (Z.lor (Z.land D B) (Z.land (not32 D) C), (5 * zi + 1) mod 16)
    else if zi <? 48 then (Z.lxor B (Z.lxor C D), (3 * zi + 5) mod 16)
    else (Z.lxor C (Z.lor B (not32 D)), (7 * zi) mod 16) in
  let F' := add32 (add32 (add32 F A) (nth i K 0)) (nth (Z.to_nat g) M 0) in
  State D (add32 B (rotl32 F' (nth i shifts 0))) B C.

Definition compress (st : state) (M : list Z) : state :=
  let '(State A B C D) := fold_left (step M) (seq 0 64) st in
  State (add32 (sa st) A) (add32 (sb st) B)
        (add32 (sc st) C) (add32 (sd st) D).

Definition digest (msg : list Z) : list Z :=
  let padded := pad msg in
  let nblocks := (List.length padded / 64)%nat in
  let st := fold_left compress (map (block_words padded) (seq 0 nblocks)) init in
  le_bytes 4 (sa st) ++ le_bytes 4 (sb st)
  ++ le_bytes 4 (sc st) ++ le_bytes 4 (sd st).

Definition hex_digit (n : Z) : ascii :=
  if n <? 10 then ascii_of_N (Z.to_N (48 + n))
  else ascii_of_N (Z.to_N (87 + n)).

Fixpoint hex (bs : list Z) : string :=
  match bs with
  | [] => EmptyString
  | b :: bs' => String (hex_digit (b / 16)) (String (hex_digit (b mod 16)) (hex bs'))
  end.

(** [hashlib.md5(msg).hexdigest()]. *)
Definition hexdigest (msg : list Z) : string := hex (digest msg).

End MD5.

(* ================================================================== *)
(** ** The entry model *)
(* ================================================================== *)

(** [MemoryEntry]: a single memory entry with metadata. *)
Record MemoryEntry := mkEntry {
  id : string;
  content : string;
  source : string;
  layer : string;
  timestamp : option string;
  entity : option string;
  category : option string
}.

(** [MemoryEntry.generate_id]. *)
Definition generate_id (content source : string) : string :=
  let hash_input := source ++ ":" ++ PyStr.take 200 content in
  PyStr.take 12 (MD5.hexdigest (PyStr.encode hash_input)).


(* ================================================================== *)
(** ** Outcomes, stable sorting, the platform *)
(* ================================================================== *)

(** The exceptions the modelled code can let escape. *)
Inductive exn :=
| ImportError | AttributeError | ValueError | IndexError
| OverflowError | OSError | SystemExit (status : Z).

Inductive outcome (A : Type) :=
| Returned (a : A)
| Raised (e : exn).
Arguments Returned {A} a.
Arguments Raised {A} e.

(** Python's [sorted] and [list.sort] are stable: an insertion sort that
    puts an element in front of the first one it does not exceed. *)
Section StableSort.
Context {A : Type} (leb : A -> A -> bool).

Fixpoint insert (x : A) (l : list A) : list A :=
  match l with
  | [] => [x]
  | y :: ys => if leb x y then x :: y :: ys else y :: insert x ys
  end.

Fixpoint isort (l : list A) : list A :=
  match l with
  | [] => []
  | x :: xs => insert x (isort xs)
  end.
End StableSort.

(** A fitted vectoriser together with its document-term matrix, seen through
    the only use the code makes of the pair: the row of cosine similarities
    [cosine_similarity(vectorizer.transform([query]), matrix).flatten()]. *)
Definition Fitted := string -> list Q.

(** What the code takes from outside the repository. *)
Record Platform := {
  (** [has_sklearn()]: the import of scikit-learn succeeds. *)
  sklearn_installed : bool;
  (** [TfidfVectorizer(max_features=5000, stop_words='english',
      ngram_range=(1, 2), min_df=1, max_df=0.95).fit_transform(documents)];
      [None] when scikit-learn raises [ValueError]. *)
  tfidf_fit : list string -> option Fitted;
  (** [numpy.argsort]: the indices that sort the scores ascending. *)
  argsort : list Q -> list nat;
  (** [datetime.fromisoformat], as microseconds since 0001-01-01T00:00;
      [None] when it raises [ValueError]. *)
  fromisoformat : string -> option Z
}.

(* ================================================================== *)
(** ** The files the tools read and write *)
(* ================================================================== *)

(** [read_text] / [open(...).read()] of a path. *)
Inductive read_result :=
| ReadOk (text : string)
| ReadFails.

(** An entry of [MEMORY_DIR.glob("*.md")]. *)
Record MdFile := {
  md_name : string;
  md_is_dir : bool;
  md_read : read_result
}.

(** A record of [items.json], by the keys the indexer reads; a field is
    [None] when the key is absent.  Values have the types [MemoryEntry]
    declares for the fields they end in. *)
Record FactRecord := {
  fr_id : option string;
  fr_fact : option string;
  fr_timestamp : option string;
  fr_category : option string
}.

Inductive Item :=
| ItemRecord (r : FactRecord)
| ItemNotDict.

(** [json.load] of an [items.json] as the indexer handles it: a list, a
    dict (with or without the key ['items']), or anything that ends in the
    [except] branch without an entry. *)
Inductive ItemsJson :=
| ItemsList (items : list Item)
| ItemsDict (items_key : option (list Item))
| ItemsUnreadable.

(** A child of an area directory. *)
Record EntityNode := {
  en_name : string;
  en_is_dir : bool;
  en_summary : option read_result;   (** [summary.md], when it exists *)
  en_items : option ItemsJson        (** [items.json], when it exists *)
}.

(** A value of an untyped JSON record, as the timeline reads it. *)
Inductive pyval :=
| PNone
| PInt (z : Z)
| PStr (s : string).

Inductive TItem :=
| TRecord (ts : option pyval) (fact : option pyval)
| TNotDict.

(** [json.load] of an [items.json] as the timeline handles it. *)
Inductive TItemsJson :=
| TBareList (items : list TItem)
| TWrapped (key : string) (items : list TItem)
| TUnreadable.

(** An entry of [kg_dir.rglob('items.json')]. *)
Record ItemsFile := {
  if_path : string;
  if_entity : string;     (** [items_file.parent.name] *)
  if_mtime : Z;           (** [datetime.fromtimestamp(st_mtime)], microseconds *)
  if_json : TItemsJson
}.

(** [index.pkl]: the entries, and the vectoriser and matrix fitted on them. *)
Record Index := {
  idx_entries : list MemoryEntry;
  idx_model : Fitted
}.

Record World := {
  workspace_dir : string;                       (** [str(WORKSPACE_DIR)] *)
  life_areas_dir : string;                      (** [str(LIFE_AREAS_DIR)] *)
  memory_dir : option (list MdFile);            (** [None]: no such directory *)
  memory_md : option read_result;               (** [MEMORY.md], when it exists *)
  agents_md : option read_result;
  heartbeat_md : option read_result;
  life_areas : option (string -> option (list EntityNode));
  items_files : option (list ItemsFile);
  tools_skills : option (list (string * read_result));
                                   (** [TOOLS_DIR.rglob("SKILL.md")]: path, text *)
  index_pkl : option Index
}.

Definition path_join (dir name : string) : string := dir ++ "/" ++ name.

(* ================================================================== *)
(** ** [SimpleMemoryIndexer] *)
(* ================================================================== *)

(** Does the text start with one to three ['#'] and then a whitespace
    character: the lookahead [(?=#{1,3}\s)]. *)
Definition heading_ahead (s : string) : bool :=
  match s with
  | String "#" (String c1 r1) =>
      PyStr.isspace c1
      || (Ascii.eqb c1 "#"
          && match r1 with
             | String c2 r2 =>
                 PyStr.isspace c2
                 || (Ascii.eqb c2 "#"
                     && match r2 with
                        | String c3 _ => PyStr.isspace c3
                        | EmptyString => false
                        end)
             | EmptyString => false
             end)
  | _ => false
  end.

(** [re.split(r'\n(?=#{1,3}\s)', content)]. *)
Fixpoint re_split_sections (s : string) : list string :=
  match s with
  | EmptyString => [EmptyString]
  | String c s' =>
      if Ascii.eqb c "010" && heading_ahead s'
      then EmptyString :: re_split_sections s'
      else match re_split_sections s' with
           | [] => [String c EmptyString]
           | p :: ps => String c p :: ps
           end
  end.

Definition _split_by_sections (content : string) : list string :=
  map PyStr.strip
      (filter (fun p => PyStr.truthy (PyStr.strip p)) (re_split_sections content)).

(** [re.match(r'(\d{4}-\d{2}-\d{2})', filename)]. *)
Definition date_shaped (s : string) : bool :=
  match s with
  | String y1 (String y2 (String y3 (String y4 (String h1
      (String m1 (String m2 (String h2 (String d1 (String d2 _))))))))) =>
      PyStr.isdigit y1 && PyStr.isdigit y2 && PyStr.isdigit y3 && PyStr.isdigit y4
      && Ascii.eqb h1 "-" && PyStr.isdigit m1 && PyStr.isdigit m2
      && Ascii.eqb h2 "-" && PyStr.isdigit d1 && PyStr.isdigit d2
  | _ => false
  end.

Definition _extract_date_from_filename (filename : string) : option string :=
  if date_shaped filename then Some (PyStr.take 10 filename) else None.

Definition _extract_category_from_section (section : string) : option string :=
  match filter (PyStr.startswith "#") (firstn 3 (PyStr.split_on "010" section)) with
  | line :: _ => Some (PyStr.lower (PyStr.strip (PyStr.lstrip_hash line)))
  | [] => None
  end.

(** The entries of one sectioned document: sections shorter than [threshold]
    are left out. *)
Definition section_entries (threshold : nat) (layer_name path : string)
    (stamp : option string) (text : string) : list MemoryEntry :=
  flat_map
    (fun section =>
       if (String.length (PyStr.strip section) <? threshold)%nat then []
       else [ {| id := generate_id section path;
                 content := section;
                 source := path;
                 layer := layer_name;
                 timestamp := stamp;
                 entity := None;
                 category := _extract_category_from_section section |} ])
    (_split_by_sections text).

Definition sorted_md (files : list MdFile) : list MdFile :=
  isort (fun a b => String.leb (md_name a) (md_name b)) files.

Definition daily_dir (w : World) : string := path_join (workspace_dir w) "memory".

Definition _index_daily_notes (w : World) : list MemoryEntry :=
  match memory_dir w with
  | None => []
  | Some files =>
      flat_map
        (fun f =>
           if md_is_dir f then []
           else match md_read f with
                | ReadFails => []
                | ReadOk text =>
                    section_entries 50 "daily" (path_join (daily_dir w) (md_name f))
                      (_extract_date_from_filename (md_name f)) text
                end)
        (sorted_md files)
  end.

Definition tacit_files (w : World) : list (string * option read_result) :=
  [ (path_join (workspace_dir w) "MEMORY.md", memory_md w);
    (path_join (workspace_dir w) "AGENTS.md", agents_md w);
    (path_join (workspace_dir w) "HEARTBEAT.md", heartbeat_md w) ].

Definition _index_tacit_knowledge (w : World) : list MemoryEntry :=
  flat_map
    (fun pf =>
       match snd pf with
       | Some (ReadOk text) => section_entries 30 "tacit" (fst pf) None text
       | _ => []
       end)
    (tacit_files w).

Definition area_types : list string :=
  ["people"; "companies"; "projects"; "skills"; "workflows"].

Definition summary_entries (area_type entity_dir : string) (e : EntityNode)
  : list MemoryEntry :=
  match en_summary e with
  | Some (ReadOk text) =>
      let summary_file := path_join entity_dir "summary.md" in
      [ {| id := generate_id text summary_file;
           content := text;
           source := summary_file;
           layer := "knowledge_graph";
           timestamp := None;
           entity := Some (en_name e);
           category := Some ("summary:" ++ area_type) |} ]
  | _ => []
  end.

Definition fact_entry (items_file entity_name : string) (r : FactRecord)
  : list MemoryEntry :=
  let fact_text := PyStr.or_empty (fr_fact r) in
  if negb (PyStr.truthy fact_text) then []
  else [ {| id := match fr_id r with
                  | Some i => i
                  | None => generate_id fact_text items_file
                  end;
            content := fact_text;
            source := items_file;
            layer := "knowledge_graph";
            timestamp := fr_timestamp r;
            entity := Some entity_name;
            category := Some (match fr_category r with
                              | Some c => c
                              | None => "fact"
                              end) |} ].

(** The list the loop over [items] runs on: the document itself, or the
    value under ['items'] of a dict ([[]] without the key); a document that
    cannot be read or iterated gives nothing. *)
Definition loaded_items (e : EntityNode) : list Item :=
  match en_items e with
  | Some (ItemsList l) => l
  | Some (ItemsDict (Some l)) => l
  | Some (ItemsDict None) => []
  | Some ItemsUnreadable => []
  | None => []
  end.

Definition items_entries (entity_dir : string) (e : EntityNode)
  : list MemoryEntry :=
  let items_file := path_join entity_dir "items.json" in
  flat_map
    (fun item =>
       match item with
       | ItemNotDict => []
       | ItemRecord r => fact_entry items_file (en_name e) r
       end)
    (loaded_items e).

Definition _index_knowledge_graph (w : World) : list MemoryEntry :=
  match life_areas w with
  | None => []
  | Some areas =>
      flat_map
        (fun area_type =>
           match areas area_type with
           | None => []
           | Some children =>
               flat_map
                 (fun e =>
                    if negb (en_is_dir e) then []
                    else
                      let entity_dir :=
                        path_join (path_join (life_areas_dir w) area_type) (en_name e) in
                      (summary_entries area_type entity_dir e
                       ++ items_entries entity_dir e)%list)
                 children
           end)
        area_types
  end.

Definition _index_tools (w : World) : list MemoryEntry :=
  match tools_skills w with
  | None => []
  | Some files =>
      flat_map
        (fun pf =>
           match snd pf with
           | ReadFails => []
           | ReadOk text =>
               [ {| id := generate_id text (fst pf);
                    content := text;
                    source := fst pf;
                    layer := "tools";
                    timestamp := None;
                    entity := None;
                    category := Some "skill" |} ]
           end)
        files
  end.

(** The attributes of a [SimpleMemoryIndexer]; [ix_model] is [None] while
    [vectorizer] and [matrix] are. *)
Record Indexer := {
  ix_entries : list MemoryEntry;
  ix_model : option Fitted
}.

Definition new_indexer : Indexer := {| ix_entries := []; ix_model := None |}.

(** [_save_index]: writes [index.pkl], creating the tools directory. *)
Definition _save_index (w : World) (entries : list MemoryEntry) (m : Fitted) : World :=
  {| workspace_dir := workspace_dir w;
     life_areas_dir := life_areas_dir w;
     memory_dir := memory_dir w;
     memory_md := memory_md w;
     agents_md := agents_md w;
     heartbeat_md := heartbeat_md w;
     life_areas := life_areas w;
     items_files := items_files w;
     tools_skills := match tools_skills w with
                     | None => Some []
                     | Some l => Some l
                     end;
     index_pkl := Some {| idx_entries := entries; idx_model := m |} |}.

(** The collectors in the order [index_all] runs them. *)
Definition collect_all (w : World) : list MemoryEntry :=
  _index_daily_notes w ++ _index_tacit_knowledge w
  ++ _index_knowledge_graph w ++ _index_tools w.

Definition index_all (P : Platform) (self : Indexer) (w : World)
  : outcome Z * Indexer * World :=
  if negb (sklearn_installed P) then (Returned 0, self, w)
  else
    let entries := collect_all w in
    let self1 := {| ix_entries := entries; ix_model := ix_model self |} in
    match entries with
    | [] => (Returned 0, self1, w)
    | _ :: _ =>
        match tfidf_fit P (map content entries) with
        | None => (Raised ValueError, self1, w)
        | Some m =>
            (Returned (Z.of_nat (List.length entries)),
             {| ix_entries := entries; ix_model := Some m |},
             _save_index w entries m)
        end
    end.

(** [load_index]: unpickling the vectoriser needs scikit-learn; any failure
    is caught and reported as [False]. *)
Definition load_index (P : Platform) (self : Indexer) (w : World)
  : bool * Indexer :=
  match index_pkl w with
  | None => (false, self)
  | Some idx =>
      if sklearn_installed P
      then (true, {| ix_entries := idx_entries idx; ix_model := Some (idx_model idx) |})
      else (false, self)
  end.

(* ================================================================== *)
(** ** [SimpleMemorySearcher] *)
(* ================================================================== *)

Record Metadata := {
  m_source : string;
  m_layer : string;
  m_timestamp : string;
  m_entity : string;
  m_category : string
}.

(** The query result record. *)
Record Result := {
  r_id : string;
  r_content : string;
  r_metadata : Metadata;
  r_relevance : Q
}.

Definition make_result (entry : MemoryEntry) (relevance : Q) : Result :=
  {| r_id := id entry;
     r_content := content entry;
     r_metadata :=
       {| m_source := source entry;
          m_layer := layer entry;
          m_timestamp := PyStr.or_empty (timestamp entry);
          m_entity := PyStr.or_empty (entity entry);
          m_category := PyStr.or_empty (category entry) |};
     r_relevance := relevance |}.

(** [a != b] for an [Optional[str]] against a [str]. *)
Definition opt_differs (a : option string) (b : string) : bool :=
  match a with
  | None => true
  | Some s => negb (String.eqb s b)
  end.

(** The three [continue] tests of the scan. *)
Definition skip_layer (layer_arg : option string) (entry : MemoryEntry) : bool :=
  match layer_arg with
  | Some l => PyStr.truthy l && negb (String.eqb (layer entry) l)
  | None => false
  end.

Definition skip_since (since : option string) (entry : MemoryEntry) : bool :=
  match since, timestamp entry with
  | Some s, Some t => PyStr.truthy s && PyStr.truthy t && String.ltb t s
  | _, _ => false
  end.

Definition skip_entity (entity_arg : option string) (entry : MemoryEntry) : bool :=
  match entity_arg with
  | Some e => PyStr.truthy e && opt_differs (entity entry) e
  | None => false
  end.

Definition skips (layer_arg since entity_arg : option string)
    (entry : MemoryEntry) : bool :=
  skip_layer layer_arg entry || skip_since since entry
  || skip_entity entity_arg entry.

(** The loop over [top_indices], [results] being the list built so far. *)
Fixpoint scan (entries : list MemoryEntry) (similarities : list Q) (limit : Z)
    (layer_arg since entity_arg : option string)
    (top_indices : list nat) (results : list Result) : outcome (list Result) :=
  match top_indices with
  | [] => Returned results
  | idx :: rest =>
      match nth_error entries idx, nth_error similarities idx with
      | Some entry, Some sim =>
          if skips layer_arg since entity_arg entry
          then scan entries similarities limit layer_arg since entity_arg rest results
          else
            let results' := (results ++ [make_result entry sim])%list in
            if Z.of_nat (List.length results') >=? limit
            then Returned results'
            else scan entries similarities limit layer_arg since entity_arg rest results'
      | _, _ => Raised IndexError
      end
  end.

(** The part of [search] that runs once the indexer holds what it holds. *)
Definition search_loaded (P : Platform) (self : Indexer) (query : string)
    (limit : Z) (layer_arg since entity_arg : option string)
  : outcome (list Result) :=
  if negb (sklearn_installed P) then Raised ImportError
  else
    match ix_model self with
    | None => Raised AttributeError
    | Some m =>
        let similarities := m query in
        let top_indices := rev (argsort P similarities) in
        scan (ix_entries self) similarities limit layer_arg since entity_arg
             top_indices []
    end.

(** [SimpleMemorySearcher().search(query, limit, layer, since, entity)]. *)
Definition search (P : Platform) (w : World) (query : string) (limit : Z)
    (layer_arg since entity_arg : option string)
  : outcome (list Result) * World :=
  let '(loaded, self1) := load_index P new_indexer w in
  if loaded
  then (search_loaded P self1 query limit layer_arg since entity_arg, w)
  else
    match index_all P self1 w with
    | (Raised e, _, w') => (Raised e, w')
    | (Returned _, self2, w') =>
        let '(_, self3) := load_index P self2 w' in
        (search_loaded P self3 query limit layer_arg since entity_arg, w')
    end.

(** The [--ids] branch of [main]: the body of [if args.ids:], with
    [sys.exit(1)] when no index can be loaded. *)
Definition requested_ids (ids : string) : list string :=
  map PyStr.strip (PyStr.split_on "," ids).

Definition id_requested (requested : list string) (entry : MemoryEntry) : bool :=
  existsb (String.eqb (id entry)) requested.

Definition lookup_loop (requested : list string) (entries : list MemoryEntry)
    (results : list Result) : list Result :=
  fold_left
    (fun results entry =>
       if id_requested requested entry
       then (results ++ [make_result entry 1%Q])%list
       else results)
    entries results.

Definition main_ids (P : Platform) (w : World) (ids : string)
  : outcome (list Result) :=
  let '(loaded, self) := load_index P new_indexer w in
  if negb loaded then Raised (SystemExit 1)
  else Returned (lookup_loop (requested_ids ids) (ix_entries self) []).

(* ================================================================== *)
(** ** Dates: the part of [datetime] the timeline uses *)
(* ================================================================== *)

(** A naive [datetime] is the number of microseconds since
    0001-01-01T00:00:00 of the proleptic Gregorian calendar. *)
Module Calendar.

Definition us_per_hour : Z := 3600000000.
Definition us_per_day : Z := 86400000000.
(** The days from 0001-01-01 to 9999-12-31, ends included. *)
Definition max_ordinal : Z := 3652059.

Definition is_leap (y : Z) : bool :=
  (y mod 4 =? 0) && (negb (y mod 100 =? 0) || (y mod 400 =? 0)).

Definition days_in_month (y m : Z) : Z :=
  if m =? 2 then (if is_leap y then 29 else 28)
  else if (m =? 4) || (m =? 6) || (m =? 9) || (m =? 11) then 30
  else 31.

Definition days_before_year (y : Z) : Z :=
  let p := y - 1 in p * 365 + p / 4 - p / 100 + p / 400.

(** Days of the year before the first day of month [m], leap day apart. *)
Definition days_before_month_common (m : Z) : Z :=
  nth (Z.to_nat m) [0; 0; 31; 59; 90; 120; 151; 181; 212; 243; 273; 304; 334] 0.

Definition days_before_month (y m : Z) : Z :=
  days_before_month_common m + (if (2 <? m) && is_leap y then 1 else 0).

(** The ordinal of a date, 0001-01-01 being day 1. *)
Definition ymd2ord (y m d : Z) : Z :=
  days_before_year y + days_before_month y m + d.

(** The date of an ordinal. *)
Definition ord2ymd (ordinal : Z) : Z * Z * Z :=
  let n := ordinal - 1 in
  let n400 := n / 146097 in let n := n mod 146097 in
  let n100 := n / 36524 in let n := n mod 36524 in
  let n4 := n / 1461 in let n := n mod 1461 in
  let n1 := n / 365 in let n := n mod 365 in
  let year := n400 * 400 + 1 + n100 * 100 + n4 * 4 + n1 in
  if (n1 =? 4) || (n100 =? 4) then (year - 1, 12, 31)
  else
    let leapyear := (n1 =? 3) && (negb (n4 =? 24) || (n100 =? 3)) in
    let month := (n + 50) / 32 in
    let preceding :=
      days_before_month_common month
      + (if (2 <? month) && leapyear then 1 else 0) in
    if n <? preceding
    then
      let month' := month - 1 in
      let preceding' :=
        preceding
        - (nth (Z.to_nat month') [0; 31; 28; 31; 30; 31; 30; 31; 31; 30; 31; 30; 31] 0
           + (if (month' =? 2) && leapyear then 1 else 0)) in
      (year, month', n - preceding' + 1)
    else (year, month, n - preceding + 1).

(** [datetime(y, m, d)]: midnight of a valid date. *)
Definition midnight (y m d : Z) : option Z :=
  if (1 <=? y) && (y <=? 9999) && (1 <=? m) && (m <=? 12)
     && (1 <=? d) && (d <=? days_in_month y m)
  then Some ((ymd2ord y m d - 1) * us_per_day)
  else None.

(** [t + timedelta(hours=h)]; [None] when Python raises [OverflowError]. *)
Definition add_hours (t h : Z) : option Z :=
  let r := t + h * us_per_hour in
  if (0 <=? r) && (r <? max_ordinal * us_per_day) then Some r else None.

Definition pad_num (width : nat) (n : Z) : string :=
  PyStr.zero_pad width (PyStr.str_of_int n).

(** [t.strftime('%Y-%m-%d')], the year on four digits. *)
Definition strftime_ymd (t : Z) : string :=
  let '(y, m, d) := ord2ymd (t / us_per_day + 1) in
  pad_num 4 y ++ "-" ++ pad_num 2 m ++ "-" ++ pad_num 2 d.

Definition digit (c : ascii) : Z := PyStr.code c - 48.

(** [datetime.strptime(s, '%Y-%m-%d')] on a text of ten characters, the
    only length it is called with: four digits, a month [1[0-2]|0[1-9]],
    a day [3[01]|[12]\d|0[1-9]| [1-9]], nothing left over. *)
Definition strptime_ymd (s : string) : option Z :=
  match s with
  | String y1 (String y2 (String y3 (String y4 (String h1
      (String m1 (String m2 (String h2 (String d1 (String d2 EmptyString))))))))) =>
      if PyStr.isdigit y1 && PyStr.isdigit y2 && PyStr.isdigit y3
         && PyStr.isdigit y4 && Ascii.eqb h1 "-" && Ascii.eqb h2 "-"
         && PyStr.isdigit m1 && PyStr.isdigit m2
         && (PyStr.isdigit d1 || Ascii.eqb d1 " ") && PyStr.isdigit d2
      then
        let y := 1000 * digit y1 + 100 * digit y2 + 10 * digit y3 + digit y4 in
        let m := 10 * digit m1 + digit m2 in
        let d := (if Ascii.eqb d1 " " then 0 else 10 * digit d1) + digit d2 in
        if (1 <=? m) && (m <=? 12) && (1 <=? d) && (d <=? 31)
        then midnight y m d else None
      else None
  | _ => None
  end.

(** The calendar date written [YYYY-MM-DD] with digits only. *)
Definition iso_date (s : string) : option Z :=
  match s with
  | String _ (String _ (String _ (String _ (String _
      (String _ (String _ (String _ (String d1 (String _ EmptyString))))))))) =>
      if PyStr.isdigit d1 then strptime_ymd s else None
  | _ => None
  end.

End Calendar.

(* ================================================================== *)
(** ** [get_timeline] *)
(* ================================================================== *)

(** [anchor_context]: the dict built on the id path, or the first search
    result on the query path. *)
Inductive anchor_context :=
| AnchorEntry (entry_content entry_source : string) (entry_timestamp : option string)
| AnchorResult (r : Result).

Record Event := {
  ev_date : pyval;
  ev_type : string;
  ev_event : pyval;
  ev_file : string;
  ev_entity : option string        (** the key is absent on daily-note events *)
}.

Record TimeWindow := {
  tw_start : string;
  tw_end : string;
  tw_hours_before : Z;
  tw_hours_after : Z
}.

(** What [get_timeline] returns: [{}] or the three-key dict. *)
Inductive Timeline :=
| EmptyDict
| TimelineDict (anchor : option anchor_context) (time_window : TimeWindow)
    (events : list Event).

(** [timeline.get('time_window')] and [timeline.get('events', [])]. *)
Definition timeline_window (t : Timeline) : option TimeWindow :=
  match t with
  | EmptyDict => None
  | TimelineDict _ tw _ => Some tw
  end.

Definition timeline_events (t : Timeline) : list Event :=
  match t with
  | EmptyDict => []
  | TimelineDict _ _ evs => evs
  end.

(** The anchor search ends in [return {}], or leaves [anchor_context] and
    [anchor_time] as they are when the three branches are over. *)
Inductive resolution :=
| GaveUp
| Resolved (context : option anchor_context) (anchor_time : option Z).

(** [datetime.strptime(ts, '%Y-%m-%d')] under the guard
    [ts and len(ts) == 10], the [except] giving [None]. *)
Definition parse_day (ts : string) : option Z :=
  if PyStr.truthy ts && (String.length ts =? 10)%nat
  then Calendar.strptime_ymd ts else None.

Definition anchor_by_id (P : Platform) (w : World) (memory_id : string)
  : resolution :=
  let clean_id := PyStr.remove_all "mem-" memory_id in
  let '(loaded, self) := load_index P new_indexer w in
  if negb loaded then GaveUp
  else
    match find (fun entry => String.eqb (id entry) clean_id) (ix_entries self) with
    | None => Resolved None None
    | Some entry =>
        Resolved
          (Some (AnchorEntry (content entry) (source entry) (timestamp entry)))
          (match timestamp entry with
           | Some ts => parse_day ts
           | None => None
           end)
    end.

Definition anchor_by_date (P : Platform) (date : string) : resolution :=
  match fromisoformat P date with
  | Some t => Resolved None (Some t)
  | None => GaveUp
  end.

Definition anchor_by_query (P : Platform) (w : World) (query : string)
  : outcome resolution * World :=
  match search P w query 1 None None None with
  | (Raised e, w') => (Raised e, w')
  | (Returned [], w') => (Returned (Resolved None None), w')
  | (Returned (r :: _), w') =>
      (Returned (Resolved (Some (AnchorResult r))
                          (parse_day (m_timestamp (r_metadata r)))), w')
  end.

Definition resolve_anchor (P : Platform) (w : World)
    (memory_id date query : option string) : outcome resolution * World :=
  if PyStr.truthy_opt memory_id
  then (Returned (anchor_by_id P w (PyStr.or_empty memory_id)), w)
  else if PyStr.truthy_opt date
  then (Returned (anchor_by_date P (PyStr.or_empty date)), w)
  else if PyStr.truthy_opt query
  then anchor_by_query P w (PyStr.or_empty query)
  else (Returned (Resolved None None), w).

(** [Path.stem]: the name without its last suffix. *)
Fixpoint last_dot (s : string) (pos : nat) (found : option nat) : option nat :=
  match s with
  | EmptyString => found
  | String c s' =>
      last_dot s' (S pos) (if Ascii.eqb c "." then Some pos else found)
  end.

Definition stem (name : string) : string :=
  match last_dot name 0 None with
  | Some i =>
      if (0 <? i)%nat && (i <? String.length name - 1)%nat
      then PyStr.take i name else name
  | None => name
  end.

Definition in_day_range (start_date end_date file_date : string) : bool :=
  String.leb start_date file_date && String.leb file_date end_date.

Definition is_day_file (start_date end_date : string) (f : MdFile) : bool :=
  (PyStr.count_char "-" (stem (md_name f)) =? 2)%nat
  && in_day_range start_date end_date (stem (md_name f)).

Definition headline_event (file_date path line : string) : Event :=
  {| ev_date := PStr file_date;
     ev_type := "daily_note";
     ev_event := PStr (PyStr.strip_hash_space line);
     ev_file := path;
     ev_entity := None |}.

Definition headline_events (file_date path text : string) : list Event :=
  map (headline_event file_date path)
      (filter (PyStr.startswith "##") (PyStr.split_on "010" text)).

(** The loop over the daily notes; [open] is not guarded there. *)
Fixpoint daily_events (dir start_date end_date : string) (files : list MdFile)
  : outcome (list Event) :=
  match files with
  | [] => Returned []
  | f :: rest =>
      if is_day_file start_date end_date f
      then
        if md_is_dir f then Raised OSError
        else match md_read f with
             | ReadFails => Raised OSError
             | ReadOk text =>
                 match daily_events dir start_date end_date rest with
                 | Raised e => Raised e
                 | Returned evs =>
                     Returned (headline_events (stem (md_name f))
                                 (path_join dir (md_name f)) text ++ evs)%list
                 end
             end
      else daily_events dir start_date end_date rest
  end.

Definition fact_event (f : ItemsFile) (ts fact : option pyval) : Event :=
  {| ev_date := match ts with Some v => v | None => PStr "" end;
     ev_type := "knowledge_graph";
     ev_event := match fact with Some v => v | None => PStr "" end;
     ev_file := if_path f;
     ev_entity := Some (if_entity f) |}.

(** [items[-5:]]. *)
Definition last5 {A : Type} (l : list A) : list A :=
  skipn (List.length l - 5) l.

(** The loop over the last items: the first one that is no dict raises
    inside the [try], which ends the loop and keeps the events so far. *)
Fixpoint fact_events (f : ItemsFile) (items : list TItem) : list Event :=
  match items with
  | [] => []
  | TRecord ts fact :: rest => fact_event f ts fact :: fact_events f rest
  | TNotDict :: _ => []
  end.

Definition items_file_events (lo hi : Z) (f : ItemsFile) : list Event :=
  if (lo <=? if_mtime f) && (if_mtime f <=? hi)
  then match if_json f with
       | TBareList items => fact_events f (last5 items)
       | TWrapped _ _ => []
       | TUnreadable => []
       end
  else [].

Definition kg_events (lo hi : Z) (w : World) : list Event :=
  match items_files w with
  | None => []
  | Some files => flat_map (items_file_events lo hi) files
  end.

Definition sort_key (event : Event) : string :=
  match ev_date event with
  | PInt z => PyStr.str_of_int z
  | PStr s => s
  | PNone => ""
  end.

Definition sort_events : list Event -> list Event :=
  isort (fun a b => String.leb (sort_key a) (sort_key b)).

(** [get_timeline] once the anchor instant is known. *)
Definition timeline_around (w : World) (context : option anchor_context)
    (anchor_time hours_before hours_after : Z) : outcome Timeline :=
  match Calendar.add_hours anchor_time (- hours_before),
        Calendar.add_hours anchor_time hours_after with
  | Some lo, Some hi =>
      let start_date := Calendar.strftime_ymd lo in
      let end_date := Calendar.strftime_ymd hi in
      match
        match memory_dir w with
        | None => Returned []
        | Some files =>
            daily_events (daily_dir w) start_date end_date (sorted_md files)
        end
      with
      | Raised e => Raised e
      | Returned daily =>
          Returned
            (TimelineDict context
               {| tw_start := start_date;
                  tw_end := end_date;
                  tw_hours_before := hours_before;
                  tw_hours_after := hours_after |}
               (sort_events (daily ++ kg_events lo hi w)))
      end
  | _, _ => Raised OverflowError
  end.

Definition get_timeline (P : Platform) (w : World)
    (memory_id date query : option string) (hours_before hours_after : Z)
  : outcome Timeline * World :=
  match resolve_anchor P w memory_id date query with
  | (Raised e, w') => (Raised e, w')
  | (Returned GaveUp, w') => (Returned EmptyDict, w')
  | (Returned (Resolved _ None), w') => (Returned EmptyDict, w')
  | (Returned (Resolved context (Some anchor_time)), w') =>
      (timeline_around w' context anchor_time hours_before hours_after, w')
  end.

(* ================================================================== *)
(** ** What is assumed of the platform, and an executable instance *)
(* ================================================================== *)

(** The laws of the outside functions that the proofs rely on. *)
Record PlatformOk (P : Platform) : Prop := {
  (** one similarity per fitted document: row [i] belongs to document [i] *)
  fit_rows : forall docs m q,
      tfidf_fit P docs = Some m -> List.length (m q) = List.length docs;
  (** [argsort] permutes the positions ... *)
  argsort_perm : forall s, Permutation (argsort P s) (seq 0 (List.length s));
  (** ... into ascending order of the scores *)
  argsort_sorted : forall s,
      StronglySorted (fun i j => (nth i s 0 <= nth j s 0)%Q) (argsort P s);
  (** a plain calendar date is read as its midnight *)
  fromisoformat_date : forall s t,
      Calendar.iso_date s = Some t -> fromisoformat P s = Some t
}.

(** The matrix of a persisted index has one row per entry. *)
Definition IndexOk (idx : Index) : Prop :=
  forall q, List.length (idx_model idx q) = List.length (idx_entries idx).

(** The ranked list: the entries with their scores, in the order of
    [top_indices]. *)
Definition ranked (entries : list MemoryEntry) (similarities : list Q)
    (top_indices : list nat) : list (MemoryEntry * Q) :=
  flat_map
    (fun idx =>
       match nth_error entries idx, nth_error similarities idx with
       | Some entry, Some sim => [(entry, sim)]
       | _, _ => []
       end)
    top_indices.

(** The ranked entries that no filter skips. *)
Definition matching (layer_arg since entity_arg : option string)
    (l : list (MemoryEntry * Q)) : list (MemoryEntry * Q) :=
  filter (fun p => negb (skips layer_arg since entity_arg (fst p))) l.

(** An executable platform, used to run the model on concrete inputs: the
    score of a document is 1 when the query occurs in it and 0 otherwise,
    positions are sorted by a stable insertion sort, and only plain calendar
    dates are read. *)
Definition occurs_in (query doc : string) : Q :=
  match String.index 0 query doc with
  | Some _ => 1%Q
  | None => 0%Q
  end.

Definition reference_platform : Platform :=
  {| sklearn_installed := true;
     tfidf_fit := fun docs => Some (fun query => map (occurs_in query) docs);
     argsort := fun s =>
       isort (fun i j => Qle_bool (nth i s 0%Q) (nth j s 0%Q)) (seq 0 (List.length s));
     fromisoformat := Calendar.iso_date |}.

(** A workspace with nothing in it. *)
Definition empty_world : World :=
  {| workspace_dir := "/ws";
     life_areas_dir := "/home/life/areas";
     memory_dir := None;
     memory_md := None;
     agents_md := None;
     heartbeat_md := None;
     life_areas := None;
     items_files := None;
     tools_skills := None;
     index_pkl := None |}.

Definition with_memory_dir (files : list MdFile) (w : World) : World :=
  {| workspace_dir := workspace_dir w;
     life_areas_dir := life_areas_dir w;
     memory_dir := Some files;
     memory_md := memory_md w;
     agents_md := agents_md w;
     heartbeat_md := heartbeat_md w;
     life_areas := life_areas w;
     items_files := items_files w;
     tools_skills := tools_skills w;
     index_pkl := index_pkl w |}.

Definition with_people (children : list EntityNode) (w : World) : World :=
  {| workspace_dir := workspace_dir w;
     life_areas_dir := life_areas_dir w;
     memory_dir := memory_dir w;
     memory_md := memory_md w;
     agents_md := agents_md w;
     heartbeat_md := heartbeat_md w;
     life_areas :=
       Some (fun area_type =>
               if String.eqb area_type "people" then Some children else None);
     items_files := items_files w;
     tools_skills := tools_skills w;
     index_pkl := index_pkl w |}.

Definition with_items_files (files : list ItemsFile) (w : World) : World :=
  {| workspace_dir := workspace_dir w;
     life_areas_dir := life_areas_dir w;
     memory_dir := memory_dir w;
     memory_md := memory_md w;
     agents_md := agents_md w;
     heartbeat_md := heartbeat_md w;
     life_areas := life_areas w;
     items_files := Some files;
     tools_skills := tools_skills w;
     index_pkl := index_pkl w |}.

(** The world left by [python memory-search-simple.py --index]. *)
Definition built (w : World) : World :=
  snd (index_all reference_platform new_indexer w).

Definition nl : string := String "010" EmptyString.

(** The two daily notes of the scenarios of the specification. *)
Definition note_0130 : MdFile :=
  {| md_name := "2026-01-30.md";
     md_is_dir := false;
     md_read := ReadOk ("## Discussed deployment plan" ++ nl
                        ++ "We agreed to roll out the deployment on Friday.") |}.

Definition note_0201 : MdFile :=
  {| md_name := "2026-02-01.md";
     md_is_dir := false;
     md_read := ReadOk ("## Fixed the bug" ++ nl
                        ++ "The crash in the parser was a missing null check.") |}.

Definition two_notes : World := with_memory_dir [note_0201; note_0130] empty_world.


(* ================================================================== *)
(** ** Concrete inputs and notions used in the statements *)
(* ================================================================== *)

(** A daily note with two sections whose identifiers coincide. *)
Definition build_section (n : string) : string :=
  "## Build " ++ n ++ nl ++ "All checks passed and the release was tagged.".

Definition note_builds : MdFile :=
  {| md_name := "2026-01-30.md";
     md_is_dir := false;
     md_read := ReadOk (build_section "1242280" ++ nl ++ build_section "45666886") |}.

Definition builds_world : World := with_memory_dir [note_builds] empty_world.

(** An entry whose identifier was derived by [generate_id]. *)
Definition content_derived (e : MemoryEntry) : Prop :=
  id e = generate_id (content e) (source e).

(** Two texts that agree on their first 200 characters only. *)
Definition long_text (tail : string) : string :=
  string_of_list_ascii (repeat "x"%char 200) ++ tail.

(** A knowledge-graph entity whose first fact has an empty timestamp. *)
Definition alice_undated : EntityNode :=
  {| en_name := "Alice";
     en_is_dir := true;
     en_summary := None;
     en_items :=
       Some (ItemsList
               [ItemRecord {| fr_id := None;
                              fr_fact := Some "Alice joined the team";
                              fr_timestamp := Some "";
                              fr_category := None |};
                ItemRecord {| fr_id := None;
                              fr_fact := Some "Alice leads the deployment";
                              fr_timestamp := Some "2026-03-01";
                              fr_category := None |}]) |}.

Definition undated_world : World := built (with_people [alice_undated] empty_world).


(** The fact records the knowledge-graph collector reads. *)
Definition entity_records (e : EntityNode) : list FactRecord :=
  flat_map
    (fun item =>
       match item with
       | ItemRecord r => [r]
       | ItemNotDict => []
       end)
    (loaded_items e).

Definition world_records (w : World) : list FactRecord :=
  match life_areas w with
  | None => []
  | Some areas =>
      flat_map
        (fun area_type =>
           match areas area_type with
           | None => []
           | Some children =>
               flat_map
                 (fun e => if en_is_dir e then entity_records e else [])
                 children
           end)
        area_types
  end.

(** Two facts of one entity filed under the same identifier. *)
Definition alice_same_id : EntityNode :=
  {| en_name := "Alice";
     en_is_dir := true;
     en_summary := None;
     en_items :=
       Some (ItemsList
               [ItemRecord {| fr_id := Some "f1";
                              fr_fact := Some "Alice joined the team";
                              fr_timestamp := Some "2026-03-01";
                              fr_category := None |};
                ItemRecord {| fr_id := Some "f1";
                              fr_fact := Some "Alice leads the deployment";
                              fr_timestamp := Some "2026-03-02";
                              fr_category := None |}]) |}.

Definition same_id_world : World := with_people [alice_same_id] empty_world.

(** The claim of uniqueness, in the words of the specification: no two
    entries of a persisted index carry the same identifier. *)
Definition ids_unique_in_every_index : Prop :=
  forall (P : Platform) (w w' : World) (self' : Indexer) (n : Z) (idx : Index),
    PlatformOk P ->
    index_all P new_indexer w = (Returned n, self', w') ->
    index_pkl w' = Some idx ->
    NoDup (map id (idx_entries idx)).

(** A result record that carries the fields of an entry, an absent optional
    field being the empty string. *)
Definition coerced (entry : MemoryEntry) (r : Result) : Prop :=
  r_id r = id entry
  /\ r_content r = content entry
  /\ m_source (r_metadata r) = source entry
  /\ m_layer (r_metadata r) = layer entry
  /\ m_timestamp (r_metadata r)
     = match timestamp entry with Some t => t | None => "" end
  /\ m_entity (r_metadata r)
     = match entity entry with Some n => n | None => "" end
  /\ m_category (r_metadata r)
     = match category entry with Some c => c | None => "" end.

(** No anchor instant came out of the three branches. *)
Definition no_anchor (o : outcome resolution) : Prop :=
  match o with
  | Returned (Resolved _ (Some _)) => False
  | _ => True
  end.


(** Noon of 2026-03-01. *)
Definition noon_0301 : Z :=
  Eval vm_compute in
    match Calendar.midnight 2026 3 1 with
    | Some t => t + 12 * Calendar.us_per_hour
    | None => 0
    end.

Definition alice_fact : TItem :=
  TRecord (Some (PStr "2026-03-01")) (Some (PStr "Alice joined the team")).

(** [people/Alice/items.json] holding [{"items": [fact]}], resp. [[fact]]. *)
Definition alice_items (json : TItemsJson) : ItemsFile :=
  {| if_path := "/home/life/areas/people/Alice/items.json";
     if_entity := "Alice";
     if_mtime := noon_0301;
     if_json := json |}.

Definition wrapped_world : World :=
  with_items_files [alice_items (TWrapped "items" [alice_fact])] empty_world.

Definition bare_world : World :=
  with_items_files [alice_items (TBareList [alice_fact])] empty_world.

(** The same wrapped document as the indexer reads it. *)
Definition alice_wrapped : EntityNode :=
  {| en_name := "Alice";
     en_is_dir := true;
     en_summary := None;
     en_items :=
       Some (ItemsDict
               (Some [ItemRecord {| fr_id := None;
                                    fr_fact := Some "Alice joined the team";
                                    fr_timestamp := Some "2026-03-01";
                                    fr_category := None |}])) |}.




Definition is_record (item : TItem) : bool :=
  match item with
  | TRecord _ _ => true
  | TNotDict => false
  end.

Definition record_event (f : ItemsFile) (item : TItem) : Event :=
  match item with
  | TRecord ts fact => fact_event f ts fact
  | TNotDict => fact_event f None None
  end.

(** The result record of a ranked entry. *)
Definition result_of (p : MemoryEntry * Q) : Result := make_result (fst p) (snd p).

(* ================================================================== *)
(** ** Notions used in the further properties *)
(* ================================================================== *)

(** The first character of a text, if any, is not selected by [p]. *)
Definition head_clear (p : ascii -> bool) (s : string) : Prop :=
  match s with
  | EmptyString => True
  | String c _ => p c = false
  end.

(** Neither end of the text is selected by [p]. *)
Definition ends_clear (p : ascii -> bool) (s : string) : Prop :=
  head_clear p s /\ head_clear p (PyStr.reverse s).

(** Every character of the text satisfies [p]. *)
Fixpoint all_chars (p : ascii -> bool) (s : string) : bool :=
  match s with
  | EmptyString => true
  | String c s' => p c && all_chars p s'
  end.

(** A lower-case hexadecimal digit. *)
Definition is_hex (c : ascii) : bool :=
  PyStr.isdigit c
  || ((97 <=? PyStr.code c) && (PyStr.code c <=? 102)).


(** [print_index]: the preview of a result, [r['content'][:80].replace('\n', ' ')]. *)
Fixpoint newlines_to_spaces (s : string) : string :=
  match s with
  | EmptyString => EmptyString
  | String c s' =>
      String (if Ascii.eqb c "010" then " "%char else c) (newlines_to_spaces s')
  end.

Definition index_preview (r : Result) : string :=
  newlines_to_spaces (PyStr.take 80 (r_content r)).

(** [print_index]: the argument it suggests for [--ids], [','.join(ids[:3])],
    printed when there is at least one result. *)
Definition ids_hint (results : list Result) : string :=
  String.concat "," (firstn 3 (map r_id results)).

(** [print_results]: the text shown for a result,
    [preview = r['content'][:150] + '...' if len(r['content']) > 150 else
    r['content']] and then [preview[:100]]. *)
Definition result_preview (r : Result) : string :=
  let preview :=
    if (150 <? String.length (r_content r))%nat
    then (PyStr.take 150 (r_content r) ++ "...")%string
    else r_content r in
  PyStr.take 100 preview.


(** The order [list.sort(key=sort_key)] puts the events in. *)
Definition key_le (a b : Event) : Prop :=
  String.leb (sort_key a) (sort_key b) = true.


(** The number of events of a given type. *)
Definition count_type (type_name : string) (evs : list Event) : nat :=
  List.length (filter (fun ev => String.eqb (ev_type ev) type_name) evs).

(** *** Notions used in the statements about the calendar *)

(** A date of the proleptic Gregorian calendar, years 1 to 9999: the
    condition under which [datetime(y, m, d)] does not raise. *)
Definition valid_date (y m d : Z) : bool :=
  (1 <=? y) && (y <=? 9999) && (1 <=? m) && (m <=? 12)
  && (1 <=? d) && (d <=? Calendar.days_in_month y m).

(** Whether [f] holds of [first], [first + 1], ... ([count] numbers). *)
Definition holds_from (f : Z -> bool) (first : Z) (count : N) : bool :=
  snd (N.iter count (fun st => (fst st + 1, snd st && f (fst st))) (first, true)).

(** A day of the first 400-year cycle: its date is valid, lies in the
    years 1 to 400 (1 to 399 before the last 366 days) and has the day as
    its ordinal. *)
Definition cycle_day_ok (r : Z) : bool :=
  let '(y, m, d) := Calendar.ord2ymd r in
  (1 <=? y) && (y <=? 400) && (1 <=? m) && (m <=? 12)
  && (1 <=? d) && (d <=? Calendar.days_in_month y m)
  && (Calendar.ymd2ord y m d =? r) && ((145731 <? r) || (y <=? 399)).

(** Earlier in the calendar. *)
Definition date_lt (a b : Z * Z * Z) : Prop :=
  let '(y1, m1, d1) := a in
  let '(y2, m2, d2) := b in
  y1 < y2 \/ (y1 = y2 /\ (m1 < m2 \/ (m1 = m2 /\ d1 < d2))).

(** The ten decimal digits. *)
Definition digits : list ascii :=
  ["0"; "1"; "2"; "3"; "4"; "5"; "6"; "7"; "8"; "9"]%char.

(** Whether the zero-padded texts of [k] and [k + 1] have [width]
    characters and come in this order. *)
Definition pad_step_ok (width : nat) (k : Z) : bool :=
  match String.compare (Calendar.pad_num width k) (Calendar.pad_num width (k + 1)) with
  | Lt => true
  | _ => false
  end
  && (String.length (Calendar.pad_num width k) =? width)%nat
  && (String.length (Calendar.pad_num width (k + 1)) =? width)%nat.

(** Whether four, or two, digits are the padded text of their number. *)
Definition year_text_ok (a b c d : ascii) : bool :=
  String.eqb
    (Calendar.pad_num 4
       (1000 * Calendar.digit a + 100 * Calendar.digit b
        + 10 * Calendar.digit c + Calendar.digit d))
    (String a (String b (String c (String d "")))).

Definition pair_text_ok (a b : ascii) : bool :=
  String.eqb (Calendar.pad_num 2 (10 * Calendar.digit a + Calendar.digit b))
             (String a (String b "")).

(** The text the anchor instant was read from: the timestamp of the anchor
    entry on the [--id] path, the [date] argument on the [--date] path, the
    timestamp of the first result on the [--query] path. *)
Definition anchor_day_text (memory_id date : option string)
    (context : option anchor_context) : option string :=
  if PyStr.truthy_opt memory_id
  then match context with
       | Some (AnchorEntry _ _ ts) => ts
       | _ => None
       end
  else if PyStr.truthy_opt date then date
  else match context with
       | Some (AnchorResult r) => Some (m_timestamp (r_metadata r))
       | _ => None
       end.

(** *** The human-readable output of the timeline *)

(** [event_date != current_date], negated, on the values a date can have. *)
Definition pyval_eqb (a b : pyval) : bool :=
  match a, b with
  | PNone, PNone => true
  | PInt x, PInt y => Z.eqb x y
  | PStr x, PStr y => String.eqb x y
  | _, _ => false
  end.

(** The loop of [main] over the events, seen through the date headers it
    prints: one before each event whose date differs from [current_date],
    which then becomes that date; [None] when
    [event.get('event', '')[:70]] raises [TypeError] on a text that is no
    string. *)
Fixpoint date_headers (current_date : pyval) (events : list Event)
  : option (list pyval) :=
  match events with
  | [] => Some []
  | event :: rest =>
      let changed := negb (pyval_eqb (ev_date event) current_date) in
      match ev_event event with
      | PStr _ =>
          match date_headers (if changed then ev_date event else current_date) rest with
          | Some headers =>
              Some (if changed then ev_date event :: headers else headers)
          | None => None
          end
      | _ => None
      end
  end.

(** An event whose date and text are both strings. *)
Definition plain_event (event : Event) : bool :=
  match ev_date event, ev_event event with
  | PStr _, PStr _ => true
  | _, _ => false
  end.
(* ================================================================== *)
(** * Properties *)
(* ================================================================== *)

Local Open Scope list_scope.

(** ** Stable sorting *)

Section StableSortFacts.
Context {A : Type} (leb : A -> A -> bool).

Lemma insert_perm (x : A) (l : list A) : Permutation (insert leb x l) (x :: l).
Proof.
  induction l as [| y ys IH]; simpl.
  - apply Permutation_refl.
  - destruct (leb x y).
    + apply Permutation_refl.
    + eapply perm_trans; [apply perm_skip, IH | apply perm_swap].
Qed.

Lemma isort_perm (l : list A) : Permutation (isort leb l) l.
Proof.
  induction l as [| x xs IH]; simpl.
  - apply perm_nil.
  - eapply perm_trans; [apply insert_perm | apply perm_skip, IH].
Qed.

Lemma isort_In (l : list A) (x : A) : In x (isort leb l) <-> In x l.
Proof.
  split; apply Permutation_in;
    [apply isort_perm | apply Permutation_sym, isort_perm].
Qed.



Hypothesis leb_total : forall x y, leb x y = true \/ leb y x = true.
Hypothesis leb_trans : forall x y z, leb x y = true -> leb y z = true -> leb x z = true.

Lemma insert_sorted (x : A) (l : list A) :
  StronglySorted (fun a b => leb a b = true) l ->
  StronglySorted (fun a b => leb a b = true) (insert leb x l).
Proof.
  induction 1 as [| y ys Hs IH Hall]; simpl.
  - constructor; constructor.
  - destruct (leb x y) eqn:Exy.
    + constructor; [constructor; assumption |].
      constructor; [assumption |].
      eapply Forall_impl; [| exact Hall].
      intros z Hz. now apply leb_trans with y.
    + constructor; [assumption |].
      assert (Hyx : leb y x = true).
      { destruct (leb_total x y) as [H' | H']; congruence. }
      rewrite Forall_forall. intros z Hz.
      apply (Permutation_in _ (insert_perm x ys)) in Hz.
      destruct Hz as [<- | Hz]; [assumption |].
      rewrite Forall_forall in Hall. now apply Hall.
Qed.

Lemma isort_sorted (l : list A) :
  StronglySorted (fun a b => leb a b = true) (isort leb l).
Proof.
  induction l as [| x xs IH]; simpl.
  - constructor.
  - now apply insert_sorted.
Qed.
End StableSortFacts.

(** ** Lists *)

Lemma StronglySorted_rev {A : Type} (R : A -> A -> Prop) (l : list A) :
  StronglySorted R l -> StronglySorted (fun a b => R b a) (rev l).
Proof.
  induction 1 as [| x xs Hs IH Hall]; simpl.
  - constructor.
  - clear Hs. revert IH. generalize (rev_involutive xs).
    assert (Hall' : Forall (R x) (rev xs)).
    { rewrite Forall_forall in *. intros y Hy. apply Hall. now apply in_rev. }
    clear Hall. generalize dependent (rev xs). intros r Hall' _ IH.
    induction IH as [| y ys Hs IH Hy]; simpl.
    + constructor; constructor.
    + inversion Hall'; subst.
      constructor; [apply IH; assumption |].
      rewrite Forall_forall. intros z Hz. apply in_app_or in Hz.
      destruct Hz as [Hz | [<- | []]]; [| assumption].
      rewrite Forall_forall in Hy. now apply Hy.
Qed.

Lemma StronglySorted_filter {A : Type} (R : A -> A -> Prop) (p : A -> bool)
    (l : list A) :
  StronglySorted R l -> StronglySorted R (filter p l).
Proof.
  induction 1 as [| x xs Hs IH Hall]; simpl; [constructor |].
  destruct (p x); [| assumption].
  constructor; [assumption |].
  rewrite Forall_forall in *. intros y Hy. apply filter_In in Hy. now apply Hall.
Qed.

Lemma StronglySorted_firstn {A : Type} (R : A -> A -> Prop) (n : nat)
    (l : list A) :
  StronglySorted R l -> StronglySorted R (firstn n l).
Proof.
  intros H. revert n.
  induction H as [| x xs Hs IH Hall]; intros [| n]; simpl; try constructor.
  - apply IH.
  - rewrite Forall_forall in *. intros y Hy. apply Hall.
    rewrite <- (firstn_skipn n xs). apply in_or_app. now left.
Qed.

Lemma StronglySorted_map {A B : Type} (R : B -> B -> Prop) (f : A -> B)
    (l : list A) :
  StronglySorted (fun a b => R (f a) (f b)) l -> StronglySorted R (map f l).
Proof.
  induction 1 as [| x xs Hs IH Hall]; simpl; constructor; [assumption |].
  rewrite Forall_forall in *. intros y Hy. apply in_map_iff in Hy.
  destruct Hy as [z [<- Hz]]. now apply Hall.
Qed.

Lemma StronglySorted_weaken {A : Type} (R S : A -> A -> Prop) (l : list A) :
  (forall a b, R a b -> S a b) -> StronglySorted R l -> StronglySorted S l.
Proof.
  intros HRS. induction 1 as [| x xs Hs IH Hall]; constructor; [assumption |].
  eapply Forall_impl; [| exact Hall]. intros y. apply HRS.
Qed.

(** ** The executable platform obeys the laws *)

Lemma Qle_bool_total (x y : Q) : Qle_bool x y = true \/ Qle_bool y x = true.
Proof.
  rewrite !Qle_bool_iff. destruct (Qlt_le_dec x y) as [H | H].
  - left. now apply Qlt_le_weak.
  - now right.
Qed.

Lemma Qle_bool_trans (x y z : Q) :
  Qle_bool x y = true -> Qle_bool y z = true -> Qle_bool x z = true.
Proof. rewrite !Qle_bool_iff. apply Qle_trans. Qed.

Lemma iso_date_strptime (s : string) (t : Z) :
  Calendar.iso_date s = Some t -> Calendar.strptime_ymd s = Some t.
Proof.
  unfold Calendar.iso_date.
  repeat (destruct s as [| ? s]; try discriminate).
  destruct (PyStr.isdigit _); [auto | discriminate].
Qed.

Lemma reference_platform_ok : PlatformOk reference_platform.
Proof.
  constructor.
  - intros docs m q [= <-]. apply length_map.
  - intros s. apply isort_perm.
  - intros s. simpl.
    eapply StronglySorted_weaken.
    2: { apply isort_sorted.
         - intros i j. apply Qle_bool_total.
         - intros i j k. apply Qle_bool_trans. }
    intros i j. simpl. now rewrite Qle_bool_iff.
  - intros s t H. exact H.
Qed.

(** ** Entry identity *)

Example md5_empty : MD5.hexdigest [] = "d41d8cd98f00b204e9800998ecf8427e".
Proof. vm_compute. reflexivity. Qed.

Example md5_abc :
  MD5.hexdigest (PyStr.encode "abc") = "900150983cd24fb0d6963f7d28e17f72".
Proof. vm_compute. reflexivity. Qed.

Example md5_block_boundaries :
  MD5.hexdigest (repeat 97 119) = "8a7bd0732ed6a28ce75f6dabc90e1613"
  /\ MD5.hexdigest (repeat 97 56) = "3b0c8ac703f828b04c6c197006d17218"
  /\ MD5.hexdigest (repeat 97 64) = "014842d480b571495a4a0363793f7367".
Proof. vm_compute. repeat split. Qed.

Example md5_two_byte_character :
  MD5.hexdigest (PyStr.encode (String (ascii_of_nat 233) EmptyString))
  = "66ddcd97cfdeabb2f6fb8a999b4bc76f".
Proof. vm_compute. reflexivity. Qed.

Lemma take_idempotent (n : nat) (s : string) :
  PyStr.take n (PyStr.take n s) = PyStr.take n s.
Proof.
  revert s. induction n as [| n IH]; intros [| c s]; simpl; try reflexivity.
  now rewrite IH.
Qed.

(** Only the first 200 characters of the content reach the hash. *)
Lemma generate_id_reads_prefix (text src : string) :
  generate_id text src = generate_id (PyStr.take 200 text) src.
Proof. unfold generate_id. now rewrite take_idempotent. Qed.

(** The identifier is twelve lower-case hexadecimal digits. *)
Lemma hex_length (bs : list Z) : String.length (MD5.hex bs) = (2 * List.length bs)%nat.
Proof. induction bs as [| b bs IH]; simpl; [reflexivity | rewrite IH; lia]. Qed.

Lemma take_length (n : nat) (s : string) :
  String.length (PyStr.take n s) = Nat.min n (String.length s).
Proof.
  revert s. induction n as [| n IH]; intros [| c s]; simpl; try reflexivity.
  now rewrite IH.
Qed.

Lemma generate_id_length (text src : string) :
  String.length (generate_id text src) = 12%nat.
Proof.
  unfold generate_id. rewrite take_length. unfold MD5.hexdigest.
  rewrite hex_length. unfold MD5.digest.
  rewrite !length_app. unfold MD5.le_bytes. rewrite !length_map, !length_seq.
  reflexivity.
Qed.

(** C4, as amended: [generate_id] is a total function of the source and of
    the first 200 characters of the content, so two entries with the same
    source whose contents agree on their first 200 characters carry the
    same identifier.  (The converse is lost to the truncation of the digest
    to 48 bits.) *)
Theorem generate_id_prefix_determined (e1 e2 : MemoryEntry) :
  content_derived e1 -> content_derived e2 ->
  source e1 = source e2 ->
  PyStr.take 200 (content e1) = PyStr.take 200 (content e2) ->
  id e1 = id e2.
Proof.
  unfold content_derived. intros H1 H2 Hsrc Hpre.
  rewrite H1, H2, Hsrc.
  rewrite (generate_id_reads_prefix (content e1)), Hpre.
  symmetry. apply generate_id_reads_prefix.
Qed.

Lemma generate_id_prefix_determined_witness :
  let e1 := mkEntry (generate_id (long_text "first") "/ws/MEMORY.md")
                    (long_text "first") "/ws/MEMORY.md" "tacit" None None None in
  let e2 := mkEntry (generate_id (long_text "second") "/ws/MEMORY.md")
                    (long_text "second") "/ws/MEMORY.md" "tacit" None None None in
  content e1 <> content e2 /\ id e1 = id e2.
Proof.
  intros e1 e2. split.
  - vm_compute. intros H. discriminate H.
  - apply (generate_id_prefix_determined e1 e2); reflexivity.
Defined.

(** The daily-notes collector on a note with two different sections: two
    entries, one identifier. *)
Example colliding_sections_indexed :
  map (fun e => (id e, PyStr.take 17 (content e))) (_index_daily_notes builds_world)
  = [("a71bc2150bf8", ("## Build 1242280" ++ nl)%string);
     ("a71bc2150bf8", "## Build 45666886")].
Proof. vm_compute. reflexivity. Qed.

(** C4, as stated, fails: equal identifiers do not force equal prefixes. *)
Lemma generate_id_collision :
  ~ (forall e1 e2 : MemoryEntry,
        content_derived e1 -> content_derived e2 ->
        e1 <> e2 -> source e1 = source e2 ->
        (id e1 = id e2
         <-> PyStr.take 200 (content e1) = PyStr.take 200 (content e2))).
Proof.
  intros claim.
  destruct (_index_daily_notes builds_world) as [| e1 [| e2 rest]] eqn:E;
    try (vm_compute in E; discriminate E).
  assert (H1 : content_derived e1 /\ content_derived e2 /\ source e1 = source e2
               /\ id e1 = id e2
               /\ PyStr.take 200 (content e1) <> PyStr.take 200 (content e2)).
  { vm_compute in E. injection E as <- <- _.
    repeat split; try (vm_compute; reflexivity).
    vm_compute. intros H. discriminate H. }
  destruct H1 as (D1 & D2 & Hs & Hid & Hne).
  apply Hne. apply (claim e1 e2 D1 D2); [| exact Hs | exact Hid].
  intros ->. now apply Hne.
Qed.

(** ** The scan of [search] *)

Lemma scan_spec (entries : list MemoryEntry) (sims : list Q) (limit : Z)
    (la si en : option string) (top : list nat) (acc : list Result) :
  (forall idx, In idx top ->
     (idx < List.length entries)%nat /\ (idx < List.length sims)%nat) ->
  acc = [] \/ Z.of_nat (List.length acc) < limit ->
  scan entries sims limit la si en top acc
  = Returned
      (acc ++ firstn (Z.to_nat (Z.max 1 (limit - Z.of_nat (List.length acc))))
                (map result_of (matching la si en (ranked entries sims top)))).
Proof.
  revert acc. induction top as [| idx rest IH]; intros acc Hin Hacc; simpl.
  - rewrite firstn_nil, app_nil_r. reflexivity.
  - destruct (Hin idx (or_introl eq_refl)) as [He Hs].
    destruct (nth_error entries idx) as [entry |] eqn:Ee;
      [| apply nth_error_None in Ee; lia].
    destruct (nth_error sims idx) as [sim |] eqn:Es;
      [| apply nth_error_None in Es; lia].
    assert (Hin' : forall i, In i rest ->
              (i < List.length entries)%nat /\ (i < List.length sims)%nat)
      by (intros i Hi; apply Hin; now right).
    unfold matching. simpl.
    destruct (skips la si en entry) eqn:Esk; simpl.
    + apply IH; assumption.
    + rewrite length_app. simpl.
      destruct (Z.of_nat (List.length acc + 1) >=? limit) eqn:Elim.
      * apply Z.geb_le in Elim.
        replace (Z.to_nat (Z.max 1 (limit - Z.of_nat (List.length acc)))) with 1%nat
          by (destruct Hacc as [-> | Hlt]; simpl in *; lia).
        simpl. reflexivity.
      * rewrite Z.geb_leb in Elim. apply Z.leb_gt in Elim.
        rewrite IH; [| assumption | right; rewrite length_app; simpl; lia].
        rewrite length_app. simpl. rewrite <- app_assoc. simpl.
        replace (Z.to_nat (Z.max 1 (limit - Z.of_nat (List.length acc))))
          with (S (Z.to_nat (Z.max 1 (limit - Z.of_nat (List.length acc + 1)))))
          by lia.
        reflexivity.
Qed.

(** Whatever the platform, a returned result wraps an entry of the index. *)
Lemma scan_results_wrap (entries : list MemoryEntry) (sims : list Q) (limit : Z)
    (la si en : option string) (top : list nat) (acc rs : list Result)
    (Q : Result -> Prop) :
  (forall entry sim, In entry entries -> Q (make_result entry sim)) ->
  Forall Q acc ->
  scan entries sims limit la si en top acc = Returned rs ->
  Forall Q rs.
Proof.
  intros HQ. revert acc. induction top as [| idx rest IH]; intros acc Hacc; simpl.
  - now intros [= <-].
  - destruct (nth_error entries idx) as [entry |] eqn:Ee; [| discriminate].
    destruct (nth_error sims idx) as [sim |]; [| discriminate].
    destruct (skips la si en entry); [now apply IH |].
    assert (Hacc' : Forall Q (acc ++ [make_result entry sim])).
    { apply Forall_app. split; [assumption |].
      constructor; [| constructor]. apply HQ. eapply nth_error_In, Ee. }
    destruct (_ >=? limit); [now intros [= <-] | now apply IH].
Qed.

Lemma argsort_in_range (P : Platform) (s : list Q) (idx : nat) :
  PlatformOk P -> In idx (rev (argsort P s)) -> (idx < List.length s)%nat.
Proof.
  intros HP Hin. apply in_rev in Hin.
  apply (Permutation_in _ (argsort_perm P HP s)) in Hin.
  apply in_seq in Hin. lia.
Qed.

(** The ranked list is in descending order of relevance. *)
Lemma ranked_descending (P : Platform) (entries : list MemoryEntry) (s : list Q) :
  PlatformOk P ->
  StronglySorted (fun p q => (snd q <= snd p)%Q)
                 (ranked entries s (rev (argsort P s))).
Proof.
  intros HP.
  pose proof (StronglySorted_rev _ _ (argsort_sorted P HP s)) as Hs.
  simpl in Hs. induction Hs as [| idx rest Hs IH Hall]; simpl; [constructor |].
  destruct (nth_error entries idx) as [entry |]; [| exact IH].
  destruct (nth_error s idx) as [sim |] eqn:Es; [| exact IH].
  simpl. constructor; [exact IH |].
  rewrite Forall_forall in *. intros [e' s'] Hin. simpl.
  unfold ranked in Hin. apply in_flat_map in Hin. destruct Hin as [j [Hj Hin]].
  destruct (nth_error entries j); [| contradiction].
  destruct (nth_error s j) as [sj |] eqn:Ej; [| contradiction].
  destruct Hin as [[= <- <-] | []].
  specialize (Hall j Hj). simpl in Hall.
  rewrite (nth_error_nth _ _ _ Es), (nth_error_nth _ _ _ Ej) in Hall. exact Hall.
Qed.

(** [search] on a persisted index: the first [max 1 limit] ranked entries
    that pass the filters, wrapped. *)
Lemma search_persisted (P : Platform) (w : World) (idx : Index) (query : string)
    (limit : Z) (la si en : option string) :
  PlatformOk P -> sklearn_installed P = true ->
  index_pkl w = Some idx -> IndexOk idx ->
  search P w query limit la si en
  = (Returned
       (firstn (Z.to_nat (Z.max 1 limit))
          (map result_of
             (matching la si en
                (ranked (idx_entries idx) (idx_model idx query)
                        (rev (argsort P (idx_model idx query))))))), w).
Proof.
  intros HP Hsk Hidx Hok. unfold search, load_index. rewrite Hidx, Hsk.
  unfold search_loaded. rewrite Hsk. simpl.
  rewrite scan_spec.
  - simpl. now rewrite Z.sub_0_r.
  - intros i Hi. apply (argsort_in_range P _ _ HP) in Hi.
    rewrite <- (Hok query). lia.
  - now left.
Qed.

Lemma search_length_bound (P : Platform) (w : World) (idx : Index) (query : string)
    (limit : Z) (la si en : option string) (rs : list Result) (w' : World) :
  PlatformOk P -> sklearn_installed P = true ->
  index_pkl w = Some idx -> IndexOk idx ->
  search P w query limit la si en = (Returned rs, w') ->
  Z.of_nat (List.length rs) <= Z.max 1 limit.
Proof.
  intros HP Hsk Hidx Hok. rewrite (search_persisted P w idx) by assumption.
  intros [= <- _]. rewrite length_firstn. lia.
Qed.

(** Relevance never increases along the results. *)
Lemma search_relevance_descending (P : Platform) (w : World) (idx : Index)
    (query : string) (limit : Z) (la si en : option string)
    (rs : list Result) (w' : World) :
  PlatformOk P -> sklearn_installed P = true ->
  index_pkl w = Some idx -> IndexOk idx ->
  search P w query limit la si en = (Returned rs, w') ->
  StronglySorted (fun a b => (b <= a)%Q) (map r_relevance rs).
Proof.
  intros HP Hsk Hidx Hok. rewrite (search_persisted P w idx) by assumption.
  intros [= <- _].
  apply StronglySorted_map, StronglySorted_firstn, StronglySorted_map.
  unfold matching. apply StronglySorted_filter.
  apply (ranked_descending P _ _ HP).
Qed.

(** With a limit of zero or less the test [len(results) >= limit] holds
    after the first append: one result comes back whenever one matches. *)
Lemma search_nonpositive_limit (P : Platform) (w : World) (idx : Index)
    (query : string) (limit : Z) (la si en : option string) :
  PlatformOk P -> sklearn_installed P = true ->
  index_pkl w = Some idx -> IndexOk idx ->
  limit <= 0 ->
  fst (search P w query limit la si en)
  = Returned
      (firstn 1
         (map result_of
            (matching la si en
               (ranked (idx_entries idx) (idx_model idx query)
                       (rev (argsort P (idx_model idx query))))))).
Proof.
  intros HP Hsk Hidx Hok Hlim.
  rewrite (search_persisted P w idx) by assumption. simpl.
  replace (Z.to_nat (Z.max 1 limit)) with 1%nat by lia. reflexivity.
Qed.

(** The index left by a build on the executable platform. *)
Lemma built_index (w : World) (e : MemoryEntry) (es : list MemoryEntry) :
  collect_all w = e :: es ->
  index_pkl (built w)
  = Some {| idx_entries := e :: es;
            idx_model := fun q => map (occurs_in q) (map content (e :: es)) |}.
Proof.
  intros H. unfold built, index_all.
  cbn [reference_platform sklearn_installed tfidf_fit negb].
  rewrite H. reflexivity.
Qed.

Lemma built_index_ok (w : World) (idx : Index) :
  index_pkl w = None -> index_pkl (built w) = Some idx -> IndexOk idx.
Proof.
  intros Hnone. unfold built, index_all.
  cbn [reference_platform sklearn_installed tfidf_fit negb].
  destruct (collect_all w) as [| e es] eqn:E; cbn [snd]; [congruence |].
  unfold _save_index. cbn [index_pkl]. intros [= <-] q.
  simpl. now rewrite !length_map.
Qed.

Lemma built_two_notes_ok :
  exists idx, index_pkl (built two_notes) = Some idx /\ IndexOk idx.
Proof.
  destruct (collect_all two_notes) as [| e es] eqn:E;
    [vm_compute in E; discriminate E |].
  eexists. split; [apply (built_index _ _ _ E) |].
  intros q. simpl. now rewrite !length_map.
Qed.

(** C1 at [limit = 0]: [search("deployment", limit=0)] on the index of the
    two daily notes returns one result, not none. *)
Theorem search_limit_zero_returns_one :
  exists r,
    fst (search reference_platform (built two_notes) "deployment" 0 None None None)
    = Returned [r]
    /\ r_id r = "30cd21d41c05".
Proof.
  eexists. split; vm_compute; reflexivity.
Qed.

(** ** The filters of [search] *)





(** Every entry of the index is ranked, once. *)
Lemma ranked_complete (P : Platform) (entries : list MemoryEntry) (s : list Q) :
  PlatformOk P -> List.length s = List.length entries ->
  Permutation (map fst (ranked entries s (rev (argsort P s)))) entries.
Proof.
  intros HP Hlen.
  assert (Hperm : Permutation (rev (argsort P s)) (seq 0 (List.length entries))).
  { rewrite <- Hlen. eapply perm_trans;
      [apply Permutation_sym, Permutation_rev | apply (argsort_perm P HP)]. }
  assert (Hranked : forall top,
             Permutation top (seq 0 (List.length entries)) ->
             Permutation (map fst (ranked entries s top))
                         (map fst (ranked entries s (seq 0 (List.length entries))))).
  { intros top Ht. apply Permutation_map. unfold ranked.
    now apply Permutation_flat_map. }
  eapply perm_trans; [apply Hranked, Hperm |].
  clear Hperm Hranked. revert s Hlen.
  assert (G : forall (k : nat) (pre es : list MemoryEntry) (ps ss : list Q),
             List.length pre = k -> List.length ps = k ->
             List.length ss = List.length es ->
             map fst (ranked (pre ++ es) (ps ++ ss) (seq k (List.length es))) = es).
  { intros k pre es. revert k pre.
    induction es as [| e es IH]; intros k pre ps ss Hk Hp Hs; simpl; [reflexivity |].
    destruct ss as [| q ss]; [discriminate |].
    rewrite nth_error_app2, Hk, Nat.sub_diag by lia. simpl.
    rewrite nth_error_app2, Hp, Nat.sub_diag by lia. simpl.
    f_equal.
    specialize (IH (S k) (pre ++ [e]) (ps ++ [q]) ss).
    rewrite <- !app_assoc in IH. simpl in IH. apply IH.
    - rewrite length_app. simpl. lia.
    - rewrite length_app. simpl. lia.
    - simpl in Hs. lia. }
  intros s Hlen.
  pose proof (G 0%nat [] entries [] s eq_refl eq_refl Hlen) as H.
  simpl in H. rewrite H. apply Permutation_refl.
Qed.



Lemma undated_world_entries :
  collect_all (with_people [alice_undated] empty_world)
  = [ {| id := generate_id "Alice joined the team"
                           "/home/life/areas/people/Alice/items.json";
         content := "Alice joined the team";
         source := "/home/life/areas/people/Alice/items.json";
         layer := "knowledge_graph"; timestamp := Some "";
         entity := Some "Alice"; category := Some "fact" |};
      {| id := generate_id "Alice leads the deployment"
                           "/home/life/areas/people/Alice/items.json";
         content := "Alice leads the deployment";
         source := "/home/life/areas/people/Alice/items.json";
         layer := "knowledge_graph"; timestamp := Some "2026-03-01";
         entity := Some "Alice"; category := Some "fact" |} ].
Proof. vm_compute. reflexivity. Qed.


(** ** Direct lookup *)

Lemma lookup_loop_spec (req : list string) (entries : list MemoryEntry)
    (acc : list Result) :
  lookup_loop req entries acc
  = acc ++ map (fun e => make_result e 1%Q) (filter (id_requested req) entries).
Proof.
  unfold lookup_loop. revert acc.
  induction entries as [| e es IH]; intros acc; simpl.
  - now rewrite app_nil_r.
  - rewrite IH. destruct (id_requested req e); simpl; [| reflexivity].
    now rewrite <- app_assoc.
Qed.

Lemma id_requested_iff (req : list string) (e : MemoryEntry) :
  id_requested req e = true <-> In (id e) req.
Proof.
  unfold id_requested. rewrite existsb_exists. split.
  - intros [x [Hx Heq]]. apply String.eqb_eq in Heq. now subst.
  - intros H. exists (id e). split; [assumption | apply String.eqb_refl].
Qed.

(** C3: the [--ids] lookup returns the entries of the loaded index whose
    id is among the requested ones, and only those, each with relevance 1,
    in the order of the index; nothing when no requested id is known. *)
Theorem main_ids_exact (P : Platform) (w : World) (idx : Index) (ids : string) :
  sklearn_installed P = true -> index_pkl w = Some idx ->
  exists rs,
    main_ids P w ids = Returned rs
    /\ rs = map (fun e => make_result e 1%Q)
                (filter (id_requested (requested_ids ids)) (idx_entries idx))
    /\ map r_id rs
       = filter (fun i => existsb (String.eqb i) (requested_ids ids))
                (map id (idx_entries idx))
    /\ Forall (fun r => r_relevance r = 1%Q) rs
    /\ (forall e, In e (idx_entries idx) ->
          (In (id e) (requested_ids ids) <-> In (make_result e 1%Q) rs))
    /\ ((forall e, In e (idx_entries idx) -> ~ In (id e) (requested_ids ids)) ->
        rs = []).
Proof.
  intros Hsk Hidx. eexists. split.
  { unfold main_ids, load_index. rewrite Hidx, Hsk. simpl.
    rewrite lookup_loop_spec. reflexivity. }
  simpl. set (req := requested_ids ids). repeat split.
  - induction (idx_entries idx) as [| e es IH]; simpl; [reflexivity |].
    unfold id_requested at 1.
    destruct (existsb (String.eqb (id e)) req); simpl; now rewrite IH.
  - rewrite Forall_forall. intros r Hr. apply in_map_iff in Hr.
    now destruct Hr as [e [<- _]].
  - intros Hin. apply in_map_iff. exists e. split; [reflexivity |].
    apply filter_In. split; [assumption |]. now apply id_requested_iff.
  - intros Hr. apply in_map_iff in Hr. destruct Hr as [e' [Heq He']].
    apply filter_In in He'. destruct He' as [_ He'].
    apply id_requested_iff in He'.
    assert (Hid : id e' = id e) by (apply (f_equal r_id) in Heq; exact Heq).
    now rewrite <- Hid.
  - intros Hnone. induction (idx_entries idx) as [| e es IH]; simpl; [reflexivity |].
    destruct (id_requested req e) eqn:Er.
    + apply id_requested_iff in Er. exfalso. apply (Hnone e); [now left | assumption].
    + apply IH. intros e' He'. apply Hnone. now right.
Qed.

Lemma main_ids_exact_witness :
  exists rs,
    main_ids reference_platform (built two_notes) "zzz, 3d03cf99386e ,30cd21d41c05"
    = Returned rs
    /\ map r_id rs = ["30cd21d41c05"; "3d03cf99386e"]
    /\ main_ids reference_platform (built two_notes) "unknown" = Returned [].
Proof.
  destruct (collect_all two_notes) as [| e es] eqn:E;
    [vm_compute in E; discriminate E |].
  pose proof (built_index _ _ _ E) as Hidx.
  destruct (main_ids_exact reference_platform (built two_notes) _
              "zzz, 3d03cf99386e ,30cd21d41c05" eq_refl Hidx)
    as (rs & Hrs & _ & Hids & _).
  destruct (main_ids_exact reference_platform (built two_notes) _
              "unknown" eq_refl Hidx)
    as (rs' & Hrs' & Heq' & _).
  exists rs. split; [exact Hrs |]. split.
  - rewrite Hids. vm_compute in E. injection E as <- <-. vm_compute. reflexivity.
  - rewrite Hrs', Heq'. vm_compute in E. injection E as <- <-. vm_compute. reflexivity.
Defined.

(** ** The result record *)

Lemma make_result_coerced (entry : MemoryEntry) (sim : Q) :
  coerced entry (make_result entry sim).
Proof.
  unfold coerced, make_result, PyStr.or_empty. simpl.
  destruct (timestamp entry), (entity entry), (category entry); repeat split.
Qed.

(** What a build leaves behind. *)
Lemma index_all_cases (P : Platform) (self : Indexer) (w : World) :
  (sklearn_installed P = false
   /\ index_all P self w = (Returned 0, self, w))
  \/ (sklearn_installed P = true /\ collect_all w = []
      /\ index_all P self w
         = (Returned 0, {| ix_entries := []; ix_model := ix_model self |}, w))
  \/ (sklearn_installed P = true /\ collect_all w <> []
      /\ tfidf_fit P (map content (collect_all w)) = None
      /\ index_all P self w
         = (Raised ValueError,
            {| ix_entries := collect_all w; ix_model := ix_model self |}, w))
  \/ (exists m,
        sklearn_installed P = true /\ collect_all w <> []
        /\ tfidf_fit P (map content (collect_all w)) = Some m
        /\ index_all P self w
           = (Returned (Z.of_nat (List.length (collect_all w))),
              {| ix_entries := collect_all w; ix_model := Some m |},
              _save_index w (collect_all w) m)).
Proof.
  unfold index_all. destruct (sklearn_installed P); simpl; [| now left].
  right. destruct (collect_all w) as [| e es] eqn:E; [now left |].
  right. destruct (tfidf_fit P (map content (e :: es))) as [m |] eqn:Ef.
  - right. exists m. repeat split; congruence.
  - left. repeat split; congruence.
Qed.

Lemma search_results_wrap (P : Platform) (w w' : World) (query : string)
    (limit : Z) (la si en : option string) (rs : list Result) :
  search P w query limit la si en = (Returned rs, w') ->
  exists idx, index_pkl w' = Some idx
    /\ Forall (fun r => exists entry, In entry (idx_entries idx) /\ coerced entry r) rs.
Proof.
  assert (Hloaded : forall (self : Indexer) (idx : Index),
             ix_entries self = idx_entries idx ->
             search_loaded P self query limit la si en = Returned rs ->
             Forall (fun r => exists entry,
                         In entry (idx_entries idx) /\ coerced entry r) rs).
  { intros self idx Hent. unfold search_loaded.
    destruct (negb (sklearn_installed P)); [discriminate |].
    destruct (ix_model self) as [m |]; [| discriminate].
    apply scan_results_wrap; [| constructor].
    intros entry sim Hin. exists entry. rewrite <- Hent.
    split; [assumption | apply make_result_coerced]. }
  unfold search, load_index at 1.
  destruct (index_pkl w) as [idx |] eqn:Hidx.
  - destruct (sklearn_installed P) eqn:Hsk.
    + intros [= Hs <-]. exists idx. split; [assumption |].
      eapply Hloaded; [| exact Hs]. reflexivity.
    + destruct (index_all_cases P new_indexer w)
        as [[_ ->] | [[H _] | [(H & _) | (m & H & _)]]]; try congruence.
      unfold load_index. rewrite Hidx, Hsk.
      unfold search_loaded. rewrite Hsk. discriminate.
  - destruct (index_all_cases P new_indexer w)
      as [[Hsk ->] | [(Hsk & _ & ->) | [(_ & _ & _ & ->) | (m & Hsk & _ & _ & ->)]]].
    + unfold load_index. rewrite Hidx. unfold search_loaded. rewrite Hsk. discriminate.
    + unfold load_index. rewrite Hidx. unfold search_loaded. rewrite Hsk.
      simpl. discriminate.
    + discriminate.
    + unfold load_index, _save_index. cbn [index_pkl]. rewrite Hsk.
      intros [= Hs <-]. eexists. cbn [index_pkl]. split; [reflexivity |].
      eapply Hloaded; [| exact Hs]. reflexivity.
Qed.

(** C10: in every result record of [search] and of the id lookup, the
    optional metadata fields are strings: the stored value when there is
    one, the empty string otherwise. *)
Theorem results_never_null (P : Platform) (w : World) :
  (forall query limit la si en rs w',
      search P w query limit la si en = (Returned rs, w') ->
      exists idx, index_pkl w' = Some idx
        /\ Forall (fun r => exists entry,
                       In entry (idx_entries idx) /\ coerced entry r) rs)
  /\ (forall ids rs,
        main_ids P w ids = Returned rs ->
        exists idx, index_pkl w = Some idx
          /\ Forall (fun r => exists entry,
                         In entry (idx_entries idx) /\ coerced entry r) rs).
Proof.
  split.
  - intros query limit la si en rs w'. apply search_results_wrap.
  - intros ids rs. unfold main_ids, load_index.
    destruct (index_pkl w) as [idx |]; [| discriminate].
    destruct (sklearn_installed P); [| discriminate].
    simpl. rewrite lookup_loop_spec. intros [= <-].
    exists idx. split; [reflexivity |].
    rewrite Forall_forall. intros r Hr. simpl in Hr.
    apply in_map_iff in Hr. destruct Hr as [e [<- He]].
    apply filter_In in He. exists e. split; [tauto | apply make_result_coerced].
Qed.

Lemma results_never_null_witness :
  exists rs idx,
    search reference_platform undated_world "joined" 5 None None None
    = (Returned rs, undated_world)
    /\ index_pkl undated_world = Some idx
    /\ Forall (fun r => exists entry,
                   In entry (idx_entries idx) /\ coerced entry r) rs.
Proof.
  pose proof (built_index _ _ _ undated_world_entries) as Hidx.
  fold undated_world in Hidx.
  pose proof (search_persisted reference_platform undated_world _ "joined" 5
                None None None reference_platform_ok eq_refl Hidx
                ltac:(intros q; reflexivity)) as Hs.
  destruct (proj1 (results_never_null reference_platform undated_world)
              _ _ _ _ _ _ _ Hs) as (idx & Hidx' & Hall).
  eexists. exists idx. split; [exact Hs |]. split; assumption.
Defined.

(** The absent optional fields of a returned record are empty strings. *)
Example undated_fact_record :
  option_map (map (fun r => (r_content r, m_timestamp (r_metadata r),
                             m_entity (r_metadata r), m_category (r_metadata r))))
    (match fst (search reference_platform (built two_notes) "bug" 1 None None None) with
     | Returned rs => Some rs
     | Raised _ => None
     end)
  = Some [(("## Fixed the bug" ++ nl
            ++ "The crash in the parser was a missing null check.")%string,
           "2026-02-01", "", "fixed the bug")].
Proof. vm_compute. reflexivity. Qed.

(** ** The first use without an index *)

(** C6 fails on the code: with no persisted index and nothing to index,
    [index_all] returns 0, its result and that of the second [load_index]
    are ignored, and [search] goes on to [self.indexer.vectorizer.transform]
    with [vectorizer] still [None] (or, without scikit-learn, to the
    failing import): the caller gets an exception, not an outcome. *)
Theorem search_empty_build_raises (P : Platform) (w : World) (query : string)
    (limit : Z) (la si en : option string) :
  index_pkl w = None -> collect_all w = [] ->
  search P w query limit la si en
  = (Raised (if sklearn_installed P then AttributeError else ImportError), w).
Proof.
  intros Hidx Hnone. unfold search, load_index at 1. rewrite Hidx.
  unfold index_all. rewrite Hnone.
  destruct (sklearn_installed P) eqn:Hsk; simpl;
    unfold load_index; rewrite Hidx; unfold search_loaded; rewrite Hsk;
    reflexivity.
Qed.

Lemma search_empty_build_raises_witness :
  search reference_platform empty_world "deployment" 10 None None None
  = (Raised AttributeError, empty_world).
Proof.
  apply (search_empty_build_raises reference_platform empty_world
           "deployment" 10 None None None); reflexivity.
Defined.

(** When the build does yield entries, the first search builds the index
    and then answers from it. *)
Lemma search_builds_lazily (P : Platform) (w : World) (m : Fitted)
    (query : string) (limit : Z) (la si en : option string) :
  sklearn_installed P = true -> index_pkl w = None ->
  collect_all w <> [] ->
  tfidf_fit P (map content (collect_all w)) = Some m ->
  search P w query limit la si en
  = search P (_save_index w (collect_all w) m) query limit la si en.
Proof.
  intros Hsk Hidx Hne Hfit. unfold search at 1, load_index at 1. rewrite Hidx.
  unfold index_all. rewrite Hsk. simpl.
  destruct (collect_all w) as [| e es] eqn:E; [congruence |].
  rewrite Hfit. unfold search, load_index, _save_index. cbn [index_pkl].
  rewrite Hsk. reflexivity.
Qed.

(** Every index a build persists has one matrix row per entry. *)
Lemma index_all_index_ok (P : Platform) (self self' : Indexer) (w w' : World)
    (n : Z) :
  PlatformOk P ->
  index_all P self w = (Returned n, self', w') -> 0 < n ->
  exists idx, index_pkl w' = Some idx /\ IndexOk idx.
Proof.
  intros HP Hrun Hn.
  destruct (index_all_cases P self w)
    as [[_ H] | [(_ & _ & H) | [(_ & _ & _ & H) | (m & _ & _ & Hfit & H)]]];
    rewrite H in Hrun; try (injection Hrun as <- _ _; lia); try discriminate.
  injection Hrun as _ _ <-. eexists. split; [reflexivity |].
  intros q. simpl. rewrite (fit_rows P HP _ _ q Hfit). apply length_map.
Qed.

(** ** Identifiers within one index *)

Lemma section_entries_derived (threshold : nat) (layer_name path : string)
    (stamp : option string) (text : string) (e : MemoryEntry) :
  In e (section_entries threshold layer_name path stamp text) ->
  content_derived e /\ layer e = layer_name.
Proof.
  unfold section_entries. rewrite in_flat_map. intros [section [_ Hin]].
  destruct (_ <? threshold)%nat; [contradiction |].
  destruct Hin as [<- | []]. split; reflexivity.
Qed.

(** A fact entry carries the id of its record when the record has one. *)
Lemma fact_entry_id (items_file entity_name : string) (r : FactRecord)
    (e : MemoryEntry) :
  In e (fact_entry items_file entity_name r) ->
  layer e = "knowledge_graph"
  /\ fr_fact r = Some (content e)
  /\ match fr_id r with
     | Some i => id e = i
     | None => content_derived e
     end.
Proof.
  unfold fact_entry. destruct (fr_fact r) as [fact |] eqn:Ef; simpl.
  - destruct (PyStr.truthy fact); simpl; [| contradiction].
    intros [<- | []]. simpl. repeat split.
    destruct (fr_id r); reflexivity.
  - contradiction.
Qed.

Lemma collected_ids (w : World) (e : MemoryEntry) :
  In e (collect_all w) ->
  content_derived e
  \/ (layer e = "knowledge_graph"
      /\ exists r, In r (world_records w)
                   /\ fr_id r = Some (id e) /\ fr_fact r = Some (content e)).
Proof.
  unfold collect_all. rewrite !in_app_iff. intros [H | [H | [H | H]]].
  - left. unfold _index_daily_notes in H.
    destruct (memory_dir w) as [files |]; [| contradiction].
    apply in_flat_map in H. destruct H as [f [_ H]].
    destruct (md_is_dir f); [contradiction |].
    destruct (md_read f); [| contradiction].
    now apply section_entries_derived in H.
  - left. unfold _index_tacit_knowledge in H.
    apply in_flat_map in H. destruct H as [pf [_ H]].
    destruct (snd pf) as [[text |] |]; try contradiction.
    now apply section_entries_derived in H.
  - unfold _index_knowledge_graph in H. unfold world_records.
    destruct (life_areas w) as [areas |]; [| contradiction].
    apply in_flat_map in H. destruct H as [area_type [Ha H]].
    destruct (areas area_type) as [children |] eqn:Ech; [| contradiction].
    apply in_flat_map in H. destruct H as [node [Hn H]].
    destruct (en_is_dir node) eqn:Edir; simpl in H; [| contradiction].
    apply in_app_or in H. destruct H as [H | H].
    + left. unfold summary_entries in H.
      destruct (en_summary node) as [[text |] |]; try contradiction.
      destruct H as [<- | []]. reflexivity.
    + unfold items_entries in H. apply in_flat_map in H.
      destruct H as [item [Hitem H]].
      destruct item as [r |]; [| contradiction].
      apply fact_entry_id in H. destruct H as (Hl & Hf & Hid).
      destruct (fr_id r) as [i |] eqn:Ei; [| now left].
      right. split; [assumption |]. exists r. repeat split; try congruence.
      apply in_flat_map. exists area_type. split; [assumption |].
      rewrite Ech. apply in_flat_map. exists node. split; [assumption |].
      rewrite Edir. unfold entity_records. apply in_flat_map.
      exists (ItemRecord r). split; [assumption | now left].
  - left. unfold _index_tools in H.
    destruct (tools_skills w) as [files |]; [| contradiction].
    apply in_flat_map in H. destruct H as [pf [_ H]].
    destruct (snd pf); [| contradiction].
    destruct H as [<- | []]. reflexivity.
Qed.

(** C5, as amended: a build persists the outputs of the four collectors,
    concatenated in the order daily, tacit, knowledge graph, tools, with no
    de-duplication; each identifier is [generate_id(content, source)],
    except that of a fact whose record supplies one, which is that one.
    So identifiers coincide for entries of one source that agree on their
    first 200 characters. *)
Theorem index_all_ids_determined (P : Platform) (self self' : Indexer)
    (w w' : World) (n : Z) :
  index_all P self w = (Returned n, self', w') -> 0 < n ->
  exists idx,
    index_pkl w' = Some idx
    /\ idx_entries idx
       = _index_daily_notes w ++ _index_tacit_knowledge w
         ++ _index_knowledge_graph w ++ _index_tools w
    /\ n = Z.of_nat (List.length (idx_entries idx))
    /\ (forall e, In e (idx_entries idx) ->
          id e = generate_id (content e) (source e)
          \/ (layer e = "knowledge_graph"
              /\ exists r, In r (world_records w)
                           /\ fr_id r = Some (id e)
                           /\ fr_fact r = Some (content e)))
    /\ (forall e1 e2, In e1 (idx_entries idx) -> In e2 (idx_entries idx) ->
          id e1 = generate_id (content e1) (source e1) ->
          id e2 = generate_id (content e2) (source e2) ->
          source e1 = source e2 ->
          PyStr.take 200 (content e1) = PyStr.take 200 (content e2) ->
          id e1 = id e2).
Proof.
  intros Hrun Hn.
  destruct (index_all_cases P self w)
    as [[_ H] | [(_ & _ & H) | [(_ & _ & _ & H) | (m & _ & _ & _ & H)]]];
    rewrite H in Hrun; try (injection Hrun as <- _ _; lia); try discriminate.
  injection Hrun as <- _ <-.
  eexists. unfold _save_index. cbn [index_pkl idx_entries].
  split; [reflexivity |]. repeat split.
  - intros e He. now apply collected_ids.
  - intros e1 e2 _ _ H1 H2 Hsrc Hpre. rewrite H1, H2, Hsrc.
    rewrite (generate_id_reads_prefix (content e1)), Hpre.
    symmetry. apply generate_id_reads_prefix.
Qed.

Lemma same_id_world_entries :
  map (fun e => (id e, content e)) (collect_all same_id_world)
  = [("f1", "Alice joined the team"); ("f1", "Alice leads the deployment")].
Proof. vm_compute. reflexivity. Qed.

Lemma same_id_world_ids : map id (collect_all same_id_world) = ["f1"; "f1"].
Proof. vm_compute. reflexivity. Qed.

Lemma index_all_ids_determined_witness :
  exists idx,
    index_pkl (built same_id_world) = Some idx
    /\ List.length (idx_entries idx) = 2%nat
    /\ map id (idx_entries idx) = ["f1"; "f1"].
Proof.
  destruct (index_all reference_platform new_indexer same_id_world)
    as [[o self'] w'] eqn:E.
  pose proof (index_all_cases reference_platform new_indexer same_id_world)
    as [[H _] | [(_ & H & _) | [(_ & _ & H & _) | (m & _ & _ & _ & H)]]];
    try discriminate H.
  rewrite H in E. injection E as <- <- <-.
  destruct (index_all_ids_determined reference_platform new_indexer _
              same_id_world _ _ H ltac:(vm_compute; reflexivity))
    as (idx & Hidx & Hent & _).
  exists idx. unfold built. rewrite H. cbn [snd].
  split; [exact Hidx |].
  fold (collect_all same_id_world) in Hent. rewrite Hent.
  split; [vm_compute; reflexivity | exact same_id_world_ids].
Defined.

(** C5, as stated, fails: two facts filed under one id give two entries
    with that id. *)
Lemma index_all_duplicate_ids : ~ ids_unique_in_every_index.
Proof.
  intros claim.
  pose proof (index_all_cases reference_platform new_indexer same_id_world)
    as [[H _] | [(_ & H & _) | [(_ & _ & H & _) | (m & _ & _ & _ & H)]]];
    try discriminate H.
  specialize (claim reference_platform same_id_world _ _ _ _
                    reference_platform_ok H eq_refl).
  cbn [idx_entries] in claim. rewrite same_id_world_ids in claim.
  inversion claim as [| x l Hnotin _]; subst.
  apply Hnotin. now left.
Qed.

(** ** The timeline: anchor *)

(** C7: when none of the three branches determines an anchor instant,
    [get_timeline] returns the empty dict (or lets the exception of the
    search through): no time window, no events, no guessed anchor. *)
Theorem timeline_without_anchor (P : Platform) (w : World)
    (memory_id date query : option string) (hours_before hours_after : Z) :
  no_anchor (fst (resolve_anchor P w memory_id date query)) ->
  match fst (resolve_anchor P w memory_id date query) with
  | Raised e =>
      fst (get_timeline P w memory_id date query hours_before hours_after)
      = Raised e
  | Returned _ =>
      fst (get_timeline P w memory_id date query hours_before hours_after)
      = Returned EmptyDict
  end
  /\ (forall tl,
        fst (get_timeline P w memory_id date query hours_before hours_after)
        = Returned tl ->
        timeline_window tl = None /\ timeline_events tl = []).
Proof.
  unfold get_timeline.
  destruct (resolve_anchor P w memory_id date query) as [[[| ctx [t |]] | e] w'];
    simpl; intros Hno; try contradiction;
    (split; [reflexivity | intros tl [= <-]; split; reflexivity]) || (split; [reflexivity | discriminate]).
Qed.

Lemma timeline_without_anchor_witness :
  fst (get_timeline reference_platform (built two_notes)
                    (Some "mem-000000000000") None None 24 24)
  = Returned EmptyDict.
Proof.
  apply (timeline_without_anchor reference_platform (built two_notes)
           (Some "mem-000000000000") None None 24 24).
  vm_compute. exact I.
Defined.

(** A timeline with a window comes only from a resolved anchor. *)
Lemma timeline_needs_anchor (P : Platform) (w w' : World)
    (memory_id date query : option string) (hours_before hours_after : Z)
    (ctx : option anchor_context) (tw : TimeWindow) (evs : list Event) :
  get_timeline P w memory_id date query hours_before hours_after
  = (Returned (TimelineDict ctx tw evs), w') ->
  exists t, resolve_anchor P w memory_id date query
            = (Returned (Resolved ctx (Some t)), w').
Proof.
  unfold get_timeline.
  destruct (resolve_anchor P w memory_id date query) as [[[| c [t |]] | e] w0];
    try discriminate.
  unfold timeline_around.
  destruct (Calendar.add_hours t (- hours_before)); [| discriminate].
  destruct (Calendar.add_hours t hours_after); [| discriminate].
  destruct (match memory_dir w0 with Some _ => _ | None => _ end); [| discriminate].
  intros [= <- _ _ <-]. now exists t.
Qed.

(** The branches that end without an anchor. *)
Example timeline_nothing_supplied :
  fst (get_timeline reference_platform two_notes None None None 24 24)
  = Returned EmptyDict.
Proof. reflexivity. Qed.

Example timeline_malformed_date :
  fst (get_timeline reference_platform two_notes None (Some "31/01/2026") None 24 24)
  = Returned EmptyDict.
Proof. vm_compute. reflexivity. Qed.

Example timeline_id_without_index :
  fst (get_timeline reference_platform two_notes (Some "mem-30cd21d41c05") None None 24 24)
  = Returned EmptyDict.
Proof. vm_compute. reflexivity. Qed.

(** A known id whose entry has no usable timestamp: the entry is found,
    no instant is made up for it. *)
Example timeline_id_without_date :
  map id (collect_all (with_people [alice_undated] empty_world))
  = ["3cc4a830f4d2"; "68d9eca95ce1"]
  /\ fst (get_timeline reference_platform undated_world
                       (Some "mem-3cc4a830f4d2") None None 24 24)
     = Returned EmptyDict.
Proof. split; vm_compute; reflexivity. Qed.

Example timeline_query_on_empty_workspace :
  fst (get_timeline reference_platform empty_world None None (Some "bug") 24 24)
  = Raised AttributeError.
Proof. vm_compute. reflexivity. Qed.

(** ** The timeline: daily-note events *)

Lemma save_index_files (w : World) (es : list MemoryEntry) (m : Fitted) :
  memory_dir (_save_index w es m) = memory_dir w
  /\ workspace_dir (_save_index w es m) = workspace_dir w
  /\ items_files (_save_index w es m) = items_files w.
Proof. repeat split. Qed.

(** A search leaves the notes and the knowledge graph as they are. *)
Lemma search_files (P : Platform) (w : World) (query : string) (limit : Z)
    (la si en : option string) :
  let w' := snd (search P w query limit la si en) in
  memory_dir w' = memory_dir w /\ workspace_dir w' = workspace_dir w
  /\ items_files w' = items_files w.
Proof.
  unfold search. destruct (load_index P new_indexer w) as [[|] self1];
    [simpl; auto |].
  destruct (index_all_cases P self1 w)
    as [[_ ->] | [(_ & _ & ->) | [(_ & _ & _ & ->) | (m & _ & _ & _ & ->)]]];
    try (simpl; destruct (load_index P _ w); simpl; auto; fail);
    try (simpl; auto; fail).
  destruct (load_index P _ _). simpl. repeat split.
Qed.

Lemma resolve_anchor_files (P : Platform) (w : World)
    (memory_id date query : option string) :
  let w' := snd (resolve_anchor P w memory_id date query) in
  memory_dir w' = memory_dir w /\ workspace_dir w' = workspace_dir w
  /\ items_files w' = items_files w.
Proof.
  unfold resolve_anchor.
  destruct (PyStr.truthy_opt memory_id); [simpl; auto |].
  destruct (PyStr.truthy_opt date); [simpl; auto |].
  destruct (PyStr.truthy_opt query); [| simpl; auto].
  unfold anchor_by_query.
  pose proof (search_files P w (PyStr.or_empty query) 1 None None None) as H.
  destruct (search P w (PyStr.or_empty query) 1 None None None) as [[[| r rs] | e] w0];
    exact H.
Qed.




Lemma flat_map_nil {A B : Type} (H : A -> list B) (l : list A) :
  (forall g, In g l -> H g = []) -> flat_map H l = [].
Proof.
  induction l as [| g rest IH]; intros Hnil; simpl; [reflexivity |].
  rewrite (Hnil g (or_introl eq_refl)). apply IH.
  intros h Hh. apply Hnil. now right.
Qed.



Lemma kg_events_type (lo hi : Z) (w : World) (ev : Event) :
  In ev (kg_events lo hi w) -> ev_type ev = "knowledge_graph".
Proof.
  unfold kg_events. destruct (items_files w) as [files |]; [| contradiction].
  rewrite in_flat_map. intros [f [_ Hin]]. unfold items_file_events in Hin.
  destruct ((lo <=? if_mtime f) && (if_mtime f <=? hi)); [| contradiction].
  destruct (if_json f) as [items | |]; try contradiction.
  induction (last5 items) as [| [ts fact |] rest IH]; simpl in Hin;
    try contradiction.
  destruct Hin as [<- | Hin]; [reflexivity | auto].
Qed.


Lemma filter_all {A : Type} (p : A -> bool) (l : list A) :
  (forall x, In x l -> p x = true) -> filter p l = l.
Proof.
  induction l as [| x l IH]; intros H; simpl; [reflexivity |].
  rewrite (H x (or_introl eq_refl)), IH; [reflexivity |].
  intros y Hy. apply H. now right.
Qed.

Lemma filter_none {A : Type} (p : A -> bool) (l : list A) :
  (forall x, In x l -> p x = false) -> filter p l = [].
Proof.
  induction l as [| x l IH]; intros H; simpl; [reflexivity |].
  rewrite (H x (or_introl eq_refl)). apply IH.
  intros y Hy. apply H. now right.
Qed.




(** The scenario of the specification, run to the end. *)
Example timeline_two_notes :
  fst (get_timeline reference_platform two_notes None (Some "2026-01-31") None 24 24)
  = Returned
      (TimelineDict None
         {| tw_start := "2026-01-30"; tw_end := "2026-02-01";
            tw_hours_before := 24; tw_hours_after := 24 |}
         [ {| ev_date := PStr "2026-01-30"; ev_type := "daily_note";
              ev_event := PStr "Discussed deployment plan";
              ev_file := "/ws/memory/2026-01-30.md"; ev_entity := None |};
           {| ev_date := PStr "2026-02-01"; ev_type := "daily_note";
              ev_event := PStr "Fixed the bug";
              ev_file := "/ws/memory/2026-02-01.md"; ev_entity := None |} ]).
Proof. vm_compute. reflexivity. Qed.

(** ** The timeline: knowledge-graph events *)

Lemma last5_length {A : Type} (l : list A) : (List.length (last5 l) <= 5)%nat.
Proof. unfold last5. rewrite length_skipn. lia. Qed.

Lemma last5_short {A : Type} (l : list A) :
  (List.length l <= 5)%nat -> last5 l = l.
Proof.
  intros H. unfold last5. replace (List.length l - 5)%nat with 0%nat by lia.
  reflexivity.
Qed.

(** A bare list of records, modified inside the window: its last five
    records, each dated by its own timestamp and tagged with the entity. *)
Lemma bare_items_events (lo hi : Z) (f : ItemsFile) (items : list TItem) :
  if_json f = TBareList items ->
  lo <= if_mtime f <= hi ->
  forallb is_record (last5 items) = true ->
  items_file_events lo hi f = map (record_event f) (last5 items).
Proof.
  intros Hjson [Hlo Hhi] Hrec. unfold items_file_events. rewrite Hjson.
  apply Z.leb_le in Hlo. apply Z.leb_le in Hhi. rewrite Hlo, Hhi. simpl.
  induction (last5 items) as [| [ts fact |] rest IH]; simpl in *;
    [reflexivity | | discriminate].
  now rewrite IH.
Qed.

(** An object wrapping the list gives no event at all: [items[-5:]] raises
    inside the [try]. *)
Lemma wrapped_items_events (lo hi : Z) (f : ItemsFile) (key : string)
    (items : list TItem) :
  if_json f = TWrapped key items -> items_file_events lo hi f = [].
Proof.
  intros Hjson. unfold items_file_events. rewrite Hjson.
  now destruct ((lo <=? if_mtime f) && (if_mtime f <=? hi)).
Qed.

(** The indexer reads the wrapped and the bare document alike. *)
Lemma indexer_reads_wrapped (entity_dir : string) (e e' : EntityNode)
    (items : list Item) :
  en_name e = en_name e' ->
  en_items e = Some (ItemsDict (Some items)) ->
  en_items e' = Some (ItemsList items) ->
  items_entries entity_dir e = items_entries entity_dir e'.
Proof.
  intros Hname H H'. unfold items_entries, loaded_items.
  now rewrite H, H', Hname.
Qed.

(** C9 on a wrapped fact list: [people/Alice/items.json] holding
    [{"items": [fact]}], modified at noon of the anchor day, contributes no
    event, where the bare list [[fact]] contributes the fact; the indexer
    does turn the wrapped document into an entry. *)
Theorem timeline_drops_wrapped_items :
  fst (get_timeline reference_platform wrapped_world None (Some "2026-03-01") None 24 24)
  = Returned
      (TimelineDict None
         {| tw_start := "2026-02-28"; tw_end := "2026-03-02";
            tw_hours_before := 24; tw_hours_after := 24 |}
         [])
  /\ fst (get_timeline reference_platform bare_world None (Some "2026-03-01") None 24 24)
     = Returned
         (TimelineDict None
            {| tw_start := "2026-02-28"; tw_end := "2026-03-02";
               tw_hours_before := 24; tw_hours_after := 24 |}
            [ {| ev_date := PStr "2026-03-01"; ev_type := "knowledge_graph";
                 ev_event := PStr "Alice joined the team";
                 ev_file := "/home/life/areas/people/Alice/items.json";
                 ev_entity := Some "Alice" |} ])
  /\ map (fun e => (content e, entity e, category e))
         (collect_all (with_people [alice_wrapped] empty_world))
     = [("Alice joined the team", Some "Alice", Some "fact")].
Proof. repeat split; vm_compute; reflexivity. Qed.

(* ================================================================== *)
(** * Further properties of the code *)
(* ================================================================== *)

(** ** Strings *)

Lemma string_app_assoc (a b c : string) :
  ((a ++ b) ++ c = a ++ (b ++ c))%string.
Proof. induction a as [| x a IH]; simpl; [reflexivity | now rewrite IH]. Qed.

Lemma rev_onto_app (s acc : string) :
  PyStr.rev_onto s acc = (PyStr.reverse s ++ acc)%string.
Proof.
  unfold PyStr.reverse. revert acc.
  induction s as [| c s IH]; intros acc; simpl; [reflexivity |].
  rewrite IH, (IH (String c "")), string_app_assoc. reflexivity.
Qed.

Lemma string_app_nil_r (a : string) : (a ++ "")%string = a.
Proof. induction a as [| x a IH]; simpl; [reflexivity | now rewrite IH]. Qed.

Lemma reverse_cons (c : ascii) (s : string) :
  PyStr.reverse (String c s) = (PyStr.reverse s ++ String c "")%string.
Proof. unfold PyStr.reverse at 1. simpl. apply rev_onto_app. Qed.

Lemma reverse_app (a b : string) :
  PyStr.reverse (a ++ b) = (PyStr.reverse b ++ PyStr.reverse a)%string.
Proof.
  induction a as [| x a IH]; simpl.
  - now rewrite string_app_nil_r.
  - now rewrite !reverse_cons, IH, string_app_assoc.
Qed.

Lemma reverse_involutive (s : string) : PyStr.reverse (PyStr.reverse s) = s.
Proof.
  induction s as [| c s IH]; [reflexivity |].
  rewrite reverse_cons, reverse_app, IH. reflexivity.
Qed.

Lemma string_length_app (a b : string) :
  String.length (a ++ b) = (String.length a + String.length b)%nat.
Proof. induction a as [| x a IH]; simpl; [reflexivity | now rewrite IH]. Qed.

Lemma reverse_length (s : string) :
  String.length (PyStr.reverse s) = String.length s.
Proof.
  induction s as [| c s IH]; [reflexivity |].
  rewrite reverse_cons, string_length_app, IH. simpl. lia.
Qed.

Lemma lstrip_head_clear (p : ascii -> bool) (s : string) :
  head_clear p (PyStr.lstrip_by p s).
Proof.
  induction s as [| c s IH]; simpl; [exact I |].
  destruct (p c) eqn:E; [exact IH | exact E].
Qed.

Lemma lstrip_clear (p : ascii -> bool) (s : string) :
  head_clear p s -> PyStr.lstrip_by p s = s.
Proof. destruct s as [| c s]; simpl; [reflexivity | now intros ->]. Qed.

Lemma lstrip_length (p : ascii -> bool) (s : string) :
  (String.length (PyStr.lstrip_by p s) <= String.length s)%nat.
Proof.
  induction s as [| c s IH]; simpl; [lia |].
  destruct (p c); simpl; lia.
Qed.

(** Stripping on the left leaves the last character in place. *)
Lemma lstrip_keeps_last (p : ascii -> bool) (s : string) (c : ascii) :
  p c = false ->
  exists x, PyStr.lstrip_by p (s ++ String c "") = (x ++ String c "")%string.
Proof.
  intros Hc. induction s as [| d s IH]; simpl.
  - rewrite Hc. now exists "".
  - destruct (p d); [exact IH |]. now exists (String d s).
Qed.

Lemma rstrip_head_clear (p : ascii -> bool) (s : string) :
  head_clear p s -> head_clear p (PyStr.rstrip_by p s).
Proof.
  destruct s as [| c s]; [intros _; exact I |].
  simpl. intros Hc. unfold PyStr.rstrip_by. rewrite reverse_cons.
  destruct (lstrip_keeps_last p (PyStr.reverse s) c Hc) as [x ->].
  rewrite reverse_app. simpl. exact Hc.
Qed.

Lemma rstrip_length (p : ascii -> bool) (s : string) :
  (String.length (PyStr.rstrip_by p s) <= String.length s)%nat.
Proof.
  unfold PyStr.rstrip_by. rewrite reverse_length.
  etransitivity; [apply lstrip_length |]. now rewrite reverse_length.
Qed.

Lemma strip_ends_clear (p : ascii -> bool) (s : string) :
  ends_clear p (PyStr.strip_by p s).
Proof.
  unfold PyStr.strip_by. split.
  - apply rstrip_head_clear, lstrip_head_clear.
  - unfold PyStr.rstrip_by. rewrite reverse_involutive. apply lstrip_head_clear.
Qed.

Lemma strip_clear (p : ascii -> bool) (s : string) :
  ends_clear p s -> PyStr.strip_by p s = s.
Proof.
  intros [Hh Hl]. unfold PyStr.strip_by, PyStr.rstrip_by.
  rewrite (lstrip_clear p s Hh), (lstrip_clear p _ Hl).
  apply reverse_involutive.
Qed.

Lemma strip_idempotent (p : ascii -> bool) (s : string) :
  PyStr.strip_by p (PyStr.strip_by p s) = PyStr.strip_by p s.
Proof. apply strip_clear, strip_ends_clear. Qed.

Lemma strip_length (p : ascii -> bool) (s : string) :
  (String.length (PyStr.strip_by p s) <= String.length s)%nat.
Proof.
  unfold PyStr.strip_by. etransitivity; [apply rstrip_length | apply lstrip_length].
Qed.

Lemma rstrip_keeps_head (p : ascii -> bool) (c : ascii) (s : string) :
  p c = false -> exists y, PyStr.rstrip_by p (String c s) = String c y.
Proof.
  intros Hc. unfold PyStr.rstrip_by. rewrite reverse_cons.
  destruct (lstrip_keeps_last p (PyStr.reverse s) c Hc) as [x ->].
  rewrite reverse_app. simpl. now exists (PyStr.reverse x).
Qed.

Lemma startswith_hash (s : string) :
  PyStr.startswith "#" s = true <-> exists r, s = String "#" r.
Proof.
  unfold PyStr.startswith. rewrite String.prefix_correct.
  destruct s as [| c s]; simpl.
  - split; [intros H; discriminate H | intros [r H]; discriminate H].
  - replace (substring 0 0 s) with "" by now destruct s.
    split.
    + intros [= ->]. now exists s.
    + intros [r [= -> _]]. reflexivity.
Qed.

Lemma strip_keeps_hash (s : string) :
  PyStr.startswith "#" s = true -> PyStr.startswith "#" (PyStr.strip s) = true.
Proof.
  rewrite !startswith_hash. intros [r ->].
  unfold PyStr.strip, PyStr.strip_by. simpl.
  destruct (rstrip_keeps_head PyStr.isspace "#" r eq_refl) as [y ->].
  now exists y.
Qed.

(** ** Splitting a document into sections *)

Lemma re_split_nonempty (s : string) : re_split_sections s <> [].
Proof.
  destruct s as [| c s]; simpl; [discriminate |].
  destruct (Ascii.eqb c "010" && heading_ahead s); [discriminate |].
  destruct (re_split_sections s); discriminate.
Qed.

Lemma re_split_sections_join_aux (text : string) :
  String.concat nl (re_split_sections text) = text
  /\ Forall (fun part => PyStr.startswith "#" part = true)
            (tl (re_split_sections text)).
Proof.
  split.
  - induction text as [| c s IH]; [reflexivity |].
    simpl. destruct (Ascii.eqb c "010" && heading_ahead s) eqn:E.
    + apply andb_true_iff in E. destruct E as [Ec _].
      apply Ascii.eqb_eq in Ec. subst c.
      pose proof (re_split_nonempty s) as Hne.
      destruct (re_split_sections s) as [| p ps] eqn:Es; [congruence |].
      change (String.concat nl ("" :: p :: ps))
        with (("" ++ nl ++ String.concat nl (p :: ps))%string).
      rewrite IH. reflexivity.
    + pose proof (re_split_nonempty s) as Hne.
      destruct (re_split_sections s) as [| p ps] eqn:Es; [congruence |].
      rewrite <- IH. destruct ps as [| q qs]; reflexivity.
  - induction text as [| c s IH]; [constructor |].
    simpl. destruct (Ascii.eqb c "010" && heading_ahead s) eqn:E.
    + simpl. apply andb_true_iff in E. destruct E as [_ Eh].
      assert (Hs : exists r, s = String "#" r).
      { destruct s as [| d s']; [discriminate |].
        destruct d as [[] [] [] [] [] [] [] []]; try discriminate.
        now exists s'. }
      destruct Hs as [r ->].
      pose proof (re_split_nonempty (String "#" r)) as Hne.
      destruct (re_split_sections (String "#" r)) as [| p ps] eqn:Es;
        [congruence |].
      constructor; [| exact IH].
      apply startswith_hash. simpl in Es.
      destruct (re_split_sections r); injection Es as <- _; eauto.
    + destruct (re_split_sections s) as [| p ps]; [constructor | exact IH].
Qed.

(** X1: the split loses nothing: joining the parts of
    [re.split(r'\n(?=#{1,3}\s)', content)] with a newline gives the content
    back, and every part after the first starts with ['#']. *)
Theorem re_split_sections_join (text : string) :
  String.concat nl (re_split_sections text) = text
  /\ Forall (fun part => PyStr.startswith "#" part = true)
            (tl (re_split_sections text)).
Proof. apply re_split_sections_join_aux. Qed.

Lemma re_split_part_length (text part : string) :
  In part (re_split_sections text) ->
  (String.length part <= String.length text)%nat.
Proof.
  revert part. induction text as [| c s IH]; intros part; simpl.
  - intros [<- | []]. simpl. lia.
  - destruct (Ascii.eqb c "010" && heading_ahead s).
    + intros [<- | Hin]; [simpl; lia |]. specialize (IH _ Hin). lia.
    + destruct (re_split_sections s) as [| p ps] eqn:Es.
      * intros [<- | []]. simpl. lia.
      * intros [<- | Hin].
        -- specialize (IH p (or_introl eq_refl)). simpl. lia.
        -- specialize (IH part (or_intror Hin)). lia.
Qed.

Lemma truthy_true (s : string) : PyStr.truthy s = true <-> s <> "".
Proof. destruct s; simpl; split; congruence. Qed.

Lemma section_is_stripped_part (text section : string) :
  In section (_split_by_sections text) ->
  exists part, In part (re_split_sections text)
               /\ section = PyStr.strip part /\ section <> "".
Proof.
  unfold _split_by_sections. rewrite in_map_iff.
  intros [part [<- Hin]]. apply filter_In in Hin. destruct Hin as [Hin Ht].
  exists part. repeat split; [assumption |]. now apply truthy_true.
Qed.

Lemma hash_section_has_category (section : string) :
  PyStr.startswith "#" section = true ->
  _extract_category_from_section section <> None.
Proof.
  rewrite startswith_hash. intros [r ->].
  unfold _extract_category_from_section.
  assert (Hsplit : exists l ls,
             PyStr.split_on "010" (String "#" r) = String "#" l :: ls).
  { cbn [PyStr.split_on]. change (Ascii.eqb "#" "010") with false. cbv iota.
    destruct (PyStr.split_on "010" r); eauto. }
  destruct Hsplit as (l & ls & ->). cbn [firstn filter].
  rewrite (proj2 (startswith_hash (String "#" l))) by eauto.
  discriminate.
Qed.

(** X2: the sections of a document are non-empty and have no whitespace
    at either end; every section after the first starts with ['#'], so its
    category is never missing. *)
Theorem sections_stripped (text : string) :
  Forall (fun section =>
            section <> "" /\ ends_clear PyStr.isspace section
            /\ PyStr.strip section = section)
         (_split_by_sections text)
  /\ Forall (fun section =>
               PyStr.startswith "#" section = true
               /\ _extract_category_from_section section <> None)
            (tl (_split_by_sections text)).
Proof.
  split.
  - rewrite Forall_forall. intros section Hin.
    destruct (section_is_stripped_part _ _ Hin) as (part & _ & -> & Hne).
    repeat split; try assumption; try apply strip_ends_clear.
    apply strip_idempotent.
  - assert (Hhash : forall parts,
               Forall (fun p => PyStr.startswith "#" p = true) parts ->
               Forall (fun section =>
                         PyStr.startswith "#" section = true
                         /\ _extract_category_from_section section <> None)
                      (map PyStr.strip
                           (filter (fun p => PyStr.truthy (PyStr.strip p)) parts))).
    { intros parts Hp. rewrite Forall_forall in *. intros sec Hsec.
      apply in_map_iff in Hsec. destruct Hsec as [p [<- Hin]].
      apply filter_In in Hin. destruct Hin as [Hin _].
      pose proof (strip_keeps_hash p (Hp p Hin)) as Hs.
      split; [assumption | now apply hash_section_has_category]. }
    unfold _split_by_sections.
    pose proof (proj2 (re_split_sections_join_aux text)) as Htl.
    destruct (re_split_sections text) as [| p0 rest]; [constructor |].
    simpl in Htl. simpl.
    destruct (PyStr.truthy (PyStr.strip p0)); simpl.
    + now apply Hhash.
    + specialize (Hhash rest Htl).
      destruct (map PyStr.strip _) as [| x xs]; [constructor |].
      now inversion Hhash.
Qed.

(** ** What the collectors emit *)





(** X4: a document shorter than the threshold of its layer contributes no
    entry at all, whatever its sections. *)
Theorem short_document_no_entries (threshold : nat) (layer_name path : string)
    (stamp : option string) (text : string) :
  (String.length text < threshold)%nat ->
  section_entries threshold layer_name path stamp text = [].
Proof.
  intros Hshort. unfold section_entries. apply flat_map_nil.
  intros section Hsec.
  destruct (section_is_stripped_part _ _ Hsec) as (part & Hpart & Heq & _).
  assert (Hlen : (String.length (PyStr.strip section) < threshold)%nat).
  { rewrite Heq. unfold PyStr.strip. rewrite strip_idempotent.
    pose proof (strip_length PyStr.isspace part).
    pose proof (re_split_part_length _ _ Hpart). lia. }
  apply Nat.ltb_lt in Hlen. now rewrite Hlen.
Qed.

Lemma short_document_no_entries_witness :
  section_entries 50 "daily" "/ws/memory/2026-01-30.md" (Some "2026-01-30")
                  ("## Discussed deployment plan" ++ nl ++ "## Next")%string
  = [].
Proof.
  apply short_document_no_entries. simpl. lia.
Defined.

(** ** Building, persisting and loading the index *)



(** A build on the executable platform. *)
Lemma index_all_reference (self : Indexer) (w : World) (e : MemoryEntry)
    (es : list MemoryEntry) :
  collect_all w = e :: es ->
  index_all reference_platform self w
  = (Returned (Z.of_nat (List.length (e :: es))),
     {| ix_entries := e :: es;
        ix_model := Some (fun q => map (occurs_in q) (map content (e :: es))) |},
     _save_index w (e :: es)
       (fun q => map (occurs_in q) (map content (e :: es)))).
Proof.
  intros H. unfold index_all.
  cbn [reference_platform sklearn_installed tfidf_fit negb].
  rewrite H. reflexivity.
Qed.

Lemma two_notes_collected :
  exists e1 e2, collect_all two_notes = [e1; e2]
                /\ id e1 = "30cd21d41c05" /\ id e2 = "3d03cf99386e".
Proof. do 2 eexists. split; [vm_compute; reflexivity |]. split; reflexivity. Qed.



(** X6: persisting and loading round-trip: after a build that indexed
    something, [load_index] succeeds on any indexer object and restores
    exactly the entries and the model the build held, the entries being the
    collected ones in collection order. *)
Theorem load_after_build (P : Platform) (self self1 other : Indexer)
    (w w1 : World) (n : Z) :
  index_all P self w = (Returned n, self1, w1) -> 0 < n ->
  load_index P other w1 = (true, self1)
  /\ ix_entries self1 = collect_all w
  /\ n = Z.of_nat (List.length (ix_entries self1)).
Proof.
  intros Hrun Hn.
  destruct (index_all_cases P self w)
    as [[_ H] | [(_ & _ & H) | [(_ & _ & _ & H) | (m & Hsk & Hne & Hfit & H)]]];
    rewrite H in Hrun; try (injection Hrun as <- _ _; lia); try discriminate.
  injection Hrun as <- <- <-.
  unfold load_index, _save_index. simpl. rewrite Hsk. repeat split.
Qed.

Lemma load_after_build_witness :
  exists self1 w1,
    index_all reference_platform new_indexer two_notes = (Returned 2, self1, w1)
    /\ load_index reference_platform new_indexer w1 = (true, self1)
    /\ map id (ix_entries self1) = ["30cd21d41c05"; "3d03cf99386e"].
Proof.
  destruct two_notes_collected as (e1 & e2 & E & H1 & H2).
  pose proof (index_all_reference new_indexer two_notes _ _ E) as H.
  destruct (load_after_build reference_platform new_indexer _ new_indexer
              two_notes _ _ H ltac:(reflexivity)) as (Hload & _).
  do 2 eexists. split; [exact H |]. split; [exact Hload |].
  cbn [ix_entries map]. now rewrite H1, H2.
Defined.

(** X7: a build that indexes nothing, or that fails while fitting, writes
    nothing: the workspace, and with it any index persisted before, stays
    as it was; the count returned is never negative, and it is zero exactly
    when scikit-learn is missing or no entry was collected. *)
Theorem failed_build_writes_nothing (P : Platform) (self self' : Indexer)
    (w w' : World) (o : outcome Z) :
  index_all P self w = (o, self', w') ->
  match o with
  | Returned n =>
      0 <= n
      /\ (n = 0 <-> sklearn_installed P = false \/ collect_all w = [])
      /\ (n = 0 -> w' = w)
  | Raised e => e = ValueError /\ w' = w
  end.
Proof.
  intros Hrun.
  destruct (index_all_cases P self w)
    as [[Hsk H] | [(Hsk & He & H) | [(Hsk & Hne & _ & H) | (m & Hsk & Hne & _ & H)]]];
    rewrite H in Hrun; injection Hrun as <- _ <-.
  - repeat split; auto; lia.
  - repeat split; auto; lia.
  - now split.
  - assert (Hpos : 0 < Z.of_nat (List.length (collect_all w))).
    { destruct (collect_all w); [congruence | simpl; lia]. }
    split; [lia |]. split; [| lia].
    split; [lia |]. intros [Hc | Hc]; congruence.
Qed.

Lemma failed_build_writes_nothing_witness :
  index_all reference_platform new_indexer empty_world
  = (Returned 0, new_indexer, empty_world).
Proof.
  destruct (index_all reference_platform new_indexer empty_world)
    as [[o self'] w'] eqn:E.
  pose proof (failed_build_writes_nothing _ _ _ _ _ _ E) as H.
  vm_compute in E. injection E as <- <- <-. reflexivity.
Defined.

(** ** Searching *)

(** A search either raises or runs the scan on some indexer state. *)
Lemma search_outcome (P : Platform) (w w' : World) (query : string) (limit : Z)
    (la si en : option string) (o : outcome (list Result)) :
  search P w query limit la si en = (o, w') ->
  (exists e, o = Raised e)
  \/ (exists self, o = search_loaded P self query limit la si en).
Proof.
  unfold search.
  destruct (load_index P new_indexer w) as [[|] self1].
  - intros [= <- _]. right. eauto.
  - destruct (index_all P self1 w) as [[[n | e] self2] w2].
    + destruct (load_index P self2 w2) as [b self3].
      intros [= <- _]. right. eauto.
    + intros [= <- _]. left. eauto.
Qed.

(** What the scan keeps was not skipped. *)
Lemma scan_results_kept (entries : list MemoryEntry) (sims : list Q) (limit : Z)
    (la si en : option string) (top : list nat) (acc rs : list Result)
    (Q : Result -> Prop) :
  (forall entry sim, skips la si en entry = false -> Q (make_result entry sim)) ->
  Forall Q acc ->
  scan entries sims limit la si en top acc = Returned rs ->
  Forall Q rs.
Proof.
  intros HQ. revert acc. induction top as [| idx rest IH]; intros acc Hacc; simpl.
  - now intros [= <-].
  - destruct (nth_error entries idx) as [entry |]; [| discriminate].
    destruct (nth_error sims idx) as [sim |]; [| discriminate].
    destruct (skips la si en entry) eqn:Esk; [now apply IH |].
    assert (Hacc' : Forall Q (acc ++ [make_result entry sim])).
    { apply Forall_app. split; [assumption |].
      constructor; [| constructor]. now apply HQ. }
    destruct (_ >=? limit); [now intros [= <-] | now apply IH].
Qed.

Lemma scan_length (entries : list MemoryEntry) (sims : list Q) (limit : Z)
    (la si en : option string) (top : list nat) (acc rs : list Result) :
  acc = [] \/ Z.of_nat (List.length acc) < limit ->
  scan entries sims limit la si en top acc = Returned rs ->
  Z.of_nat (List.length rs) <= Z.max 1 limit.
Proof.
  revert acc. induction top as [| idx rest IH]; intros acc Hacc; simpl.
  - intros [= <-]. destruct Hacc as [-> | H]; simpl; lia.
  - destruct (nth_error entries idx) as [entry |]; [| discriminate].
    destruct (nth_error sims idx) as [sim |]; [| discriminate].
    destruct (skips la si en entry); [now apply IH |].
    destruct (_ >=? limit) eqn:E.
    + intros [= <-]. rewrite length_app. simpl.
      destruct Hacc as [-> | H]; simpl; lia.
    + apply IH. right. rewrite Z.geb_leb in E. apply Z.leb_gt in E. exact E.
Qed.

(** X8: [search] returns at most [limit] results when [limit] is at least
    one, and never more than one result otherwise, whatever the index and
    the filters. *)
Theorem search_result_count (P : Platform) (w w' : World) (query : string)
    (limit : Z) (la si en : option string) (rs : list Result) :
  search P w query limit la si en = (Returned rs, w') ->
  Z.of_nat (List.length rs) <= Z.max 1 limit
  /\ (1 <= limit -> Z.of_nat (List.length rs) <= limit).
Proof.
  intros Hs.
  assert (H : Z.of_nat (List.length rs) <= Z.max 1 limit).
  { destruct (search_outcome _ _ _ _ _ _ _ _ _ Hs) as [[e He] | [self He]];
      [discriminate |].
    symmetry in He. unfold search_loaded in He.
    destruct (negb (sklearn_installed P)); [discriminate |].
    destruct (ix_model self) as [m |]; [| discriminate].
    eapply scan_length; [| exact He]. now left. }
  split; [exact H | lia].
Qed.

Lemma search_result_count_witness :
  exists rs,
    fst (search reference_platform (built two_notes) "the" 1 None None None)
    = Returned rs
    /\ Z.of_nat (List.length rs) <= 1.
Proof.
  destruct (search reference_platform (built two_notes) "the" 1 None None None)
    as [o w'] eqn:E.
  assert (Ho : exists rs, o = Returned rs).
  { assert (H : fst (search reference_platform (built two_notes) "the" 1
                            None None None) = o) by now rewrite E.
    vm_compute in H. subst o. eauto. }
  destruct Ho as [rs ->]. exists rs. split; [reflexivity |].
  apply (proj2 (search_result_count _ _ _ _ _ _ _ _ _ E)). lia.
Defined.

(** X9: the filters are sound: with a non-empty [layer] every result has
    that layer, with a non-empty [entity] every result names that entity,
    and with a non-empty [since] the timestamp of every result is empty or
    not lexically below [since]. *)
Theorem search_filters_sound (P : Platform) (w w' : World) (query : string)
    (limit : Z) (la si en : option string) (rs : list Result) :
  search P w query limit la si en = (Returned rs, w') ->
  Forall (fun r =>
            (forall l, la = Some l -> l <> "" -> m_layer (r_metadata r) = l)
            /\ (forall n, en = Some n -> n <> "" -> m_entity (r_metadata r) = n)
            /\ (forall s, si = Some s -> s <> "" ->
                  m_timestamp (r_metadata r) = ""
                  \/ String.ltb (m_timestamp (r_metadata r)) s = false))
         rs.
Proof.
  intros Hs.
  destruct (search_outcome _ _ _ _ _ _ _ _ _ Hs) as [[e He] | [self He]];
    [discriminate |].
  symmetry in He. unfold search_loaded in He.
  destruct (negb (sklearn_installed P)); [discriminate |].
  destruct (ix_model self) as [m |]; [| discriminate].
  eapply scan_results_kept; [| constructor | exact He].
  intros entry sim Hkeep. unfold skips in Hkeep.
  apply orb_false_iff in Hkeep. destruct Hkeep as [Hkeep Hent].
  apply orb_false_iff in Hkeep. destruct Hkeep as [Hlay Hsin].
  simpl. repeat split.
  - intros l -> Hl. unfold skip_layer in Hlay.
    apply truthy_true in Hl. rewrite Hl in Hlay. simpl in Hlay.
    apply negb_false_iff, String.eqb_eq in Hlay. exact Hlay.
  - intros n -> Hn. unfold skip_entity, opt_differs in Hent.
    apply truthy_true in Hn. rewrite Hn in Hent. simpl in Hent.
    destruct (entity entry) as [x |]; [| discriminate].
    apply negb_false_iff, String.eqb_eq in Hent. now subst.
  - intros s -> Hne. unfold skip_since in Hsin.
    apply truthy_true in Hne. rewrite Hne in Hsin. simpl in Hsin.
    destruct (timestamp entry) as [t |]; simpl; [| now left].
    destruct t as [| c t]; [now left |]. right. exact Hsin.
Qed.

Lemma search_filters_sound_witness :
  exists r,
    fst (search reference_platform undated_world "Alice" 10
                (Some "knowledge_graph") (Some "2026-01-01") (Some "Alice"))
    = Returned [r; make_result
                     {| id := generate_id "Alice joined the team"
                                          "/home/life/areas/people/Alice/items.json";
                        content := "Alice joined the team";
                        source := "/home/life/areas/people/Alice/items.json";
                        layer := "knowledge_graph"; timestamp := Some "";
                        entity := Some "Alice"; category := Some "fact" |} 1%Q]
    /\ m_layer (r_metadata r) = "knowledge_graph"
    /\ m_entity (r_metadata r) = "Alice".
Proof.
  destruct (search reference_platform undated_world "Alice" 10
                   (Some "knowledge_graph") (Some "2026-01-01") (Some "Alice"))
    as [o w'] eqn:E.
  assert (Ho : fst (search reference_platform undated_world "Alice" 10
                           (Some "knowledge_graph") (Some "2026-01-01")
                           (Some "Alice")) = o) by now rewrite E.
  vm_compute in Ho. subst o.
  pose proof (search_filters_sound _ _ _ _ _ _ _ _ _ E) as Hall.
  inversion Hall as [| r rest (Hl & Hn & _) _]; subst.
  eexists. split; [reflexivity |]. split.
  - apply Hl; [reflexivity | discriminate].
  - apply Hn; [reflexivity | discriminate].
Defined.

(** X10: searching is idempotent: the same search asked again, on the
    workspace the first one left, gives the same outcome and changes
    nothing, so the index is built at most once. *)
Theorem search_idempotent (P : Platform) (w w' : World) (query : string)
    (limit : Z) (la si en : option string) (o : outcome (list Result)) :
  search P w query limit la si en = (o, w') ->
  search P w' query limit la si en = (o, w').
Proof.
  intros Hs. pose proof Hs as Hs0. unfold search in Hs.
  destruct (load_index P new_indexer w) as [[|] self1] eqn:El.
  - injection Hs as <- <-. exact Hs0.
  - destruct (index_all_cases P self1 w)
      as [[Hsk H] | [(Hsk & He & H) | [(Hsk & Hne & Hf & H) | (m & Hsk & Hne & Hf & H)]]];
      rewrite H in Hs.
    + match type of Hs with
      | context [load_index ?a ?b ?c] => destruct (load_index a b c)
      end.
      injection Hs as <- <-. exact Hs0.
    + match type of Hs with
      | context [load_index ?a ?b ?c] => destruct (load_index a b c)
      end.
      injection Hs as <- <-. exact Hs0.
    + injection Hs as <- <-. exact Hs0.
    + unfold load_index, _save_index in Hs. cbn [index_pkl] in Hs.
      rewrite Hsk in Hs. injection Hs as <- <-.
      unfold search, load_index, _save_index. cbn [index_pkl]. rewrite Hsk.
      reflexivity.
Qed.

Lemma search_idempotent_witness :
  exists o w',
    search reference_platform two_notes "bug" 5 None None None = (o, w')
    /\ index_pkl two_notes = None /\ index_pkl w' <> None
    /\ search reference_platform w' "bug" 5 None None None = (o, w').
Proof.
  destruct two_notes_collected as (e1 & e2 & E & _).
  destruct (search reference_platform two_notes "bug" 5 None None None)
    as [o w'] eqn:Es.
  exists o, w'. split; [reflexivity |]. split; [reflexivity |].
  split; [| exact (search_idempotent _ _ _ _ _ _ _ _ _ Es)].
  unfold search, load_index in Es. cbn [two_notes with_memory_dir index_pkl empty_world] in Es.
  rewrite (index_all_reference new_indexer two_notes _ _ E) in Es.
  unfold load_index, _save_index in Es. cbn [index_pkl reference_platform sklearn_installed] in Es.
  injection Es as _ <-. discriminate.
Defined.

(** The results of any successful search, from the index it ran on. *)
Lemma search_spec (P : Platform) (w w' : World) (query : string) (limit : Z)
    (la si en : option string) (rs : list Result) :
  PlatformOk P ->
  (forall idx, index_pkl w = Some idx -> IndexOk idx) ->
  search P w query limit la si en = (Returned rs, w') ->
  exists idx,
    index_pkl w' = Some idx /\ IndexOk idx
    /\ rs = firstn (Z.to_nat (Z.max 1 limit))
              (map result_of
                 (matching la si en
                    (ranked (idx_entries idx) (idx_model idx query)
                            (rev (argsort P (idx_model idx query)))))).
Proof.
  intros HP Hok Hs.
  assert (Hloaded : forall w0 idx,
             sklearn_installed P = true -> index_pkl w0 = Some idx ->
             IndexOk idx ->
             search P w0 query limit la si en = (Returned rs, w') ->
             exists idx,
               index_pkl w' = Some idx /\ IndexOk idx
               /\ rs = firstn (Z.to_nat (Z.max 1 limit))
                         (map result_of
                            (matching la si en
                               (ranked (idx_entries idx) (idx_model idx query)
                                  (rev (argsort P (idx_model idx query))))))).
  { intros w0 idx Hsk Hidx Hidxok Hs0.
    rewrite (search_persisted P w0 idx) in Hs0 by assumption.
    injection Hs0 as <- <-. exists idx. now repeat split. }
  destruct (index_pkl w) as [idx |] eqn:Hidx.
  - destruct (sklearn_installed P) eqn:Hsk.
    + apply (Hloaded w idx); auto.
    + exfalso. unfold search, load_index, index_all, search_loaded in Hs.
      rewrite ?Hidx, ?Hsk in Hs. simpl in Hs. rewrite ?Hidx, ?Hsk in Hs.
      discriminate.
  - destruct (index_all_cases P new_indexer w)
      as [[Hsk H] | [(Hsk & He & H) | [(Hsk & Hne & Hf & H) | (m & Hsk & Hne & Hf & H)]]].
    + exfalso. unfold search, load_index in Hs. rewrite Hidx, H in Hs.
      rewrite ?Hidx in Hs. unfold search_loaded in Hs. rewrite ?Hsk in Hs.
      simpl in Hs. discriminate.
    + exfalso. unfold search, load_index in Hs. rewrite Hidx, H in Hs.
      rewrite ?Hidx in Hs. unfold search_loaded in Hs. rewrite ?Hsk in Hs.
      simpl in Hs. discriminate.
    + exfalso. unfold search, load_index in Hs. rewrite Hidx, H in Hs.
      discriminate.
    + rewrite (search_builds_lazily P w m) in Hs by assumption.
      eapply (Hloaded (_save_index w (collect_all w) m));
        [exact Hsk | reflexivity | | exact Hs].
      intros q. simpl. rewrite (fit_rows P HP _ _ q Hf). apply length_map.
Qed.

Lemma filter_split_perm {A : Type} (f : A -> bool) (l : list A) :
  Permutation (filter f l ++ filter (fun x => negb (f x)) l) l.
Proof.
  induction l as [| x l IH]; simpl; [constructor |].
  destruct (f x); simpl.
  - now constructor.
  - eapply perm_trans; [apply Permutation_sym, Permutation_middle |].
    now constructor.
Qed.

(** X11: on a sound platform the results are ranked: relevance never
    increases along the list, and the results wrap entries of the index
    taken without repetition, so there are never more results than
    entries. *)
Theorem search_results_ranked (P : Platform) (w w' : World) (query : string)
    (limit : Z) (la si en : option string) (rs : list Result) :
  PlatformOk P ->
  (forall idx, index_pkl w = Some idx -> IndexOk idx) ->
  search P w query limit la si en = (Returned rs, w') ->
  StronglySorted (fun a b => (b <= a)%Q) (map r_relevance rs)
  /\ exists idx picked others,
       index_pkl w' = Some idx
       /\ rs = map result_of picked
       /\ Permutation (map fst picked ++ others) (idx_entries idx)
       /\ (List.length rs <= List.length (idx_entries idx))%nat.
Proof.
  intros HP Hok Hs.
  destruct (search_spec P w w' query limit la si en rs HP Hok Hs)
    as (idx & Hidx & Hidxok & ->).
  set (R := ranked (idx_entries idx) (idx_model idx query)
                   (rev (argsort P (idx_model idx query)))).
  set (n := Z.to_nat (Z.max 1 limit)).
  split.
  - apply StronglySorted_map, StronglySorted_firstn, StronglySorted_map.
    unfold matching. apply StronglySorted_filter.
    apply (ranked_descending P _ _ HP).
  - assert (Hperm : Permutation
                      (map fst (firstn n (matching la si en R))
                       ++ (map fst (skipn n (matching la si en R))
                           ++ map fst (filter (fun p => negb (negb (skips la si en (fst p)))) R)))
                      (idx_entries idx)).
    { rewrite app_assoc, <- map_app, firstn_skipn, <- map_app.
      eapply perm_trans; [apply Permutation_map, filter_split_perm |].
      apply (ranked_complete P _ _ HP), Hidxok. }
    exists idx, (firstn n (matching la si en R)). eexists.
    split; [exact Hidx |]. split; [now rewrite firstn_map |].
    split; [exact Hperm |].
    apply Permutation_length in Hperm.
    rewrite <- Hperm, length_app. rewrite firstn_map, !length_map. lia.
Qed.

Lemma search_results_ranked_witness :
  exists rs w',
    search reference_platform two_notes "deployment" 10 None None None
    = (Returned rs, w')
    /\ StronglySorted (fun a b => (b <= a)%Q) (map r_relevance rs)
    /\ (List.length rs <= 2)%nat.
Proof.
  destruct two_notes_collected as (e1 & e2 & E & _).
  destruct (search reference_platform two_notes "deployment" 10 None None None)
    as [o w'] eqn:Es.
  assert (Ho : fst (search reference_platform two_notes "deployment" 10
                           None None None) = o) by now rewrite Es.
  vm_compute in Ho. subst o.
  destruct (search_results_ranked reference_platform two_notes w' "deployment"
              10 None None None _ reference_platform_ok
              ltac:(intros idx H; discriminate H) Es)
    as (Hsorted & idx & picked & others & Hidx & _ & _ & Hlen).
  do 2 eexists. split; [reflexivity |]. split; [exact Hsorted |].
  simpl. lia.
Defined.

(** ** Identifiers, lookups and what is printed *)

Lemma hex_digit_is_hex (n : Z) :
  0 <= n < 16 -> is_hex (MD5.hex_digit n) = true.
Proof.
  intros Hn.
  assert (H : exists k : nat, (k < 16)%nat /\ n = Z.of_nat k)
    by (exists (Z.to_nat n); lia).
  destruct H as (k & Hk & ->).
  do 16 (destruct k as [| k]; [reflexivity |]). lia.
Qed.

Lemma hex_all_hex (bs : list Z) :
  Forall (fun b => 0 <= b < 256) bs -> all_chars is_hex (MD5.hex bs) = true.
Proof.
  induction 1 as [| b bs Hb _ IH]; simpl; [reflexivity |].
  rewrite IH, !hex_digit_is_hex; [reflexivity | |].
  - apply Z.mod_pos_bound. lia.
  - split; [apply Z.div_pos; lia | apply Z.div_lt_upper_bound; lia].
Qed.

Lemma le_bytes_range (n : nat) (x : Z) :
  Forall (fun b => 0 <= b < 256) (MD5.le_bytes n x).
Proof.
  unfold MD5.le_bytes. rewrite Forall_forall. intros b Hb.
  apply in_map_iff in Hb. destruct Hb as [i [<- _]].
  apply Z.mod_pos_bound. lia.
Qed.

Lemma all_chars_take (p : ascii -> bool) (n : nat) (s : string) :
  all_chars p s = true -> all_chars p (PyStr.take n s) = true.
Proof.
  revert s. induction n as [| n IH]; intros [| c s]; simpl; try reflexivity.
  intros H. apply andb_true_iff in H. destruct H as [-> H]. now apply IH.
Qed.

(** X12: an identifier derived by [generate_id] is made of exactly twelve
    lower-case hexadecimal digits. *)
Theorem generate_id_hex (text src : string) :
  String.length (generate_id text src) = 12%nat
  /\ all_chars is_hex (generate_id text src) = true.
Proof.
  split; [apply generate_id_length |].
  unfold generate_id. apply all_chars_take. unfold MD5.hexdigest, MD5.digest.
  apply hex_all_hex. repeat (apply Forall_app; split); apply le_bytes_range.
Qed.

Lemma id_requested_ext (req1 req2 : list string) (e : MemoryEntry) :
  (forall x, In x req1 <-> In x req2) ->
  id_requested req1 e = id_requested req2 e.
Proof.
  intros H. destruct (id_requested req1 e) eqn:E1, (id_requested req2 e) eqn:E2;
    try reflexivity.
  - apply id_requested_iff, H, id_requested_iff in E1. congruence.
  - apply id_requested_iff, H, id_requested_iff in E2. congruence.
Qed.

(** X13: the id lookup depends only on the set of ids asked for: their
    order, their repetition and the blanks around them do not change the
    answer. *)
Theorem main_ids_set (P : Platform) (w : World) (ids1 ids2 : string) :
  (forall x, In x (requested_ids ids1) <-> In x (requested_ids ids2)) ->
  main_ids P w ids1 = main_ids P w ids2.
Proof.
  intros H. unfold main_ids.
  destruct (load_index P new_indexer w) as [[|] self]; simpl; [| reflexivity].
  rewrite !lookup_loop_spec. simpl. f_equal. f_equal.
  apply filter_ext. intros e. now apply id_requested_ext.
Qed.

Lemma main_ids_set_witness :
  main_ids reference_platform (built two_notes) "30cd21d41c05,3d03cf99386e"
  = main_ids reference_platform (built two_notes)
             " 3d03cf99386e , 30cd21d41c05,3d03cf99386e".
Proof.
  apply main_ids_set. intros x. vm_compute. tauto.
Defined.

Lemma split_on_nonempty (sep : ascii) (s : string) : PyStr.split_on sep s <> [].
Proof.
  destruct s as [| c s]; simpl; [discriminate |].
  destruct (Ascii.eqb c sep); [discriminate |].
  destruct (PyStr.split_on sep s); discriminate.
Qed.

Lemma split_on_app (sep : ascii) (x s : string) :
  PyStr.count_char sep x = 0%nat ->
  PyStr.split_on sep (x ++ s)
  = match PyStr.split_on sep s with
    | h :: t => (x ++ h)%string :: t
    | [] => [x]
    end.
Proof.
  pose proof (split_on_nonempty sep s) as Hne.
  induction x as [| c x IH]; simpl; intros Hc.
  - destruct (PyStr.split_on sep s); [congruence | reflexivity].
  - destruct (Ascii.eqb c sep) eqn:E; [simpl in Hc; lia |].
    rewrite IH by (simpl in Hc; lia).
    destruct (PyStr.split_on sep s); [congruence | reflexivity].
Qed.

(** Splitting undoes joining when no element holds the separator. *)
Lemma split_join (sep : ascii) (l : list string) :
  l <> [] ->
  Forall (fun x => PyStr.count_char sep x = 0%nat) l ->
  PyStr.split_on sep (String.concat (String sep "") l) = l.
Proof.
  induction l as [| x l IH]; intros Hne Hall; [congruence |].
  inversion Hall as [| ? ? Hx Hl]; subst.
  destruct l as [| y l].
  - simpl. rewrite <- (string_app_nil_r x) at 1.
    rewrite split_on_app by assumption. simpl. now rewrite string_app_nil_r.
  - change (String.concat (String sep "") (x :: y :: l))
      with ((x ++ String sep (String.concat (String sep "") (y :: l)))%string).
    rewrite split_on_app by assumption.
    cbn [PyStr.split_on]. rewrite Ascii.eqb_refl.
    rewrite IH by (assumption || discriminate).
    now rewrite string_app_nil_r.
Qed.

Lemma hex_no_comma (s : string) :
  all_chars is_hex s = true -> PyStr.count_char "," s = 0%nat.
Proof.
  induction s as [| c s IH]; simpl; [reflexivity |].
  intros H. apply andb_true_iff in H. destruct H as [Hc H].
  rewrite IH by assumption.
  destruct (Ascii.eqb_spec c ","); [subst; discriminate | reflexivity].
Qed.

Lemma hex_not_space (c : ascii) : is_hex c = true -> PyStr.isspace c = false.
Proof.
  unfold is_hex, PyStr.isspace, PyStr.isdigit.
  generalize (PyStr.code c). intros n H.
  apply orb_true_iff in H. rewrite !andb_true_iff, !Z.leb_le in H.
  destruct (Z.leb_spec 9 n), (Z.leb_spec n 13), (Z.leb_spec 28 n),
    (Z.leb_spec n 32), (Z.eqb_spec n 133), (Z.eqb_spec n 160);
    simpl; try reflexivity; exfalso; lia.
Qed.

Lemma all_chars_app (p : ascii -> bool) (a b : string) :
  all_chars p (a ++ b) = all_chars p a && all_chars p b.
Proof.
  induction a as [| c a IH]; simpl; [reflexivity |].
  now rewrite IH, andb_assoc.
Qed.

Lemma all_chars_reverse (p : ascii -> bool) (s : string) :
  all_chars p (PyStr.reverse s) = all_chars p s.
Proof.
  induction s as [| c s IH]; [reflexivity |].
  rewrite reverse_cons, all_chars_app, IH. simpl.
  rewrite andb_true_r. apply andb_comm.
Qed.

Lemma hex_head_clear (s : string) :
  all_chars is_hex s = true -> head_clear PyStr.isspace s.
Proof.
  destruct s as [| c s]; simpl; [trivial |].
  intros H. apply andb_true_iff in H. now apply hex_not_space.
Qed.

Lemma hex_strip (s : string) : all_chars is_hex s = true -> PyStr.strip s = s.
Proof.
  intros H. apply strip_clear. split.
  - now apply hex_head_clear.
  - apply hex_head_clear. now rewrite all_chars_reverse.
Qed.

(** X14: the [--ids] argument that [print_index] suggests leads back to
    the results it was printed for: with identifiers made of hexadecimal
    digits, splitting the suggestion gives the ids of the first three
    results, and the lookup returns the index entries carrying them. *)
Theorem ids_hint_round_trip (P : Platform) (w : World) (idx : Index)
    (rs : list Result) :
  sklearn_installed P = true -> index_pkl w = Some idx ->
  rs <> [] ->
  Forall (fun r => all_chars is_hex (r_id r) = true) rs ->
  requested_ids (ids_hint rs) = firstn 3 (map r_id rs)
  /\ main_ids P w (ids_hint rs)
     = Returned
         (map (fun e => make_result e 1%Q)
              (filter (fun e => existsb (String.eqb (id e)) (firstn 3 (map r_id rs)))
                      (idx_entries idx))).
Proof.
  intros Hsk Hidx Hne Hhex.
  assert (Hreq : requested_ids (ids_hint rs) = firstn 3 (map r_id rs)).
  { unfold requested_ids, ids_hint.
    assert (Hall : Forall (fun x => all_chars is_hex x = true)
                          (firstn 3 (map r_id rs))).
    { rewrite Forall_forall in *. intros x Hx.
      assert (Hin : In x (map r_id rs)).
      { rewrite <- (firstn_skipn 3 (map r_id rs)). apply in_or_app. now left. }
      apply in_map_iff in Hin. destruct Hin as [r [<- Hr]]. now apply Hhex. }
    rewrite split_join.
    - induction Hall as [| x l Hx _ IH]; simpl; [reflexivity |].
      now rewrite IH, hex_strip.
    - destruct rs as [| r rs']; [congruence | discriminate].
    - eapply Forall_impl; [| exact Hall]. intros x. apply hex_no_comma. }
  split; [exact Hreq |].
  unfold main_ids, load_index. rewrite Hidx, Hsk. simpl.
  rewrite lookup_loop_spec, Hreq. reflexivity.
Qed.

Lemma ids_hint_round_trip_witness :
  exists rs,
    fst (search reference_platform (built two_notes) "the" 10 None None None)
    = Returned rs
    /\ ids_hint rs = "3d03cf99386e,30cd21d41c05"
    /\ option_map (map r_id)
         (match main_ids reference_platform (built two_notes) (ids_hint rs) with
          | Returned l => Some l
          | Raised _ => None
          end)
       = Some ["30cd21d41c05"; "3d03cf99386e"].
Proof.
  destruct two_notes_collected as (e1 & e2 & E & H1 & H2).
  pose proof (built_index _ _ _ E) as Hidx.
  eexists. split; [vm_compute; reflexivity |].
  split; [reflexivity |].
  match goal with
  | |- context [main_ids _ _ (ids_hint ?l)] =>
      destruct (ids_hint_round_trip reference_platform (built two_notes) _ l
                  eq_refl Hidx ltac:(discriminate)
                  ltac:(repeat constructor)) as [_ ->]
  end.
  cbn [idx_entries option_map]. vm_compute in E. injection E as <- <-.
  vm_compute. reflexivity.
Defined.

Lemma hex_not_m (c : ascii) : is_hex c = true -> c <> "m"%char.
Proof. intros H ->. discriminate H. Qed.






Lemma take_take_le (n m : nat) (s : string) :
  (n <= m)%nat -> PyStr.take n (PyStr.take m s) = PyStr.take n s.
Proof.
  revert m s. induction n as [| n IH]; intros m s Hle; [reflexivity |].
  destruct m as [| m]; [lia |]. destruct s as [| c s]; [reflexivity |].
  simpl. rewrite IH by lia. reflexivity.
Qed.

Lemma take_app_long (n : nat) (a b : string) :
  (n <= String.length a)%nat -> PyStr.take n (a ++ b) = PyStr.take n a.
Proof.
  revert a. induction n as [| n IH]; intros a Hle; [reflexivity |].
  destruct a as [| c a]; simpl in *; [lia |]. rewrite IH by lia. reflexivity.
Qed.

Lemma newlines_to_spaces_spec (s : string) :
  String.length (newlines_to_spaces s) = String.length s
  /\ PyStr.count_char "010" (newlines_to_spaces s) = 0%nat.
Proof.
  induction s as [| c s [IH1 IH2]]; simpl; [split; reflexivity |].
  rewrite IH1, IH2. split; [reflexivity |].
  destruct (Ascii.eqb c "010") eqn:E; [reflexivity |]. now rewrite E.
Qed.

(** X16: what the two printers show of a result: [print_results] shows
    exactly the first 100 characters of the content (the ellipsis added
    beyond 150 characters is cut off again and never seen), and
    [print_index] shows at most 80 characters, none of them a newline. *)
Theorem previews_shown (r : Result) :
  result_preview r = PyStr.take 100 (r_content r)
  /\ (String.length (index_preview r) <= 80)%nat
  /\ PyStr.count_char "010" (index_preview r) = 0%nat.
Proof.
  unfold result_preview, index_preview. repeat split.
  - destruct (150 <? String.length (r_content r))%nat eqn:E; [| reflexivity].
    apply Nat.ltb_lt in E.
    rewrite take_app_long by (rewrite take_length; lia).
    apply take_take_le. lia.
  - rewrite (proj1 (newlines_to_spaces_spec _)), take_length. lia.
  - apply newlines_to_spaces_spec.
Qed.

(** ** The timeline *)

Lemma string_leb_trans (a b c : string) :
  String.leb a b = true -> String.leb b c = true -> String.leb a c = true.
Proof.
  unfold String.leb. revert b c.
  induction a as [| x a IH]; intros [| y b] [| z c]; simpl; try easy.
  unfold Ascii.compare.
  destruct (N.compare_spec (N_of_ascii x) (N_of_ascii y)) as [Hxy | Hxy | Hxy],
           (N.compare_spec (N_of_ascii y) (N_of_ascii z)) as [Hyz | Hyz | Hyz],
           (N.compare_spec (N_of_ascii x) (N_of_ascii z)) as [Hxz | Hxz | Hxz];
    try easy; try lia.
  apply IH.
Qed.

(** What a returned timeline is made of. *)
Lemma timeline_shape (P : Platform) (w w' : World)
    (memory_id date query : option string) (hours_before hours_after : Z)
    (ctx : option anchor_context) (tw : TimeWindow) (evs : list Event) :
  get_timeline P w memory_id date query hours_before hours_after
  = (Returned (TimelineDict ctx tw evs), w') ->
  exists anchor lo hi daily,
    resolve_anchor P w memory_id date query
    = (Returned (Resolved ctx (Some anchor)), w')
    /\ lo = anchor - hours_before * Calendar.us_per_hour
    /\ hi = anchor + hours_after * Calendar.us_per_hour
    /\ tw = {| tw_start := Calendar.strftime_ymd lo;
               tw_end := Calendar.strftime_ymd hi;
               tw_hours_before := hours_before;
               tw_hours_after := hours_after |}
    /\ match memory_dir w' with
       | None => Returned []
       | Some files =>
           daily_events (daily_dir w') (Calendar.strftime_ymd lo)
                        (Calendar.strftime_ymd hi) (sorted_md files)
       end = Returned daily
    /\ evs = sort_events (daily ++ kg_events lo hi w').
Proof.
  unfold get_timeline.
  destruct (resolve_anchor P w memory_id date query) as [[[| c [t |]] | e] w0];
    try discriminate.
  unfold timeline_around, Calendar.add_hours.
  destruct ((0 <=? t + - hours_before * Calendar.us_per_hour) && _);
    [| discriminate].
  destruct ((0 <=? t + hours_after * Calendar.us_per_hour) && _);
    [| discriminate].
  replace (t + - hours_before * Calendar.us_per_hour)
    with (t - hours_before * Calendar.us_per_hour) by lia.
  destruct (match memory_dir w0 with Some _ => _ | None => _ end)
    as [daily |] eqn:Ed; [| discriminate].
  intros [= <- <- <- <-].
  exists t, (t - hours_before * Calendar.us_per_hour),
    (t + hours_after * Calendar.us_per_hour), daily.
  repeat split. exact Ed.
Qed.

Lemma daily_events_from (dir start_date end_date : string) (files : list MdFile)
    (evs : list Event) (ev : Event) :
  daily_events dir start_date end_date files = Returned evs -> In ev evs ->
  exists f text,
    In f files /\ is_day_file start_date end_date f = true
    /\ md_read f = ReadOk text
    /\ In ev (headline_events (stem (md_name f)) (path_join dir (md_name f)) text).
Proof.
  revert evs. induction files as [| f rest IH]; intros evs; simpl.
  - intros [= <-] [].
  - destruct (is_day_file start_date end_date f) eqn:Eday.
    + destruct (md_is_dir f); [discriminate |].
      destruct (md_read f) as [text |] eqn:Er; [| discriminate].
      destruct (daily_events dir start_date end_date rest) as [evs' |];
        [| discriminate].
      intros [= <-] Hin. apply in_app_or in Hin. destruct Hin as [Hin | Hin].
      * exists f, text. repeat split; auto.
      * destruct (IH evs' eq_refl Hin) as (g & t & Hg & H).
        exists g, t. split; [now right | exact H].
    + intros Hd Hin. destruct (IH evs Hd Hin) as (g & t & Hg & H).
      exists g, t. split; [now right | exact H].
Qed.

(** X17: the events of a timeline come out ordered by their sort key (the
    date as text, the decimal text of an integer date): each event's key
    is lexically at most the key of every later one. *)
Theorem timeline_events_sorted (P : Platform) (w w' : World)
    (memory_id date query : option string) (hours_before hours_after : Z)
    (ctx : option anchor_context) (tw : TimeWindow) (evs : list Event) :
  get_timeline P w memory_id date query hours_before hours_after
  = (Returned (TimelineDict ctx tw evs), w') ->
  StronglySorted key_le evs.
Proof.
  intros H. apply timeline_shape in H.
  destruct H as (anchor & lo & hi & daily & _ & _ & _ & _ & _ & ->).
  unfold sort_events, key_le. apply isort_sorted.
  - intros a b. apply String.leb_total.
  - intros a b c. apply string_leb_trans.
Qed.

Lemma timeline_events_sorted_witness :
  exists evs,
    get_timeline reference_platform two_notes None (Some "2026-01-31") None 24 24
    = (Returned
         (TimelineDict None
            {| tw_start := "2026-01-30"; tw_end := "2026-02-01";
               tw_hours_before := 24; tw_hours_after := 24 |} evs), two_notes)
    /\ List.length evs = 2%nat
    /\ StronglySorted key_le evs.
Proof.
  eexists. split; [vm_compute; reflexivity |]. split; [reflexivity |].
  eapply (timeline_events_sorted reference_platform two_notes two_notes
            None (Some "2026-01-31") None 24 24).
  vm_compute. reflexivity.
Defined.



Lemma fact_events_length (f : ItemsFile) (items : list TItem) :
  (List.length (fact_events f items) <= List.length items)%nat.
Proof.
  induction items as [| [ts fact |] rest IH]; simpl; lia.
Qed.

Lemma items_file_events_length (lo hi : Z) (f : ItemsFile) :
  (List.length (items_file_events lo hi f) <= 5)%nat.
Proof.
  unfold items_file_events.
  destruct ((lo <=? if_mtime f) && (if_mtime f <=? hi)); simpl; [| lia].
  destruct (if_json f) as [items | |]; simpl; try lia.
  etransitivity; [apply fact_events_length | apply last5_length].
Qed.

Lemma kg_events_all_kg (lo hi : Z) (w : World) :
  filter (fun ev => String.eqb (ev_type ev) "knowledge_graph") (kg_events lo hi w)
  = kg_events lo hi w.
Proof.
  apply filter_all. intros ev Hev. apply kg_events_type in Hev.
  now rewrite Hev.
Qed.

Lemma filter_perm {A : Type} (f : A -> bool) (l l' : list A) :
  Permutation l l' -> Permutation (filter f l) (filter f l').
Proof.
  induction 1 as [| x l l' _ IH | x y l | l l' l'' _ IH1 _ IH2]; simpl.
  - constructor.
  - destruct (f x); [now constructor | assumption].
  - destruct (f x), (f y); try apply Permutation_refl. apply perm_swap.
  - eapply perm_trans; eassumption.
Qed.

(** X19: each [items.json] gives at most five events: the knowledge-graph
    events of a timeline number at most five times the [items.json] files
    of the tree, and none when the tree does not exist. *)
Theorem timeline_fact_events_bounded (P : Platform) (w w' : World)
    (memory_id date query : option string) (hours_before hours_after : Z)
    (ctx : option anchor_context) (tw : TimeWindow) (evs : list Event) :
  get_timeline P w memory_id date query hours_before hours_after
  = (Returned (TimelineDict ctx tw evs), w') ->
  (count_type "knowledge_graph" evs
   <= 5 * match items_files w with
          | Some files => List.length files
          | None => 0
          end)%nat.
Proof.
  intros H. apply timeline_shape in H.
  destruct H as (anchor & lo & hi & daily & Hres & _ & _ & _ & Hd & ->).
  pose proof (resolve_anchor_files P w memory_id date query) as Hfiles.
  rewrite Hres in Hfiles. simpl in Hfiles. destruct Hfiles as (_ & _ & Hitems).
  unfold count_type.
  assert (Hperm : Permutation (sort_events (daily ++ kg_events lo hi w'))
                              (daily ++ kg_events lo hi w'))
    by apply isort_perm.
  assert (Hdaily : filter (fun ev => String.eqb (ev_type ev) "knowledge_graph") daily = []).
  { apply filter_none. intros ev Hev.
    destruct (memory_dir w') as [files |]; [| injection Hd as <-; contradiction].
    destruct (daily_events_from _ _ _ _ _ _ Hd Hev) as (f & text & _ & _ & _ & Hin).
    unfold headline_events in Hin. apply in_map_iff in Hin.
    now destruct Hin as [line [<- _]]. }
  erewrite Permutation_length;
    [| apply filter_perm; exact Hperm].
  rewrite filter_app, Hdaily, kg_events_all_kg. simpl.
  unfold kg_events. rewrite Hitems.
  destruct (items_files w) as [files |]; [| simpl; lia].
  clear. induction files as [| f files IH]; [simpl; lia |].
  cbn [flat_map List.length]. rewrite length_app.
  pose proof (items_file_events_length lo hi f). lia.
Qed.

Lemma timeline_fact_events_bounded_witness :
  exists tw evs,
    get_timeline reference_platform bare_world None (Some "2026-03-01") None 24 24
    = (Returned (TimelineDict None tw evs), bare_world)
    /\ (count_type "knowledge_graph" evs <= 5)%nat.
Proof.
  do 2 eexists. split; [vm_compute; reflexivity |].
  eapply (timeline_fact_events_bounded reference_platform bare_world bare_world
            None (Some "2026-03-01") None 24 24).
  vm_compute. reflexivity.
Defined.

(** ** File names and dates *)

Lemma last_dot_md (a : string) (pos : nat) (found : option nat) :
  last_dot (a ++ ".md") pos found = Some (pos + String.length a)%nat.
Proof.
  revert pos found. induction a as [| c a IH]; intros pos found; simpl.
  - f_equal. lia.
  - rewrite IH. f_equal. lia.
Qed.

Lemma take_app_exact (a b : string) : PyStr.take (String.length a) (a ++ b) = a.
Proof. induction a as [| c a IH]; simpl; [now destruct b | now rewrite IH]. Qed.

(** The stem of [<name>.md] is [<name>]. *)
Lemma stem_md (d : string) : d <> "" -> stem (d ++ ".md") = d.
Proof.
  intros Hne. unfold stem. rewrite last_dot_md, string_length_app. simpl.
  assert (Hlen : (0 < String.length d)%nat) by (destruct d; simpl; [congruence | lia]).
  replace ((0 <? String.length d)%nat) with true by (symmetry; now apply Nat.ltb_lt).
  replace ((String.length d <? String.length d + 3 - 1)%nat) with true
    by (symmetry; apply Nat.ltb_lt; lia).
  simpl. apply take_app_exact.
Qed.

Lemma digit_not_hyphen (c : ascii) :
  PyStr.isdigit c = true -> Ascii.eqb c "-" = false.
Proof.
  intros H. destruct (Ascii.eqb_spec c "-") as [-> | _]; [discriminate H | reflexivity].
Qed.

(** X20: for a note named [YYYY-MM-DD.md] the indexer and the timeline
    agree on its day: the timestamp of its entries is the ten characters
    before [.md], the stem the timeline uses is the same text, it has
    exactly two hyphens, and the note is in a window exactly when that text
    lies lexically between the start and the end day. *)
Theorem daily_note_day_agrees (f : MdFile) (d start_date end_date : string) :
  md_name f = (d ++ ".md")%string ->
  date_shaped d = true -> String.length d = 10%nat ->
  _extract_date_from_filename (md_name f) = Some d
  /\ stem (md_name f) = d
  /\ PyStr.count_char "-" d = 2%nat
  /\ is_day_file start_date end_date f
     = String.leb start_date d && String.leb d end_date.
Proof.
  intros Hname Hshape Hlen.
  assert (Hstem : stem (md_name f) = d).
  { rewrite Hname. apply stem_md. intros ->. discriminate Hlen. }
  assert (Hcount : PyStr.count_char "-" d = 2%nat).
  { do 10 (destruct d as [| ? d]; [discriminate Hlen |]).
    destruct d; [| discriminate Hlen].
    unfold date_shaped in Hshape.
    do 9 (apply andb_true_iff in Hshape; destruct Hshape as [Hshape ?]).
    cbn [PyStr.count_char].
    repeat match goal with
           | H : PyStr.isdigit ?c = true |- _ =>
               rewrite (digit_not_hyphen c H); clear H
           | H : Ascii.eqb ?c "-" = true |- _ => rewrite H; clear H
           end.
    reflexivity. }
  repeat split; try assumption.
  - rewrite Hname. unfold _extract_date_from_filename.
    do 10 (destruct d as [| ? d]; [discriminate Hlen |]).
    destruct d; [| discriminate Hlen].
    change (date_shaped _) with (date_shaped
      (String a (String a0 (String a1 (String a2 (String a3 (String a4
        (String a5 (String a6 (String a7 (String a8 ""))))))))))).
    rewrite Hshape. reflexivity.
  - unfold is_day_file, in_day_range. rewrite Hstem, Hcount. reflexivity.
Qed.

Lemma daily_note_day_agrees_witness :
  _extract_date_from_filename (md_name note_0130) = Some "2026-01-30"
  /\ stem (md_name note_0130) = "2026-01-30"
  /\ is_day_file "2026-01-30" "2026-02-01" note_0130 = true.
Proof.
  destruct (daily_note_day_agrees note_0130 "2026-01-30" "2026-01-30" "2026-02-01"
              eq_refl eq_refl eq_refl) as (H1 & H2 & _ & H4).
  split; [exact H1 |]. split; [exact H2 |]. rewrite H4. reflexivity.
Defined.

(** ** The calendar behind the time window *)

Lemma holds_from_state (f : Z -> bool) (count : N) (first : Z) (b : bool) :
  let st := N.iter count (fun st => (fst st + 1, snd st && f (fst st))) (first, b) in
  fst st = first + Z.of_N count
  /\ (snd st = true ->
      b = true /\ forall k, first <= k < first + Z.of_N count -> f k = true).
Proof.
  induction count as [| n IH] using N.peano_ind; cbv zeta.
  - simpl. split; [lia |]. intros ->. split; [reflexivity | intros k Hk; lia].
  - rewrite N.iter_succ.
    destruct (N.iter n _ (first, b)) as [k ok] eqn:E.
    cbv zeta in IH. simpl in IH |- *. destruct IH as [Hk Hok]. subst k.
    split; [lia |]. intros H. apply andb_true_iff in H. destruct H as [H1 H2].
    destruct (Hok H1) as [Hb Hall]. split; [exact Hb |].
    intros k Hk. destruct (Z.eq_dec k (first + Z.of_N n)) as [-> | Hne];
      [exact H2 | apply Hall; lia].
Qed.

Lemma holds_from_spec (f : Z -> bool) (first : Z) (count : N) :
  holds_from f first count = true ->
  forall k, first <= k < first + Z.of_N count -> f k = true.
Proof.
  intros H. apply (holds_from_state f count first true). exact H.
Qed.

Lemma cycle_days_ok : holds_from cycle_day_ok 1 146097 = true.
Proof. vm_compute. reflexivity. Qed.

Lemma is_leap_period (y q : Z) : Calendar.is_leap (y + 400 * q) = Calendar.is_leap y.
Proof.
  unfold Calendar.is_leap.
  replace ((y + 400 * q) mod 4) with (y mod 4)
    by (replace (y + 400 * q) with (y + (100 * q) * 4) by lia;
        now rewrite Z_mod_plus_full).
  replace ((y + 400 * q) mod 100) with (y mod 100)
    by (replace (y + 400 * q) with (y + (4 * q) * 100) by lia;
        now rewrite Z_mod_plus_full).
  replace ((y + 400 * q) mod 400) with (y mod 400)
    by (replace (y + 400 * q) with (y + q * 400) by lia;
        now rewrite Z_mod_plus_full).
  reflexivity.
Qed.

Lemma days_before_year_period (y q : Z) :
  Calendar.days_before_year (y + 400 * q)
  = Calendar.days_before_year y + 146097 * q.
Proof.
  unfold Calendar.days_before_year. cbv zeta.
  replace ((y + 400 * q - 1) / 4) with ((y - 1) / 4 + 100 * q)
    by (replace (y + 400 * q - 1) with ((y - 1) + (100 * q) * 4) by lia;
        now rewrite Z.div_add).
  replace ((y + 400 * q - 1) / 100) with ((y - 1) / 100 + 4 * q)
    by (replace (y + 400 * q - 1) with ((y - 1) + (4 * q) * 100) by lia;
        now rewrite Z.div_add).
  replace ((y + 400 * q - 1) / 400) with ((y - 1) / 400 + q)
    by (replace (y + 400 * q - 1) with ((y - 1) + q * 400) by lia;
        now rewrite Z.div_add).
  lia.
Qed.

Lemma ymd2ord_period (y m d q : Z) :
  Calendar.ymd2ord (y + 400 * q) m d = Calendar.ymd2ord y m d + 146097 * q.
Proof.
  unfold Calendar.ymd2ord, Calendar.days_before_month.
  rewrite days_before_year_period, is_leap_period. lia.
Qed.

Lemma days_in_month_period (y m q : Z) :
  Calendar.days_in_month (y + 400 * q) m = Calendar.days_in_month y m.
Proof. unfold Calendar.days_in_month. now rewrite is_leap_period. Qed.

Lemma ord2ymd_period (r q : Z) :
  1 <= r <= 146097 ->
  Calendar.ord2ymd (r + 146097 * q)
  = let '(y, m, d) := Calendar.ord2ymd r in (y + 400 * q, m, d).
Proof.
  intros Hr. unfold Calendar.ord2ymd. cbv zeta.
  replace ((r + 146097 * q - 1) / 146097) with q
    by (replace (r + 146097 * q - 1) with ((r - 1) + q * 146097) by lia;
        rewrite Z.div_add, Z.div_small; lia).
  replace ((r + 146097 * q - 1) mod 146097) with (r - 1)
    by (replace (r + 146097 * q - 1) with ((r - 1) + q * 146097) by lia;
        rewrite Z_mod_plus_full, Z.mod_small; lia).
  rewrite (Z.div_small (r - 1) 146097), (Z.mod_small (r - 1) 146097) by lia.
  set (n := r - 1).
  destruct ((_ =? 4) || (_ =? 4)); [f_equal; f_equal; lia |].
  match goal with |- context [if ?c then _ else _] => destruct c end;
    f_equal; f_equal; lia.
Qed.

(** Every ordinal of the calendar has a valid date, whose ordinal it is. *)
Lemma ord2ymd_spec (n : Z) :
  1 <= n <= Calendar.max_ordinal ->
  let '(y, m, d) := Calendar.ord2ymd n in
  valid_date y m d = true /\ Calendar.ymd2ord y m d = n.
Proof.
  unfold Calendar.max_ordinal. intros Hn.
  pose proof (Z.div_mod (n - 1) 146097 ltac:(lia)) as Hdm.
  pose proof (Z.mod_pos_bound (n - 1) 146097 ltac:(lia)) as Hr.
  set (q := (n - 1) / 146097) in *. set (r := (n - 1) mod 146097) in *.
  assert (Hq : 0 <= q <= 24) by lia.
  replace n with ((r + 1) + 146097 * q) by lia.
  rewrite ord2ymd_period by lia.
  pose proof (holds_from_spec cycle_day_ok 1 146097 cycle_days_ok (r + 1)
                ltac:(lia)) as Hok.
  unfold cycle_day_ok in Hok.
  destruct (Calendar.ord2ymd (r + 1)) as [[y m] d].
  repeat (apply andb_true_iff in Hok; destruct Hok as [Hok ?]).
  rewrite ymd2ord_period. unfold valid_date. rewrite days_in_month_period.
  split; [| lia].
  repeat (apply andb_true_iff; split); try assumption; lia.
Qed.

Lemma days_before_year_step (y : Z) :
  Calendar.days_before_year (y + 1)
  = Calendar.days_before_year y + 365 + (if Calendar.is_leap y then 1 else 0).
Proof.
  unfold Calendar.days_before_year, Calendar.is_leap. cbv zeta.
  replace (y + 1 - 1) with y by lia.
  assert (H4 : y / 4 = (y - 1) / 4 + (if y mod 4 =? 0 then 1 else 0))
    by (destruct (Z.eqb_spec (y mod 4) 0); Z.div_mod_to_equations; lia).
  assert (H100 : y / 100 = (y - 1) / 100 + (if y mod 100 =? 0 then 1 else 0))
    by (destruct (Z.eqb_spec (y mod 100) 0); Z.div_mod_to_equations; lia).
  assert (H400 : y / 400 = (y - 1) / 400 + (if y mod 400 =? 0 then 1 else 0))
    by (destruct (Z.eqb_spec (y mod 400) 0); Z.div_mod_to_equations; lia).
  assert (Ha : y mod 100 = 0 -> y mod 4 = 0)
    by (intros ?; Z.div_mod_to_equations; lia).
  assert (Hb : y mod 400 = 0 -> y mod 100 = 0)
    by (intros ?; Z.div_mod_to_equations; lia).
  rewrite H4, H100, H400.
  destruct (Z.eqb_spec (y mod 4) 0), (Z.eqb_spec (y mod 100) 0),
           (Z.eqb_spec (y mod 400) 0); simpl; lia.
Qed.

Lemma days_before_year_mono (y1 y2 : Z) :
  y1 <= y2 ->
  Calendar.days_before_year y1 + 365 * (y2 - y1) <= Calendar.days_before_year y2.
Proof.
  intros H. replace y2 with (y1 + Z.of_nat (Z.to_nat (y2 - y1))) by lia.
  generalize (Z.to_nat (y2 - y1)) as k. clear. intros k.
  induction k as [| k IH]; [change (Z.of_nat 0) with 0; rewrite Z.add_0_r; lia |].
  replace (y1 + Z.of_nat (S k)) with ((y1 + Z.of_nat k) + 1) by lia.
  rewrite days_before_year_step.
  destruct (Calendar.is_leap (y1 + Z.of_nat k)); lia.
Qed.

Lemma month_ind (P : Z -> Prop) :
  P 1 -> P 2 -> P 3 -> P 4 -> P 5 -> P 6 -> P 7 -> P 8 -> P 9 -> P 10 ->
  P 11 -> P 12 -> forall m, 1 <= m <= 12 -> P m.
Proof.
  intros H1 H2 H3 H4 H5 H6 H7 H8 H9 H10 H11 H12 m Hm.
  assert (Hk : exists k : nat, m = Z.of_nat k) by (exists (Z.to_nat m); lia).
  destruct Hk as [k ->].
  do 13 (destruct k as [| k]; [assumption || lia |]). lia.
Qed.

(** Evaluates the month tables at the months that are numerals. *)
Ltac month_tables :=
  unfold Calendar.days_in_month, Calendar.days_before_month;
  repeat match goal with
         | |- context [Calendar.days_before_month_common ?k] =>
             let v := eval vm_compute in (Calendar.days_before_month_common k) in
             change (Calendar.days_before_month_common k) with v
         end;
  cbn [Z.eqb Z.ltb Z.compare Pos.compare Pos.compare_cont Pos.eqb orb andb].

(** The days of a year before a valid date and that date's day. *)
Lemma day_of_year_bounds (y m d : Z) :
  1 <= m <= 12 -> 1 <= d <= Calendar.days_in_month y m ->
  1 <= Calendar.days_before_month y m + d
    <= 365 + (if Calendar.is_leap y then 1 else 0).
Proof.
  intros Hm. revert d. pattern m. apply month_ind; [.. | exact Hm];
    cbv beta; intros d; month_tables; destruct (Calendar.is_leap y); lia.
Qed.

(** Within a year a later month starts after every day of an earlier one. *)
Lemma month_start_mono (y m1 m2 d : Z) :
  1 <= m1 -> m1 < m2 -> m2 <= 12 -> 1 <= d <= Calendar.days_in_month y m1 ->
  Calendar.days_before_month y m1 + d <= Calendar.days_before_month y m2.
Proof.
  intros H1 H12 H2. revert d.
  assert (Hm1 : 1 <= m1 <= 12) by lia. assert (Hm2 : 1 <= m2 <= 12) by lia.
  revert H12. pattern m1. apply month_ind; [.. | exact Hm1]; cbv beta;
    pattern m2; apply month_ind; try exact Hm2; cbv beta; intros Hlt d;
    try lia; month_tables; destruct (Calendar.is_leap y); lia.
Qed.

(** Earlier dates have smaller ordinals. *)
Lemma ymd2ord_lt (y1 m1 d1 y2 m2 d2 : Z) :
  valid_date y1 m1 d1 = true -> valid_date y2 m2 d2 = true ->
  date_lt (y1, m1, d1) (y2, m2, d2) ->
  Calendar.ymd2ord y1 m1 d1 < Calendar.ymd2ord y2 m2 d2.
Proof.
  unfold valid_date, date_lt, Calendar.ymd2ord. intros V1 V2 Hlt.
  repeat (apply andb_true_iff in V1; destruct V1 as [V1 ?]).
  repeat (apply andb_true_iff in V2; destruct V2 as [V2 ?]).
  pose proof (day_of_year_bounds y1 m1 d1 ltac:(lia) ltac:(lia)) as B1.
  pose proof (day_of_year_bounds y2 m2 d2 ltac:(lia) ltac:(lia)) as B2.
  destruct Hlt as [Hy | [<- [Hm | [<- Hd]]]].
  - pose proof (days_before_year_mono (y1 + 1) y2 ltac:(lia)) as Hmono.
    rewrite days_before_year_step in Hmono. lia.
  - pose proof (month_start_mono y1 m1 m2 d1 ltac:(lia) Hm ltac:(lia) ltac:(lia)).
    lia.
  - lia.
Qed.

Lemma date_trichotomy (a b : Z * Z * Z) : date_lt a b \/ a = b \/ date_lt b a.
Proof.
  destruct a as [[y1 m1] d1], b as [[y2 m2] d2]. unfold date_lt.
  destruct (Z.lt_trichotomy y1 y2) as [? | [-> | ?]]; [lia | | lia].
  destruct (Z.lt_trichotomy m1 m2) as [? | [-> | ?]]; [lia | | lia].
  destruct (Z.lt_trichotomy d1 d2) as [? | [-> | ?]]; [lia | | lia].
  right. left. reflexivity.
Qed.

(** The dates of the ordinals follow the ordinals. *)
Lemma ord2ymd_mono (n1 n2 : Z) :
  1 <= n1 -> n1 <= n2 -> n2 <= Calendar.max_ordinal ->
  Calendar.ord2ymd n1 = Calendar.ord2ymd n2
  \/ date_lt (Calendar.ord2ymd n1) (Calendar.ord2ymd n2).
Proof.
  intros H1 H12 H2.
  pose proof (ord2ymd_spec n1 ltac:(lia)) as S1.
  pose proof (ord2ymd_spec n2 ltac:(lia)) as S2.
  destruct (date_trichotomy (Calendar.ord2ymd n1) (Calendar.ord2ymd n2))
    as [Hlt | [Heq | Hgt]]; [now right | now left | exfalso].
  destruct (Calendar.ord2ymd n1) as [[y1 m1] d1],
           (Calendar.ord2ymd n2) as [[y2 m2] d2].
  destruct S1 as [V1 E1], S2 as [V2 E2].
  pose proof (ymd2ord_lt _ _ _ _ _ _ V2 V1 Hgt). lia.
Qed.

(** The date of the ordinal of a valid date is that date. *)
Lemma ord2ymd_ymd2ord (y m d : Z) :
  valid_date y m d = true ->
  Calendar.ord2ymd (Calendar.ymd2ord y m d) = (y, m, d).
Proof.
  intros V. pose proof V as V0. unfold valid_date in V0.
  repeat (apply andb_true_iff in V0; destruct V0 as [V0 ?]).
  pose proof (day_of_year_bounds y m d ltac:(lia) ltac:(lia)) as B.
  assert (Hrange : 1 <= Calendar.ymd2ord y m d <= Calendar.max_ordinal).
  { unfold Calendar.ymd2ord, Calendar.max_ordinal.
    pose proof (days_before_year_mono 1 y ltac:(lia)) as Hlo.
    change (Calendar.days_before_year 1) with 0 in Hlo.
    split; [lia |].
    destruct (Z.eq_dec y 9999) as [-> | Hne].
    - change (Calendar.is_leap 9999) with false in B.
      change (Calendar.days_before_year 9999) with 3651694. lia.
    - pose proof (days_before_year_mono (y + 1) 9999 ltac:(lia)) as Hhi.
      rewrite days_before_year_step in Hhi.
      change (Calendar.days_before_year 9999) with 3651694 in Hhi.
      destruct (Calendar.is_leap y); lia. }
  pose proof (ord2ymd_spec _ Hrange) as S.
  destruct (Calendar.ord2ymd (Calendar.ymd2ord y m d)) as [[y' m'] d'] eqn:E.
  destruct S as [V' E'].
  destruct (date_trichotomy (y', m', d') (y, m, d)) as [Hlt | [Heq | Hgt]];
    [exfalso | exact Heq | exfalso].
  - pose proof (ymd2ord_lt _ _ _ _ _ _ V' V Hlt). lia.
  - pose proof (ymd2ord_lt _ _ _ _ _ _ V V' Hgt). lia.
Qed.

(** *** The order of the formatted dates *)

Lemma string_compare_app (a r1 r2 : string) :
  String.compare (a ++ r1) (a ++ r2) = String.compare r1 r2.
Proof.
  induction a as [| c a IH]; simpl; [reflexivity |].
  unfold Ascii.compare. now rewrite N.compare_refl.
Qed.

Lemma string_compare_app_lt (a1 a2 r1 r2 : string) :
  String.compare a1 a2 = Lt -> String.length a1 = String.length a2 ->
  String.compare (a1 ++ r1) (a2 ++ r2) = Lt.
Proof.
  revert a2. induction a1 as [| c1 a1 IH]; intros [| c2 a2]; simpl;
    try discriminate.
  intros H Hlen. destruct (Ascii.compare c1 c2); try assumption.
  apply IH; [assumption | lia].
Qed.

Lemma string_compare_lt_trans (a b c : string) :
  String.compare a b = Lt -> String.compare b c = Lt -> String.compare a c = Lt.
Proof.
  revert b c.
  induction a as [| x a IH]; intros [| y b] [| z c]; simpl; try easy.
  unfold Ascii.compare.
  destruct (N.compare_spec (N_of_ascii x) (N_of_ascii y)) as [Hxy | Hxy | Hxy],
           (N.compare_spec (N_of_ascii y) (N_of_ascii z)) as [Hyz | Hyz | Hyz],
           (N.compare_spec (N_of_ascii x) (N_of_ascii z)) as [Hxz | Hxz | Hxz];
    try easy; try lia.
  apply IH.
Qed.

Lemma string_leb_refl (a : string) : String.leb a a = true.
Proof.
  unfold String.leb. induction a as [| c a IH]; simpl; [reflexivity |].
  unfold Ascii.compare. now rewrite N.compare_refl.
Qed.

Lemma pad_step_spec (width : nat) (first : Z) (count : N) :
  holds_from (pad_step_ok width) first count = true ->
  forall a b, first <= a -> a < b -> b <= first + Z.of_N count ->
  String.compare (Calendar.pad_num width a) (Calendar.pad_num width b) = Lt
  /\ String.length (Calendar.pad_num width a) = width
  /\ String.length (Calendar.pad_num width b) = width.
Proof.
  intros Hall a b Ha Hab Hb.
  assert (Hstep : forall k, first <= k < first + Z.of_N count ->
            String.compare (Calendar.pad_num width k)
                           (Calendar.pad_num width (k + 1)) = Lt
            /\ String.length (Calendar.pad_num width k) = width
            /\ String.length (Calendar.pad_num width (k + 1)) = width).
  { intros k Hk. pose proof (holds_from_spec _ _ _ Hall k Hk) as H.
    unfold pad_step_ok in H.
    apply andb_true_iff in H. destruct H as [H H3].
    apply andb_true_iff in H. destruct H as [H1 H2].
    apply Nat.eqb_eq in H2, H3.
    destruct (String.compare _ _); try discriminate. auto. }
  replace b with (a + 1 + Z.of_nat (Z.to_nat (b - a - 1))) in * by lia.
  revert Hb. generalize (Z.to_nat (b - a - 1)) as k. clear Hab.
  induction k as [| k IH]; intros Hb.
  - change (Z.of_nat 0) with 0. rewrite Z.add_0_r. apply Hstep. lia.
  - destruct (IH ltac:(lia)) as (I1 & I2 & _).
    destruct (Hstep (a + 1 + Z.of_nat k) ltac:(lia)) as (S1 & _ & S3).
    replace (a + 1 + Z.of_nat (S k)) with (a + 1 + Z.of_nat k + 1) by lia.
    split; [| split; assumption].
    eapply string_compare_lt_trans; eassumption.
Qed.

Lemma year_steps : holds_from (pad_step_ok 4) 0 9999 = true.
Proof. vm_compute. reflexivity. Qed.

Lemma pair_steps : holds_from (pad_step_ok 2) 0 99 = true.
Proof. vm_compute. reflexivity. Qed.

(** The text of a date. *)
Lemma strftime_ymd_eq (t : Z) :
  Calendar.strftime_ymd t
  = let '(y, m, d) := Calendar.ord2ymd (t / Calendar.us_per_day + 1) in
    (Calendar.pad_num 4 y ++ "-" ++ Calendar.pad_num 2 m ++ "-"
     ++ Calendar.pad_num 2 d)%string.
Proof. reflexivity. Qed.

(** Earlier valid dates have lexically smaller texts. *)
Lemma date_text_lt (y1 m1 d1 y2 m2 d2 : Z) :
  valid_date y1 m1 d1 = true -> valid_date y2 m2 d2 = true ->
  date_lt (y1, m1, d1) (y2, m2, d2) ->
  String.compare
    (Calendar.pad_num 4 y1 ++ "-" ++ Calendar.pad_num 2 m1 ++ "-"
     ++ Calendar.pad_num 2 d1)%string
    (Calendar.pad_num 4 y2 ++ "-" ++ Calendar.pad_num 2 m2 ++ "-"
     ++ Calendar.pad_num 2 d2)%string = Lt.
Proof.
  unfold valid_date, date_lt. intros V1 V2 Hlt.
  repeat (apply andb_true_iff in V1; destruct V1 as [V1 ?]).
  repeat (apply andb_true_iff in V2; destruct V2 as [V2 ?]).
  assert (Hd1 : d1 <= 31)
    by (unfold Calendar.days_in_month in *;
        repeat match goal with H : (_ <=? (if ?c then _ else _)) = true |- _ =>
                 destruct c end; lia).
  assert (Hd2 : d2 <= 31)
    by (unfold Calendar.days_in_month in *;
        repeat match goal with H : (_ <=? (if ?c then _ else _)) = true |- _ =>
                 destruct c end; lia).
  destruct Hlt as [Hy | [<- [Hm | [<- Hd]]]].
  - destruct (pad_step_spec 4 0 9999 year_steps y1 y2) as (C & L1 & L2); try lia.
    apply string_compare_app_lt; congruence.
  - rewrite string_compare_app. simpl.
    destruct (pad_step_spec 2 0 99 pair_steps m1 m2) as (C & L1 & L2); try lia.
    apply string_compare_app_lt; congruence.
  - rewrite string_compare_app. simpl. rewrite string_compare_app. simpl.
    destruct (pad_step_spec 2 0 99 pair_steps d1 d2) as (C & L1 & L2); try lia.
    exact C.
Qed.

(** Formatting follows time: a later instant never has a smaller date. *)
Lemma strftime_ymd_mono (t1 t2 : Z) :
  0 <= t1 -> t1 <= t2 -> t2 < Calendar.max_ordinal * Calendar.us_per_day ->
  String.leb (Calendar.strftime_ymd t1) (Calendar.strftime_ymd t2) = true.
Proof.
  intros H1 H12 H2. rewrite !strftime_ymd_eq.
  assert (Hu : 0 < Calendar.us_per_day) by (unfold Calendar.us_per_day; lia).
  assert (Hn1 : 0 <= t1 / Calendar.us_per_day) by (apply Z.div_pos; lia).
  assert (Hn12 : t1 / Calendar.us_per_day <= t2 / Calendar.us_per_day)
    by (apply Z.div_le_mono; lia).
  assert (Hn2 : t2 / Calendar.us_per_day < Calendar.max_ordinal)
    by (apply Z.div_lt_upper_bound; lia).
  pose proof (ord2ymd_spec (t1 / Calendar.us_per_day + 1) ltac:(lia)) as S1.
  pose proof (ord2ymd_spec (t2 / Calendar.us_per_day + 1) ltac:(lia)) as S2.
  destruct (ord2ymd_mono (t1 / Calendar.us_per_day + 1)
              (t2 / Calendar.us_per_day + 1) ltac:(lia) ltac:(lia) ltac:(lia))
    as [Heq | Hlt].
  - rewrite Heq. destruct (Calendar.ord2ymd _) as [[y m] d].
    apply string_leb_refl.
  - destruct (Calendar.ord2ymd (t1 / Calendar.us_per_day + 1)) as [[y1 m1] d1],
             (Calendar.ord2ymd (t2 / Calendar.us_per_day + 1)) as [[y2 m2] d2].
    destruct S1 as [V1 _], S2 as [V2 _].
    unfold String.leb. now rewrite (date_text_lt _ _ _ _ _ _ V1 V2 Hlt).
Qed.

(** *** Reading a date and writing it again *)

Lemma isdigit_digits (c : ascii) : PyStr.isdigit c = true -> In c digits.
Proof.
  destruct c as [[] [] [] [] [] [] [] []]; intros H;
    try (vm_compute in H; discriminate H); vm_compute; tauto.
Qed.

Lemma year_texts :
  forallb (fun a => forallb (fun b => forallb (fun c =>
    forallb (fun d => year_text_ok a b c d) digits) digits) digits) digits = true.
Proof. vm_compute. reflexivity. Qed.

Lemma pair_texts :
  forallb (fun a => forallb (fun b => pair_text_ok a b) digits) digits = true.
Proof. vm_compute. reflexivity. Qed.

Lemma year_text (a b c d : ascii) :
  PyStr.isdigit a = true -> PyStr.isdigit b = true ->
  PyStr.isdigit c = true -> PyStr.isdigit d = true ->
  Calendar.pad_num 4
    (1000 * Calendar.digit a + 100 * Calendar.digit b
     + 10 * Calendar.digit c + Calendar.digit d)
  = String a (String b (String c (String d ""))).
Proof.
  intros Ha Hb Hc Hd. apply isdigit_digits in Ha, Hb, Hc, Hd.
  pose proof year_texts as H.
  rewrite forallb_forall in H. specialize (H a Ha).
  rewrite forallb_forall in H. specialize (H b Hb).
  rewrite forallb_forall in H. specialize (H c Hc).
  rewrite forallb_forall in H. specialize (H d Hd).
  now apply String.eqb_eq in H.
Qed.

Lemma pair_text (a b : ascii) :
  PyStr.isdigit a = true -> PyStr.isdigit b = true ->
  Calendar.pad_num 2 (10 * Calendar.digit a + Calendar.digit b)
  = String a (String b "").
Proof.
  intros Ha Hb. apply isdigit_digits in Ha, Hb.
  pose proof pair_texts as H.
  rewrite forallb_forall in H. specialize (H a Ha).
  rewrite forallb_forall in H. specialize (H b Hb).
  now apply String.eqb_eq in H.
Qed.

Lemma midnight_valid (y m d t : Z) :
  Calendar.midnight y m d = Some t ->
  valid_date y m d = true /\ t = (Calendar.ymd2ord y m d - 1) * Calendar.us_per_day.
Proof.
  unfold Calendar.midnight. fold (valid_date y m d).
  destruct (valid_date y m d); [| discriminate].
  intros H. injection H as <-. now split.
Qed.

(** The date of the midnight of a valid date is that date. *)
Lemma midnight_date (y m d t : Z) :
  Calendar.midnight y m d = Some t ->
  Calendar.ord2ymd (t / Calendar.us_per_day + 1) = (y, m, d)
  /\ 0 <= t < Calendar.max_ordinal * Calendar.us_per_day
  /\ t mod Calendar.us_per_day = 0.
Proof.
  intros H. apply midnight_valid in H. destruct H as [V ->].
  assert (Hu : Calendar.us_per_day <> 0) by (unfold Calendar.us_per_day; lia).
  rewrite Z.div_mul, Z.mod_mul by exact Hu.
  replace (Calendar.ymd2ord y m d - 1 + 1) with (Calendar.ymd2ord y m d) by lia.
  pose proof (ord2ymd_ymd2ord y m d V) as E. split; [exact E |].
  split; [| reflexivity].
  assert (Hrange : 1 <= Calendar.ymd2ord y m d <= Calendar.max_ordinal).
  { unfold valid_date in V.
    repeat (apply andb_true_iff in V; destruct V as [V ?]).
    pose proof (day_of_year_bounds y m d ltac:(lia) ltac:(lia)) as B.
    unfold Calendar.ymd2ord, Calendar.max_ordinal.
    pose proof (days_before_year_mono 1 y ltac:(lia)) as Hlo.
    change (Calendar.days_before_year 1) with 0 in Hlo.
    split; [lia |].
    destruct (Z.eq_dec y 9999) as [-> | Hne].
    - change (Calendar.is_leap 9999) with false in B.
      change (Calendar.days_before_year 9999) with 3651694. lia.
    - pose proof (days_before_year_mono (y + 1) 9999 ltac:(lia)) as Hhi.
      rewrite days_before_year_step in Hhi.
      change (Calendar.days_before_year 9999) with 3651694 in Hhi.
      destruct (Calendar.is_leap y); lia. }
  unfold Calendar.us_per_day in *. lia.
Qed.

(** A plain date that parses is written back as it was read. *)
Lemma strftime_iso_date (s : string) (t : Z) :
  Calendar.iso_date s = Some t ->
  Calendar.strftime_ymd t = s
  /\ 0 <= t < Calendar.max_ordinal * Calendar.us_per_day
  /\ t mod Calendar.us_per_day = 0.
Proof.
  intros H. unfold Calendar.iso_date in H.
  do 10 (destruct s as [| ? s]; [discriminate H |]).
  destruct s; [| discriminate H].
  destruct (PyStr.isdigit a7) eqn:Hd1; [| discriminate H].
  assert (Hsp : Ascii.eqb a7 " " = false)
    by (destruct (Ascii.eqb_spec a7 " ") as [-> | _];
        [discriminate Hd1 | reflexivity]).
  unfold Calendar.strptime_ymd in H. cbv zeta in H. rewrite Hsp in H.
  match type of H with (if ?c then _ else _) = _ => destruct c eqn:Hc end;
    [| discriminate H].
  match type of H with (if ?c then _ else _) = _ => destruct c end;
    [| discriminate H].
  do 9 (apply andb_true_iff in Hc; destruct Hc as [Hc ?]).
  apply midnight_date in H. destruct H as (E & Hr & Hm).
  split; [| now split].
  rewrite strftime_ymd_eq, E, year_text, !pair_text by assumption.
  repeat match goal with
         | H : Ascii.eqb _ _ = true |- _ => apply Ascii.eqb_eq in H; subst
         end.
  reflexivity.
Qed.

(** *** The window of a timeline *)

(** The instants behind the window of a returned timeline. *)
Lemma timeline_window_range (P : Platform) (w w' : World)
    (memory_id date query : option string) (hours_before hours_after : Z)
    (ctx : option anchor_context) (tw : TimeWindow) (evs : list Event) :
  get_timeline P w memory_id date query hours_before hours_after
  = (Returned (TimelineDict ctx tw evs), w') ->
  exists t,
    resolve_anchor P w memory_id date query
    = (Returned (Resolved ctx (Some t)), w')
    /\ tw_start tw = Calendar.strftime_ymd (t - hours_before * Calendar.us_per_hour)
    /\ tw_end tw = Calendar.strftime_ymd (t + hours_after * Calendar.us_per_hour)
    /\ 0 <= t - hours_before * Calendar.us_per_hour
         < Calendar.max_ordinal * Calendar.us_per_day
    /\ 0 <= t + hours_after * Calendar.us_per_hour
         < Calendar.max_ordinal * Calendar.us_per_day.
Proof.
  unfold get_timeline.
  destruct (resolve_anchor P w memory_id date query) as [[[| c [t |]] | e] w0];
    try discriminate.
  unfold timeline_around, Calendar.add_hours.
  replace (t + - hours_before * Calendar.us_per_hour)
    with (t - hours_before * Calendar.us_per_hour) by lia.
  destruct ((0 <=? t - hours_before * Calendar.us_per_hour) && _) eqn:Elo;
    [| discriminate].
  destruct ((0 <=? t + hours_after * Calendar.us_per_hour) && _) eqn:Ehi;
    [| discriminate].
  destruct (match memory_dir w0 with Some _ => _ | None => _ end)
    as [daily |]; [| discriminate].
  intros [= <- <- <- <-]. exists t. cbn [tw_start tw_end].
  apply andb_true_iff in Elo, Ehi. destruct Elo as [L1 L2], Ehi as [H1 H2].
  repeat split; lia.
Qed.

(** X21: the window of a timeline is never reversed and holds the day of
    its anchor.  For a window whose start is written with a four-digit
    year (the C library decides whether [%Y] pads the years below 1000):
    when the hours before and after add up to at least zero the start day
    is lexically at most the end day, and when neither is negative the day
    of the anchor instant lies between them. *)
Theorem timeline_window_holds_anchor (P : Platform) (w w' : World)
    (memory_id date query : option string) (hours_before hours_after : Z)
    (ctx : option anchor_context) (tw : TimeWindow) (evs : list Event) :
  get_timeline P w memory_id date query hours_before hours_after
  = (Returned (TimelineDict ctx tw evs), w') ->
  String.length (tw_start tw) = 10%nat ->
  (0 <= hours_before + hours_after ->
   String.leb (tw_start tw) (tw_end tw) = true)
  /\ (0 <= hours_before -> 0 <= hours_after ->
      exists t,
        resolve_anchor P w memory_id date query
        = (Returned (Resolved ctx (Some t)), w')
        /\ in_day_range (tw_start tw) (tw_end tw) (Calendar.strftime_ymd t) = true).
Proof.
  intros H _. apply timeline_window_range in H.
  destruct H as (t & Hres & -> & -> & Hlo & Hhi).
  assert (Hh : 0 < Calendar.us_per_hour) by (unfold Calendar.us_per_hour; lia).
  split.
  - intros Hsum. apply strftime_ymd_mono; nia.
  - intros Hb Ha. exists t. split; [exact Hres |].
    unfold in_day_range. apply andb_true_iff.
    split; apply strftime_ymd_mono; nia.
Qed.

Lemma timeline_window_holds_anchor_witness :
  exists tw evs,
    get_timeline reference_platform bare_world None (Some "2026-03-01") None 24 24
    = (Returned (TimelineDict None tw evs), bare_world)
    /\ String.leb (tw_start tw) (tw_end tw) = true.
Proof.
  do 2 eexists. split; [vm_compute; reflexivity |].
  eapply (timeline_window_holds_anchor reference_platform bare_world bare_world
            None (Some "2026-03-01") None 24 24).
  - vm_compute. reflexivity.
  - reflexivity.
  - lia.
Defined.

Lemma parse_day_strptime (s : string) (t : Z) :
  parse_day s = Some t -> Calendar.strptime_ymd s = Some t.
Proof.
  unfold parse_day. destruct (PyStr.truthy s && _); [trivial | discriminate].
Qed.

(** The anchor instant is the one read from the anchor's day text. *)
Lemma anchor_instant_of_text (P : Platform) (w w' : World)
    (memory_id date query : option string) (ctx : option anchor_context)
    (t t' : Z) (day : string) :
  PlatformOk P ->
  resolve_anchor P w memory_id date query
  = (Returned (Resolved ctx (Some t)), w') ->
  anchor_day_text memory_id date ctx = Some day ->
  Calendar.iso_date day = Some t' -> t = t'.
Proof.
  intros HP Hres Htext Hiso. pose proof (iso_date_strptime _ _ Hiso) as Hstrp.
  unfold resolve_anchor in Hres. unfold anchor_day_text in Htext.
  destruct (PyStr.truthy_opt memory_id).
  - unfold anchor_by_id in Hres.
    destruct (load_index P new_indexer w) as [loaded self].
    destruct (negb loaded); [discriminate |].
    destruct (find _ (ix_entries self)) as [entry |]; [| discriminate].
    injection Hres as <- Ht _. simpl in Htext.
    rewrite Htext in Ht. apply parse_day_strptime in Ht. congruence.
  - destruct (PyStr.truthy_opt date) eqn:Ed.
    + subst date. unfold anchor_by_date in Hres. simpl in Hres.
      rewrite (fromisoformat_date P HP _ _ Hiso) in Hres. congruence.
    + destruct (PyStr.truthy_opt query); [| discriminate].
      unfold anchor_by_query in Hres.
      destruct (search P w (PyStr.or_empty query) 1 None None None)
        as [[[| r rs] | e] w0]; try discriminate.
      injection Hres as <- Ht _. injection Htext as <-.
      apply parse_day_strptime in Ht. congruence.
Qed.

Lemma same_day (t x : Z) :
  t mod Calendar.us_per_day = 0 -> 0 <= x < Calendar.us_per_day ->
  Calendar.strftime_ymd (t + x) = Calendar.strftime_ymd t.
Proof.
  intros Hm Hx. rewrite !strftime_ymd_eq.
  replace ((t + x) / Calendar.us_per_day) with (t / Calendar.us_per_day);
    [reflexivity |].
  unfold Calendar.us_per_day in *. Z.div_mod_to_equations. lia.
Qed.

(** The window around an anchor read from a plain date. *)
Lemma window_of_day_text (P : Platform) (w w' : World)
    (memory_id date query : option string) (hours_before hours_after : Z)
    (ctx : option anchor_context) (tw : TimeWindow) (evs : list Event)
    (day : string) :
  PlatformOk P -> 0 <= hours_before -> 0 <= hours_after ->
  get_timeline P w memory_id date query hours_before hours_after
  = (Returned (TimelineDict ctx tw evs), w') ->
  anchor_day_text memory_id date ctx = Some day ->
  Calendar.iso_date day <> None ->
  in_day_range (tw_start tw) (tw_end tw) day = true
  /\ (hours_before = 0 -> tw_start tw = day)
  /\ (hours_after < 24 -> tw_end tw = day).
Proof.
  intros HP Hb Ha Hrun Htext Hiso.
  destruct (Calendar.iso_date day) as [t' |] eqn:Eiso; [clear Hiso | congruence].
  apply timeline_window_range in Hrun.
  destruct Hrun as (t & Hres & -> & -> & Hlo & Hhi).
  pose proof (anchor_instant_of_text P w w' memory_id date query ctx t t' day
                HP Hres Htext Eiso) as <-.
  destruct (strftime_iso_date _ _ Eiso) as (Hday & Hrange & Hmid).
  assert (Hh : 0 < Calendar.us_per_hour) by (unfold Calendar.us_per_hour; lia).
  split; [| split].
  - unfold in_day_range. apply andb_true_iff.
    rewrite <- Hday. split; apply strftime_ymd_mono; nia.
  - intros ->. rewrite Z.mul_0_l, Z.sub_0_r. exact Hday.
  - intros Hlt. rewrite same_day; [exact Hday | exact Hmid |].
    unfold Calendar.us_per_hour, Calendar.us_per_day. lia.
Qed.

(** X22: a timeline anchored on a plain date covers that date.  When the
    anchor's day text (the [date] argument, or the timestamp of the anchor
    entry or result) is a date [YYYY-MM-DD], no hour count is negative and
    the start of the window is written with a four-digit year, the text
    lies between the start and the end day; the window starts on that day
    when [hours_before] is 0 and ends on it when [hours_after] is below
    24. *)
Theorem timeline_covers_anchor_day (P : Platform) (w w' : World)
    (memory_id date query : option string) (hours_before hours_after : Z)
    (ctx : option anchor_context) (tw : TimeWindow) (evs : list Event)
    (day : string) :
  PlatformOk P -> 0 <= hours_before -> 0 <= hours_after ->
  get_timeline P w memory_id date query hours_before hours_after
  = (Returned (TimelineDict ctx tw evs), w') ->
  String.length (tw_start tw) = 10%nat ->
  anchor_day_text memory_id date ctx = Some day ->
  Calendar.iso_date day <> None ->
  in_day_range (tw_start tw) (tw_end tw) day = true
  /\ (hours_before = 0 -> tw_start tw = day)
  /\ (hours_after < 24 -> tw_end tw = day).
Proof.
  intros HP Hb Ha Hrun _. now apply (window_of_day_text P w w' _ _ query _ _ _ _ evs).
Qed.

Lemma timeline_covers_anchor_day_witness :
  exists tw evs,
    get_timeline reference_platform bare_world None (Some "2026-03-01") None 0 23
    = (Returned (TimelineDict None tw evs), bare_world)
    /\ tw_start tw = "2026-03-01" /\ tw_end tw = "2026-03-01".
Proof.
  do 2 eexists. split; [vm_compute; reflexivity |].
  destruct (timeline_covers_anchor_day reference_platform bare_world bare_world
              None (Some "2026-03-01") None 0 23 None _ _ "2026-03-01"
              reference_platform_ok ltac:(lia) ltac:(lia) eq_refl eq_refl eq_refl
              ltac:(discriminate)) as (_ & Hs & He).
  split; [apply Hs; reflexivity | apply He; lia].
Defined.

Lemma string_leb_antisym (a b : string) :
  String.leb a b = true -> String.leb b a = true -> a = b.
Proof.
  unfold String.leb. revert b.
  induction a as [| x a IH]; intros [| y b]; simpl; try easy.
  unfold Ascii.compare. rewrite (N.compare_antisym (N_of_ascii x) (N_of_ascii y)).
  destruct (N.compare_spec (N_of_ascii x) (N_of_ascii y)) as [Hxy | Hxy | Hxy];
    simpl; try easy.
  intros H1 H2. f_equal; [| now apply IH].
  rewrite <- (ascii_N_embedding x), <- (ascii_N_embedding y). now rewrite Hxy.
Qed.

(** X23: a timeline of one day shows the headlines of that day only.
    When the anchor's day text is a date [YYYY-MM-DD], [hours_before] is 0,
    [hours_after] is between 0 and 23 and the start of the window is
    written with a four-digit year, the window starts and ends on that day
    and every daily-note event is dated at it. *)
Theorem timeline_single_day (P : Platform) (w w' : World)
    (memory_id date query : option string) (hours_after : Z)
    (ctx : option anchor_context) (tw : TimeWindow) (evs : list Event)
    (day : string) :
  PlatformOk P -> 0 <= hours_after < 24 ->
  get_timeline P w memory_id date query 0 hours_after
  = (Returned (TimelineDict ctx tw evs), w') ->
  String.length (tw_start tw) = 10%nat ->
  anchor_day_text memory_id date ctx = Some day ->
  Calendar.iso_date day <> None ->
  tw_start tw = day /\ tw_end tw = day
  /\ Forall (fun ev => ev_type ev = "daily_note" -> ev_date ev = PStr day) evs.
Proof.
  intros HP Ha Hrun _ Htext Hiso.
  destruct (window_of_day_text P w w' memory_id date query 0 hours_after
              ctx tw evs day HP ltac:(lia) ltac:(lia) Hrun Htext Hiso)
    as (_ & Hs & He).
  specialize (Hs eq_refl). specialize (He ltac:(lia)).
  split; [exact Hs |]. split; [exact He |].
  apply timeline_shape in Hrun.
  destruct Hrun as (anchor & lo & hi & daily & _ & _ & _ & Htw & Hd & ->).
  rewrite Htw in Hs, He. simpl in Hs, He. rewrite Hs, He in Hd.
  rewrite Forall_forall. intros ev Hev Htype.
  unfold sort_events in Hev. apply isort_In in Hev.
  apply in_app_or in Hev. destruct Hev as [Hev | Hev].
  - destruct (memory_dir w') as [files |]; [| injection Hd as <-; contradiction].
    destruct (daily_events_from _ _ _ _ _ _ Hd Hev) as (f & text & _ & Hday & _ & Hin).
    unfold headline_events in Hin. apply in_map_iff in Hin.
    destruct Hin as [line [<- _]]. simpl.
    unfold is_day_file, in_day_range in Hday.
    apply andb_true_iff in Hday. destruct Hday as [_ Hday].
    apply andb_true_iff in Hday. destruct Hday as [H1 H2].
    f_equal. now apply string_leb_antisym.
  - apply kg_events_type in Hev. rewrite Hev in Htype. discriminate Htype.
Qed.

Lemma timeline_single_day_witness :
  exists tw evs,
    get_timeline reference_platform two_notes None (Some "2026-01-30") None 0 0
    = (Returned (TimelineDict None tw evs), two_notes)
    /\ List.length evs = 1%nat
    /\ Forall (fun ev => ev_type ev = "daily_note" -> ev_date ev = PStr "2026-01-30")
              evs.
Proof.
  do 2 eexists. split; [vm_compute; reflexivity |]. split; [reflexivity |].
  eapply (timeline_single_day reference_platform two_notes two_notes
            None (Some "2026-01-30") None 0 None _ _ "2026-01-30"
            reference_platform_ok ltac:(lia)).
  - vm_compute. reflexivity.
  - reflexivity.
  - reflexivity.
  - discriminate.
Defined.

(** ** The order of the directory listing *)

Lemma sorted_perm_eq {A : Type} (R : A -> A -> Prop) (l l' : list A) :
  (forall a b, In a l -> In b l -> R a b -> R b a -> a = b) ->
  StronglySorted R l -> StronglySorted R l' -> Permutation l l' -> l = l'.
Proof.
  revert l'. induction l as [| a l IH]; intros l' Hanti Hs Hs' Hp.
  - apply Permutation_nil in Hp. now subst.
  - destruct l' as [| b l']; [apply Permutation_sym, Permutation_nil in Hp; discriminate |].
    apply StronglySorted_inv in Hs, Hs'.
    destruct Hs as [Hs Ha], Hs' as [Hs' Hb].
    rewrite Forall_forall in Ha, Hb.
    assert (Hab : a = b).
    { assert (Hin_a : In a (b :: l')) by (eapply Permutation_in; [exact Hp | now left]).
      assert (Hin_b : In b (a :: l))
        by (eapply Permutation_in; [apply Permutation_sym, Hp | now left]).
      destruct Hin_a as [-> | Hin_a]; [reflexivity |].
      destruct Hin_b as [-> | Hin_b]; [reflexivity |].
      apply Hanti; [now left | now right | now apply Ha | now apply Hb]. }
    subst b. f_equal. apply IH; auto.
    + intros x y Hx Hy. apply Hanti; now right.
    + eapply Permutation_cons_inv. exact Hp.
Qed.

Lemma NoDup_map_injective {A B : Type} (f : A -> B) (l : list A) (a b : A) :
  NoDup (map f l) -> In a l -> In b l -> f a = f b -> a = b.
Proof.
  induction l as [| x l IH]; simpl; [contradiction |].
  intros Hnd Ha Hb Hf. apply NoDup_cons_iff in Hnd. destruct Hnd as [Hx Hnd].
  destruct Ha as [-> | Ha], Hb as [-> | Hb]; auto.
  - exfalso. apply Hx. rewrite Hf. now apply in_map.
  - exfalso. apply Hx. rewrite <- Hf. now apply in_map.
Qed.

(** Sorting by name forgets the order of a listing of distinct names. *)
Lemma sorted_md_perm (files files' : list MdFile) :
  Permutation files files' -> NoDup (map md_name files) ->
  sorted_md files = sorted_md files'.
Proof.
  intros Hp Hnd. unfold sorted_md.
  apply (sorted_perm_eq (fun a b => String.leb (md_name a) (md_name b) = true)).
  - intros a b Ha Hb Hab Hba. apply isort_In in Ha, Hb.
    apply (NoDup_map_injective md_name files); auto.
    now apply string_leb_antisym.
  - apply isort_sorted; [intros a b; apply String.leb_total |
                         intros a b c; apply string_leb_trans].
  - apply isort_sorted; [intros a b; apply String.leb_total |
                         intros a b c; apply string_leb_trans].
  - eapply perm_trans; [apply isort_perm |].
    eapply perm_trans; [exact Hp | apply Permutation_sym, isort_perm].
Qed.

(** X24: the order in which the directory lists the daily notes does not
    matter: two listings of the same files, with distinct names, give the
    same daily entries to the indexer and the same daily events (or the
    same exception) to the timeline. *)
Theorem daily_notes_listing_order (w : World) (files files' : list MdFile)
    (start_date end_date : string) :
  Permutation files files' -> NoDup (map md_name files) ->
  _index_daily_notes (with_memory_dir files w)
  = _index_daily_notes (with_memory_dir files' w)
  /\ daily_events (daily_dir w) start_date end_date (sorted_md files)
     = daily_events (daily_dir w) start_date end_date (sorted_md files').
Proof.
  intros Hp Hnd. pose proof (sorted_md_perm files files' Hp Hnd) as E.
  unfold _index_daily_notes. cbn [memory_dir with_memory_dir].
  rewrite E. split; reflexivity.
Qed.

Lemma daily_notes_listing_order_witness :
  _index_daily_notes (with_memory_dir [note_0201; note_0130] empty_world)
  = _index_daily_notes (with_memory_dir [note_0130; note_0201] empty_world).
Proof.
  apply (daily_notes_listing_order empty_world [note_0201; note_0130]
           [note_0130; note_0201] "" "").
  - apply perm_swap.
  - repeat constructor; simpl; intuition discriminate.
Defined.

(** ** The date headers of the printed timeline *)

Lemma leb_neq_lt (a b : string) :
  String.leb a b = true -> String.eqb a b = false -> String.compare a b = Lt.
Proof.
  unfold String.leb. intros Hle Hne.
  destruct (String.compare a b) eqn:E; [| reflexivity | discriminate].
  apply String.compare_eq_iff in E. subst b. now rewrite String.eqb_refl in Hne.
Qed.

Lemma date_headers_texts (evs : list Event) :
  forallb plain_event evs = true -> StronglySorted key_le evs ->
  forall cur,
    (cur = PNone \/ exists c, cur = PStr c
                   /\ Forall (fun ev => String.leb c (sort_key ev) = true) evs) ->
    exists days,
      date_headers cur evs = Some (map PStr days)
      /\ StronglySorted (fun a b => String.compare a b = Lt) days
      /\ (forall c, cur = PStr c -> Forall (fun d => String.compare c d = Lt) days)
      /\ (forall ev, In ev evs -> ev_date ev = cur \/ In (ev_date ev) (map PStr days)).
Proof.
  induction evs as [| ev rest IH]; intros Htext Hsorted cur Hcur.
  - exists []. split; [reflexivity |]. split; [constructor |].
    split; [intros; constructor | intros ? []].
  - simpl in Htext. apply andb_true_iff in Htext. destruct Htext as [Hev Htext].
    apply StronglySorted_inv in Hsorted. destruct Hsorted as [Hsorted Hhead].
    unfold plain_event in Hev.
    destruct (ev_date ev) as [| z | s] eqn:Edate; try discriminate.
    destruct (ev_event ev) as [| z | told] eqn:Etold; try discriminate.
    assert (Hkey : sort_key ev = s) by (unfold sort_key; now rewrite Edate).
    cbn [date_headers]. rewrite Edate, Etold. cbv zeta.
    destruct (pyval_eqb (PStr s) cur) eqn:Eeq; cbn [negb].
    + assert (cur = PStr s) as ->
        by (destruct cur; try discriminate; apply String.eqb_eq in Eeq; now subst).
      destruct (IH Htext Hsorted (PStr s)) as (days & Hd & Hs & Hc & Hin).
      { right. exists s. split; [reflexivity |].
        destruct Hcur as [Hcur | (c & [= <-] & Hall)]; [discriminate |].
        now apply Forall_inv_tail in Hall. }
      exists days. rewrite Hd. repeat split; auto.
      intros ev' [<- | Hev']; [now left | now apply Hin].
    + destruct (IH Htext Hsorted (PStr s)) as (days & Hd & Hs & Hc & Hin).
      { right. exists s. split; [reflexivity |].
        unfold key_le in Hhead. now rewrite Hkey in Hhead. }
      exists (s :: days). cbn [map]. rewrite Hd.
      split; [reflexivity |]. split; [| split].
      * constructor; [exact Hs | now apply Hc].
      * intros c ->. destruct Hcur as [Hcur | (c' & [= <-] & Hall)]; [discriminate |].
        apply Forall_inv in Hall. rewrite Hkey in Hall.
        assert (Hcs : String.compare c s = Lt).
        { apply leb_neq_lt; [exact Hall |].
          simpl in Eeq. now rewrite String.eqb_sym. }
        constructor; [exact Hcs |].
        specialize (Hc s eq_refl). rewrite Forall_forall in Hc |- *.
        intros d Hd'. eapply string_compare_lt_trans; [exact Hcs | now apply Hc].
      * intros ev' [<- | Hev'].
        -- right. rewrite Edate. now left.
        -- destruct (Hin ev' Hev') as [-> | Hin']; right; [now left | now right].
Qed.

(** X25: the printed timeline gives each day one header: when the date and
    the text of every event of a returned timeline are strings, the loop
    of [main] does not raise and the headers it prints are the distinct
    dates of the events in strictly ascending lexical order, so no date is
    announced twice and the date of every event has its header. *)
Theorem timeline_headers_once (P : Platform) (w w' : World)
    (memory_id date query : option string) (hours_before hours_after : Z)
    (ctx : option anchor_context) (tw : TimeWindow) (evs : list Event) :
  get_timeline P w memory_id date query hours_before hours_after
  = (Returned (TimelineDict ctx tw evs), w') ->
  forallb plain_event evs = true ->
  exists days,
    date_headers PNone evs = Some (map PStr days)
    /\ StronglySorted (fun a b => String.compare a b = Lt) days
    /\ NoDup days
    /\ (forall ev, In ev evs -> In (ev_date ev) (map PStr days)).
Proof.
  intros Hrun Htext.
  assert (Hsorted : StronglySorted key_le evs).
  { apply timeline_shape in Hrun.
    destruct Hrun as (anchor & lo & hi & daily & _ & _ & _ & _ & _ & ->).
    unfold sort_events, key_le. apply isort_sorted.
    - intros a b. apply String.leb_total.
    - intros a b c. apply string_leb_trans. }
  destruct (date_headers_texts evs Htext Hsorted PNone (or_introl eq_refl))
    as (days & Hd & Hs & _ & Hin).
  exists days. split; [exact Hd |]. split; [exact Hs |]. split.
  - clear - Hs. induction Hs as [| d days Hs IH Hall]; constructor; [| exact IH].
    intros Hmem. rewrite Forall_forall in Hall. specialize (Hall d Hmem).
    assert (String.compare d d = Eq) as E.
    { clear. induction d as [| c d IH]; simpl; [reflexivity |].
      unfold Ascii.compare. now rewrite N.compare_refl. }
    congruence.
  - intros ev Hev. destruct (Hin ev Hev) as [Hnone | Hmem]; [| exact Hmem].
    rewrite forallb_forall in Htext. specialize (Htext ev Hev).
    unfold plain_event in Htext. rewrite Hnone in Htext. discriminate Htext.
Qed.

Lemma timeline_headers_once_witness :
  exists evs,
    get_timeline reference_platform two_notes None (Some "2026-01-31") None 24 24
    = (Returned (TimelineDict None
                   {| tw_start := "2026-01-30"; tw_end := "2026-02-01";
                      tw_hours_before := 24; tw_hours_after := 24 |} evs),
       two_notes)
    /\ exists days, date_headers PNone evs = Some (map PStr days) /\ NoDup days.
Proof.
  eexists. split; [vm_compute; reflexivity |].
  destruct (timeline_headers_once reference_platform two_notes two_notes
              None (Some "2026-01-31") None 24 24 None _ _ eq_refl eq_refl)
    as (days & Hd & _ & Hnd & _).
  exists days. split; [exact Hd | exact Hnd].
Defined.
